(** * smartapply-ai: the resume-to-application-artifacts pipeline

    A shallow embedding of the two programs that make up the pipeline:

    - [server/index.ts], the [POST /api/analyze-resume] handler that issues up
      to four chat-completion requests and assembles one [Analysis] object;
    - the [ResumeAnalyzer] React component, whose handlers [handleFileUpload],
      [handleGenerateCoverLetter] and [handleAnalyze] extract the text of a
      PDF, call the server and store the result.

    JavaScript strings are sequences of UTF-16 code units, so they are lists
    of [N] here; [js] turns an ASCII literal into such a list.  The remote
    completion service, the network and the PDF decoder are inputs of the
    model (oracles), never assumptions. *)

From Stdlib Require Import List ZArith NArith String Ascii Bool Lia.
From Stdlib Require QArith.
Import ListNotations.

Set Implicit Arguments.

(* ===================================================================== *)
(** * JavaScript strings *)
(* ===================================================================== *)

Module JsString.

Local Open Scope N_scope.

(** A string value: its UTF-16 code units, in order. *)
Definition jsstring := list N.

(** An ASCII literal as a JavaScript string. *)
Definition js (s : string) : jsstring :=
  List.map N_of_ascii (list_ascii_of_string s).

(** The double quote, which a literal of this file cannot contain. *)
Definition dq : jsstring := [34].

Definition str_eqb (a b : jsstring) : bool :=
  if list_eq_dec N.eq_dec a b then true else false.

(** Truthiness of a string: every string but the empty one. *)
Definition truthy (s : jsstring) : bool :=
  match s with [] => false | _ :: _ => true end.

(** [WhiteSpace] and [LineTerminator] of ECMA-262, the code units that
    [String.prototype.trim] removes. *)
Definition is_whitespace (c : N) : bool :=
  (c =? 9) || (c =? 10) || (c =? 11) || (c =? 12) || (c =? 13) || (c =? 32)
  || (c =? 160) || (c =? 5760)
  || ((8192 <=? c) && (c <=? 8202))
  || (c =? 8232) || (c =? 8233) || (c =? 8239) || (c =? 8287)
  || (c =? 12288) || (c =? 65279).

Fixpoint trimStart (s : jsstring) : jsstring :=
  match s with
  | [] => []
  | c :: r => if is_whitespace c then trimStart r else s
  end.

Definition trimEnd (s : jsstring) : jsstring := rev (trimStart (rev s)).

(** [s.trim()] *)
Definition trim (s : jsstring) : jsstring := trimEnd (trimStart s).

(** [s.startsWith(p)] *)
Fixpoint startsWith (s p : jsstring) : bool :=
  match p, s with
  | [], _ => true
  | _ :: _, [] => false
  | a :: p', b :: s' => (a =? b) && startsWith s' p'
  end.

(** [s.endsWith(p)] *)
Definition endsWith (s p : jsstring) : bool := startsWith (rev s) (rev p).

Fixpoint indexOf_from (s p : jsstring) (i : Z) : Z :=
  if startsWith s p then i
  else match s with
       | [] => (-1)%Z
       | _ :: s' => indexOf_from s' p (i + 1)%Z
       end.

(** [s.indexOf(p)]: the least position at which [p] occurs, or [-1]. *)
Definition indexOf (s p : jsstring) : Z := indexOf_from s p 0%Z.

Fixpoint lastIndexOf_from (s p : jsstring) (i last : Z) : Z :=
  let last' := if startsWith s p then i else last in
  match s with
  | [] => last'
  | _ :: s' => lastIndexOf_from s' p (i + 1)%Z last'
  end.

(** [s.lastIndexOf(p)]: the greatest position at which [p] occurs, or [-1]. *)
Definition lastIndexOf (s p : jsstring) : Z := lastIndexOf_from s p 0%Z (-1)%Z.

(** [s.includes(p)] *)
Definition includes (s p : jsstring) : bool := negb (indexOf s p =? -1)%Z.

(** The clamping of a relative index that [slice] performs. *)
Definition clamp_index (len k : Z) : Z :=
  if (k <? 0)%Z then Z.max (len + k) 0 else Z.min k len.

(** [s.slice(start, end)] *)
Definition slice (s : jsstring) (start stop : Z) : jsstring :=
  let len := Z.of_nat (List.length s) in
  let from := clamp_index len start in
  let to := clamp_index len stop in
  firstn (Z.to_nat (to - from)) (skipn (Z.to_nat from) s).

(** [s.toLowerCase()] on the letters A to Z.  The case mappings of Unicode
    outside that range are left out: none of them yields [.], [p], [d] or
    [f], the only code units the one caller compares against. *)
Definition lower_unit (c : N) : N :=
  if (65 <=? c) && (c <=? 90) then c + 32 else c.

Definition toLowerCase (s : jsstring) : jsstring := List.map lower_unit s.

(** [parts.join(sep)] for an array of strings. *)
Fixpoint join (sep : jsstring) (parts : list jsstring) : jsstring :=
  match parts with
  | [] => []
  | [p] => p
  | p :: rest => p ++ sep ++ join sep rest
  end.

(** Decimal digits of a non-negative integer, as [String(n)] prints them. *)
Fixpoint digits_fuel (fuel : nat) (n : N) (acc : jsstring) : jsstring :=
  match fuel with
  | O => acc
  | S f =>
      let acc' := (48 + n mod 10) :: acc in
      if n / 10 =? 0 then acc' else digits_fuel f (n / 10) acc'
  end.

Definition of_N (n : N) : jsstring := digits_fuel (S (N.to_nat (N.log2 n))) n [].

End JsString.

Import JsString.

(* ===================================================================== *)
(** * JSON values and [JSON.parse] *)
(* ===================================================================== *)

Module Json.

Local Open Scope N_scope.

(** A value as [JSON.parse] or [Response.json] produces it.  A number is
    kept as the text of its literal; the Number value the literal denotes
    is computed where a program looks at it (see [JsNumber]).  An object
    keeps its members in source order, duplicates included; [lookup] reads
    them as the properties of the object. *)
#[warnings="-register-all"]
Inductive JSON : Type :=
| JNull
| JBool (b : bool)
| JNumber (literal : jsstring)
| JString (s : jsstring)
| JArray (elements : list JSON)
| JObject (members : list (jsstring * JSON)).

(** The outcome of one parsing function: a value and the unread input, a
    syntax error, or an exhausted recursion budget. *)
Inductive presult (A : Type) : Type :=
| POk (a : A) (rest : jsstring)
| PSyntaxError
| POutOfFuel.

Arguments PSyntaxError {A}.
Arguments POutOfFuel {A}.

(** JSON white space: tab, line feed, carriage return, space. *)
Definition is_json_ws (c : N) : bool :=
  (c =? 9) || (c =? 10) || (c =? 13) || (c =? 32).

Fixpoint skip_ws (s : jsstring) : jsstring :=
  match s with
  | [] => []
  | c :: r => if is_json_ws c then skip_ws r else s
  end.

Definition is_digit (c : N) : bool := (48 <=? c) && (c <=? 57).

Definition hex_value (c : N) : option N :=
  if is_digit c then Some (c - 48)
  else if (97 <=? c) && (c <=? 102) then Some (c - 87)
  else if (65 <=? c) && (c <=? 70) then Some (c - 55)
  else None.

Definition hex4 (a b c d : N) : option N :=
  match hex_value a, hex_value b, hex_value c, hex_value d with
  | Some x, Some y, Some z, Some w => Some (((x * 16 + y) * 16 + z) * 16 + w)
  | _, _, _, _ => None
  end.

(** The code unit a one-letter escape stands for. *)
Definition unescape (e : N) : option N :=
  if e =? 34 then Some 34          (* quote *)
  else if e =? 92 then Some 92     (* backslash *)
  else if e =? 47 then Some 47     (* slash *)
  else if e =? 98 then Some 8      (* b: backspace *)
  else if e =? 102 then Some 12    (* f: form feed *)
  else if e =? 110 then Some 10    (* n: line feed *)
  else if e =? 114 then Some 13    (* r: carriage return *)
  else if e =? 116 then Some 9     (* t: tab *)
  else None.

(** The characters of a string literal after its opening quote, up to and
    including the closing quote. *)
Fixpoint parse_chars (s : jsstring) : option (jsstring * jsstring) :=
  match s with
  | [] => None
  | c :: r =>
      if c =? 34 then Some ([], r)
      else if c =? 92 then
        match r with
        | [] => None
        | e :: r1 =>
            if e =? 117 then
              match r1 with
              | a :: b :: c1 :: d :: r2 =>
                  match hex4 a b c1 d with
                  | Some u =>
                      match parse_chars r2 with
                      | Some (str, rest) => Some (u :: str, rest)
                      | None => None
                      end
                  | None => None
                  end
              | _ => None
              end
            else
              match unescape e with
              | Some u =>
                  match parse_chars r1 with
                  | Some (str, rest) => Some (u :: str, rest)
                  | None => None
                  end
              | None => None
              end
        end
      else if c <? 32 then None
      else
        match parse_chars r with
        | Some (str, rest) => Some (c :: str, rest)
        | None => None
        end
  end.

(** The longest run of digits at the head of the input. *)
Fixpoint span_digits (s : jsstring) : jsstring * jsstring :=
  match s with
  | c :: r =>
      if is_digit c then let (ds, rest) := span_digits r in (c :: ds, rest)
      else ([], s)
  | [] => ([], [])
  end.

(** [int]: a single zero, or a non-zero digit followed by digits. *)
Definition parse_int (s : jsstring) : option (jsstring * jsstring) :=
  match s with
  | c :: r =>
      if c =? 48 then Some ([c], r)
      else if is_digit c then let (ds, rest) := span_digits r in Some (c :: ds, rest)
      else None
  | [] => None
  end.

(** [frac]: nothing, or a point followed by at least one digit. *)
Definition parse_frac (s : jsstring) : option (jsstring * jsstring) :=
  match s with
  | c :: r =>
      if c =? 46 then
        match span_digits r with
        | ([], _) => None
        | (ds, rest) => Some (c :: ds, rest)
        end
      else Some ([], s)
  | [] => Some ([], s)
  end.

(** [exp]: nothing, or [e]/[E], an optional sign and at least one digit. *)
Definition parse_exp (s : jsstring) : option (jsstring * jsstring) :=
  match s with
  | c :: r =>
      if (c =? 101) || (c =? 69) then
        let (sign, r1) :=
          match r with
          | g :: r' => if (g =? 43) || (g =? 45) then ([g], r') else ([], r)
          | [] => ([], r)
          end in
        match span_digits r1 with
        | ([], _) => None
        | (ds, rest) => Some (c :: sign ++ ds, rest)
        end
      else Some ([], s)
  | [] => Some ([], s)
  end.

Definition parse_number (s : jsstring) : option (jsstring * jsstring) :=
  let (sign, r0) :=
    match s with
    | c :: r => if c =? 45 then ([c], r) else ([], s)
    | [] => ([], s)
    end in
  match parse_int r0 with
  | None => None
  | Some (i, r1) =>
      match parse_frac r1 with
      | None => None
      | Some (f, r2) =>
          match parse_exp r2 with
          | None => None
          | Some (e, r3) => Some (sign ++ i ++ f ++ e, r3)
          end
      end
  end.

(** A fixed word ([true], [false], [null]) at the head of the input. *)
Definition parse_word (w : jsstring) (v : JSON) (s : jsstring) : presult JSON :=
  if startsWith s w then POk v (skipn (List.length w) s) else PSyntaxError.

(** The recursive part of the grammar.  [parse_value] reads one value from
    input without leading white space; [parse_elements] reads the elements
    of an array after its first one is known to exist, and
    [parse_members] the members of an object likewise; both collect what
    they read in reverse. *)
Fixpoint parse_value (fuel : nat) (s : jsstring) {struct fuel} : presult JSON :=
  match fuel with
  | O => POutOfFuel
  | S f =>
      match s with
      | [] => PSyntaxError
      | c :: r =>
          if c =? 123 then                                   (* { *)
            match skip_ws r with
            | c' :: r' =>
                if c' =? 125 then POk (JObject []) r'
                else
                  match parse_members f (skip_ws r) [] with
                  | POk ms rest => POk (JObject ms) rest
                  | PSyntaxError => PSyntaxError
                  | POutOfFuel => POutOfFuel
                  end
            | [] => PSyntaxError
            end
          else if c =? 91 then                               (* [ *)
            match skip_ws r with
            | c' :: r' =>
                if c' =? 93 then POk (JArray []) r'
                else
                  match parse_elements f (skip_ws r) [] with
                  | POk es rest => POk (JArray es) rest
                  | PSyntaxError => PSyntaxError
                  | POutOfFuel => POutOfFuel
                  end
            | [] => PSyntaxError
            end
          else if c =? 34 then
            match parse_chars r with
            | Some (str, rest) => POk (JString str) rest
            | None => PSyntaxError
            end
          else if c =? 116 then parse_word (js "true") (JBool true) s
          else if c =? 102 then parse_word (js "false") (JBool false) s
          else if c =? 110 then parse_word (js "null") JNull s
          else
            match parse_number s with
            | Some (lit, rest) => POk (JNumber lit) rest
            | None => PSyntaxError
            end
      end
  end

with parse_elements (fuel : nat) (s : jsstring) (acc : list JSON) {struct fuel}
  : presult (list JSON) :=
  match fuel with
  | O => POutOfFuel
  | S f =>
      match parse_value f s with
      | POk v rest =>
          match skip_ws rest with
          | c :: r =>
              if c =? 44 then parse_elements f (skip_ws r) (v :: acc)
              else if c =? 93 then POk (rev (v :: acc)) r
              else PSyntaxError
          | [] => PSyntaxError
          end
      | PSyntaxError => PSyntaxError
      | POutOfFuel => POutOfFuel
      end
  end

with parse_members (fuel : nat) (s : jsstring) (acc : list (jsstring * JSON))
  {struct fuel} : presult (list (jsstring * JSON)) :=
  match fuel with
  | O => POutOfFuel
  | S f =>
      match s with
      | c :: r =>
          if c =? 34 then
            match parse_chars r with
            | Some (key, rest) =>
                match skip_ws rest with
                | c1 :: r1 =>
                    if c1 =? 58 then
                      match parse_value f (skip_ws r1) with
                      | POk v rest2 =>
                          match skip_ws rest2 with
                          | c2 :: r2 =>
                              if c2 =? 44 then
                                parse_members f (skip_ws r2) ((key, v) :: acc)
                              else if c2 =? 125 then POk (rev ((key, v) :: acc)) r2
                              else PSyntaxError
                          | [] => PSyntaxError
                          end
                      | PSyntaxError => PSyntaxError
                      | POutOfFuel => POutOfFuel
                      end
                    else PSyntaxError
                | [] => PSyntaxError
                end
            | None => PSyntaxError
            end
          else PSyntaxError
      | [] => PSyntaxError
      end
  end.

(** A recursion budget that no input exhausts (see [parse_text_fuel]). *)
Definition fuel_for (s : jsstring) : nat := 2 * List.length s + 2.

(** One JSON text: white space, a value, white space, end of input. *)
Definition parse_text (s : jsstring) : presult JSON :=
  match parse_value (fuel_for s) (skip_ws s) with
  | POk v rest =>
      match skip_ws rest with
      | [] => POk v []
      | _ :: _ => PSyntaxError
      end
  | PSyntaxError => PSyntaxError
  | POutOfFuel => POutOfFuel
  end.

(** [JSON.parse(s)]: the value, or [None] where it throws a [SyntaxError]. *)
Definition JSON_parse (s : jsstring) : option JSON :=
  match parse_text s with
  | POk v _ => Some v
  | _ => None
  end.

(** [Array.isArray(v)] *)
Definition isArray (v : option JSON) : bool :=
  match v with Some (JArray _) => true | _ => false end.

(** The own property [k] of an object: of members with one key the last
    wins, as when [JSON.parse] defines them one after the other. *)
Fixpoint lookup (k : jsstring) (ms : list (jsstring * JSON)) : option JSON :=
  match ms with
  | [] => None
  | (k', v) :: rest =>
      match lookup k rest with
      | Some v' => Some v'
      | None => if str_eqb k k' then Some v else None
      end
  end.

End Json.

Import Json.

(* ===================================================================== *)
(** * Number values *)
(* ===================================================================== *)

(** The Number value a JSON number literal denotes, and [Number::toString].
    All arithmetic is exact, on integers. *)
Module JsNumber.

Local Open Scope Z_scope.

(** The Number values that a JSON text can denote (there is no literal for
    NaN): a zero, a finite value [m * 2^e] with [0 < m < 2^53] and
    [-1074 <= e <= 971], or an infinity. *)
Inductive Number : Type :=
| Zero (negative : bool)
| Finite (negative : bool) (m e : Z)
| Infinite (negative : bool).

(** The value of a run of decimal digits that follows the value [acc]. *)
Fixpoint digits_value (ds : jsstring) (acc : Z) : Z :=
  match ds with
  | [] => acc
  | c :: r => digits_value r (10 * acc + (Z.of_N c - 48))
  end.

(** A literal of the JSON grammar read as [coefficient * 10^exponent];
    [digits] counts the digits of the coefficient as written. *)
Record Decimal := {
  negative : bool;
  coefficient : Z;
  exponent : Z;
  digits : Z
}.

Definition decimal_of (lit : jsstring) : Decimal :=
  let (neg, r0) :=
    match lit with
    | c :: r => if (c =? 45)%N then (true, r) else (false, lit)
    | [] => (false, lit)
    end in
  let (int, r1) := Json.span_digits r0 in
  let (frac, r2) :=
    match r1 with
    | c :: r => if (c =? 46)%N then Json.span_digits r else ([], r1)
    | [] => ([], r1)
    end in
  let exp :=
    match r2 with
    | c :: r =>
        if (c =? 101)%N || (c =? 69)%N then
          match r with
          | g :: r' =>
              if (g =? 45)%N then - digits_value (fst (Json.span_digits r')) 0
              else if (g =? 43)%N then digits_value (fst (Json.span_digits r')) 0
              else digits_value (fst (Json.span_digits r)) 0
          | [] => 0
          end
        else 0
    | [] => 0
    end in
  {| negative := neg;
     coefficient := digits_value (int ++ frac) 0;
     exponent := exp - Z.of_nat (List.length frac);
     digits := Z.of_nat (List.length (int ++ frac)) |}.

(** [n / d] rounded to the nearest integer, a tie to the even one. *)
Definition round_half_even (n d : Z) : Z :=
  let q := n / d in
  match (2 * (n mod d) ?= d) with
  | Lt => q
  | Gt => q + 1
  | Eq => if Z.even q then q else q + 1
  end.

(** The fraction [n / d] divided by [2^e], as a fraction again. *)
Definition scale2 (n d e : Z) : Z * Z :=
  (n * 2 ^ Z.max 0 (- e), d * 2 ^ Z.max 0 e).

(** The fraction [n / d] divided by [10^e]. *)
Definition scale10 (n d e : Z) : Z * Z :=
  (n * 10 ^ Z.max 0 (- e), d * 10 ^ Z.max 0 e).

(** The greatest [e] with [2^e <= n / d], for positive [n] and [d]: the
    difference of the two logarithms, or one less. *)
Definition floor_log2 (n d : Z) : Z :=
  let e := Z.log2 n - Z.log2 d in
  let (a, b) := scale2 n d e in
  if a <? b then e - 1 else e.

(** The Number value nearest to the fraction [n / d] (with [0 <= n] and
    [0 < d]), a tie going to the even significand: 53 significant bits,
    fewer below [2^-1022], an infinity from [2^1024 - 2^970] on. *)
Definition nearest (neg : bool) (n d : Z) : Number :=
  if n =? 0 then Zero neg
  else
    let e := Z.max (floor_log2 n d - 52) (-1074) in
    let (a, b) := scale2 n d e in
    let m := round_half_even a b in
    if m =? 0 then Zero neg
    else
      let (m', e') := if m =? 2 ^ 53 then (2 ^ 52, e + 1) else (m, e) in
      if 971 <? e' then Infinite neg else Finite neg m' e'.

(** The Number value of a literal.  A coefficient that is not zero is at
    least 1 and less than [10^digits], so an exponent above 400 gives an
    infinity and one below [-330 - digits] a zero without any further
    arithmetic. *)
Definition of_literal (lit : jsstring) : Number :=
  let d := decimal_of lit in
  if coefficient d =? 0 then Zero (negative d)
  else if 400 <? exponent d then Infinite (negative d)
  else if digits d + exponent d <? -330 then Zero (negative d)
  else
    let (a, b) := scale10 (coefficient d) 1 (- exponent d) in
    nearest (negative d) a b.

(** The least [n], from [n] upwards, with [a / b < 10^n].  The search
    starts just below the answer: [2^l <= a / b] gives
    [10^(l * 1233 / 4096 - 1) <= a / b], as 1233/4096 differs from the
    decimal logarithm of 2 by less than 5 millionths. *)
Fixpoint magnitude (fuel : nat) (a b n : Z) : Z :=
  match fuel with
  | O => n
  | S f =>
      let (x, y) := scale10 a b n in
      if x <? y then n else magnitude f a b (n + 1)
  end.

(** For the value [m * 2^e] and given [k] and [n]: the integer [s] with
    [10^(k-1) <= s < 10^k] for which [s * 10^(n-k)] has that Number value,
    the one nearest to the value if there are two (the even one on a
    tie). *)
Definition candidate (m e k n : Z) : option Z :=
  let (va, vb) := scale2 m 1 (- e) in
  let (a, b) := scale10 va vb (n - k) in
  let lo := a / b in
  let hi := if a mod b =? 0 then lo else lo + 1 in
  let fits (s : Z) : bool :=
    (10 ^ (k - 1) <=? s) && (s <? 10 ^ k)
    && let (sa, sb) := scale10 s 1 (k - n) in
       match nearest false sa sb with
       | Finite _ m' e' => (m' =? m) && (e' =? e)
       | _ => false
       end in
  match fits lo, fits hi with
  | true, true =>
      match (2 * (a mod b) ?= b) with
      | Lt => Some lo
      | Gt => Some hi
      | Eq => Some (if Z.even lo then lo else hi)
      end
  | true, false => Some lo
  | false, true => Some hi
  | false, false => None
  end.

(** Which of the two fractions is nearer to [va / vb]: [Lt] the first. *)
Definition nearer (va vb a1 b1 a2 b2 : Z) : comparison :=
  (Z.abs (a1 * vb - va * b1) * b2 ?= Z.abs (a2 * vb - va * b2) * b1).

(** The shortest digits: the least [k], from [k] upwards, for which there
    is such an [s], with [n] or with [n + 1]; of two, the one nearest to
    the value (the even one on a tie). *)
Fixpoint shortest (fuel : nat) (m e k n : Z) : Z * Z :=
  match fuel with
  | O => (0, n)
  | S f =>
      match candidate m e k n, candidate m e k (n + 1) with
      | Some s, None => (s, n)
      | None, Some s => (s, n + 1)
      | Some s1, Some s2 =>
          let (va, vb) := scale2 m 1 (- e) in
          let (a1, b1) := scale10 s1 1 (k - n) in
          let (a2, b2) := scale10 s2 1 (k - (n + 1)) in
          match nearer va vb a1 b1 a2 b2 with
          | Lt => (s1, n)
          | Gt => (s2, n + 1)
          | Eq => if Z.even s1 then (s1, n) else (s2, n + 1)
          end
      | None, None => shortest f m e (k + 1) n
      end
  end.

Definition zeros (n : Z) : jsstring := List.repeat 48%N (Z.to_nat n).

(** The text for the digits [ds] of [s] and the [n] that go with them
    (steps 7 to 11 of Number::toString in ECMA-262, radix 10). *)
Definition layout (ds : jsstring) (n : Z) : jsstring :=
  let k := Z.of_nat (List.length ds) in
  if (k <=? n) && (n <=? 21) then ds ++ zeros (n - k)
  else if (0 <? n) && (n <=? 21) then
    firstn (Z.to_nat n) ds ++ js "." ++ skipn (Z.to_nat n) ds
  else if (-6 <? n) && (n <=? 0) then js "0." ++ zeros (- n) ++ ds
  else
    let exp := (if n - 1 <? 0 then js "-" else js "+") ++ of_N (Z.abs_N (n - 1)) in
    match ds with
    | [] => []
    | [d] => d :: js "e" ++ exp
    | d :: r => d :: js "." ++ r ++ js "e" ++ exp
    end.

(** [String(x)] for a Number value. *)
Definition toString (x : Number) : jsstring :=
  match x with
  | Zero _ => js "0"
  | Infinite neg => (if neg then js "-" else []) ++ js "Infinity"
  | Finite neg m e =>
      let (va, vb) := scale2 m 1 (- e) in
      let n := magnitude 640 va vb (floor_log2 va vb * 1233 / 4096 - 1) in
      let (s, n') := shortest 17 m e 1 n in
      (if neg then js "-" else []) ++ layout (of_N (Z.to_N s)) n'
  end.

End JsNumber.

(* ===================================================================== *)
(** * Computations that hold a state and may throw *)
(* ===================================================================== *)

(** A computation over a mutable state [St] that ends with a value or with a
    thrown value [E].  What was written to the state before a throw stays
    written, as for a JavaScript object mutated inside a [try] block. *)
Module Eff.

Section Computation.

Variables St E : Type.

Definition M (A : Type) : Type := St -> (E + A) * St.

Definition ret {A : Type} (a : A) : M A := fun st => (inr a, st).

Definition bind {A B : Type} (m : M A) (k : A -> M B) : M B :=
  fun st =>
    match m st with
    | (inr a, st') => k a st'
    | (inl e, st') => (inl e, st')
    end.

Definition throw {A : Type} (e : E) : M A := fun st => (inl e, st).

(** [try { m } catch (e) { h e }] *)
Definition try_catch {A : Type} (m : M A) (h : E -> M A) : M A :=
  fun st =>
    match m st with
    | (inr a, st') => (inr a, st')
    | (inl e, st') => h e st'
    end.

(** [try { m } finally { f }], for a [finally] block that cannot throw. *)
Definition try_finally {A : Type} (m : M A) (f : St -> St) : M A :=
  fun st => let (r, st') := m st in (r, f st').

Definition get : M St := fun st => (inr st, st).

Definition modify (f : St -> St) : M unit := fun st => (inr tt, f st).

(** [if (c) { m }] *)
Definition when (c : bool) (m : M unit) : M unit := if c then m else ret tt.

End Computation.

Arguments ret {St E A} a.
Arguments throw {St E A} e.
Arguments get {St E}.
Arguments modify {St E} f.
Arguments when {St E} c m.

End Eff.

Import Eff.

Declare Scope eff_scope.
Delimit Scope eff_scope with eff.
Notation "x <- m ;; k" := (bind m (fun x => k))
  (at level 61, m at next level, right associativity) : eff_scope.
Notation "m ;; k" := (bind m (fun _ => k))
  (at level 61, right associativity) : eff_scope.

(** A value a promise rejects with or a statement throws: an [Error] with
    its message, or a value that is no [Error]. *)
Inductive thrown : Type :=
| ErrorObj (message : jsstring)
| NonError.

(** [err instanceof Error ? err.message : fallback] *)
Definition message_or (err : thrown) (fallback : jsstring) : jsstring :=
  match err with ErrorObj m => m | NonError => fallback end.

(** The text of a template literal.  Such text cannot contain a backquote,
    so in the literals of this file a backquote stands for the double
    quote. *)
Definition tpl (s : string) : jsstring :=
  List.map (fun a => if Ascii.eqb a "`"%char then 34%N else N_of_ascii a)
           (list_ascii_of_string s).

(* ===================================================================== *)
(** * Conversions of values *)
(* ===================================================================== *)

(** The conversions the two programs apply to values that [JSON.parse] or
    [Response.json] made.  Such a value is never a function, and an object
    or array among them has no own property but its members or elements. *)
Module JsValue.

Local Open Scope list_scope.

(** Truthiness of a value that may be [undefined]. *)
Definition ToBoolean (v : option JSON) : bool :=
  match v with
  | None => false
  | Some JNull => false
  | Some (JBool b) => b
  | Some (JNumber lit) =>
      match JsNumber.of_literal lit with
      | JsNumber.Zero _ => false
      | _ => true
      end
  | Some (JString s) => truthy s
  | Some (JArray _) => true
  | Some (JObject _) => true
  end.

(** [String(v)], or [None] where the conversion throws a [TypeError].  An
    object inherits [toString] and prints as [[object Object]], unless it
    has a member of that name: the member is not callable, and [valueOf]
    does not give a primitive either.  An array joins the texts of its
    elements with commas, [null] counting as the empty string. *)
Fixpoint ToString (v : JSON) : option jsstring :=
  match v with
  | JNull => Some (js "null")
  | JBool true => Some (js "true")
  | JBool false => Some (js "false")
  | JNumber lit => Some (JsNumber.toString (JsNumber.of_literal lit))
  | JString s => Some s
  | JArray l =>
      (fix elements (l : list JSON) : option jsstring :=
         match l with
         | [] => Some []
         | x :: r =>
             match (match x with JNull => Some [] | _ => ToString x end) with
             | None => None
             | Some here =>
                 match r with
                 | [] => Some here
                 | _ :: _ =>
                     match elements r with
                     | None => None
                     | Some rest => Some (here ++ js "," ++ rest)
                     end
                 end
             end
         end) l
  | JObject ms =>
      match lookup (js "toString") ms with
      | Some _ => None
      | None => Some (js "[object Object]")
      end
  end.

(** The messages of the [TypeError]s that come up, in the wording of V8. *)
Definition not_primitive_message : jsstring :=
  js "Cannot convert object to primitive value".

Definition null_read_message (k : jsstring) : jsstring :=
  js "Cannot read properties of null (reading '" ++ k ++ js "')".

Definition not_a_function_message (callee : jsstring) : jsstring :=
  callee ++ js " is not a function".

(** A value placed in a template literal: its text, or the error thrown. *)
Definition template_part (v : option JSON) : thrown + jsstring :=
  match v with
  | None => inr (js "undefined")
  | Some x =>
      match ToString x with
      | Some s => inr s
      | None => inl (ErrorObj not_primitive_message)
      end
  end.

(** [new Error(v).message], or the message of the error that making the
    [Error] throws. *)
Definition Error_message (v : JSON) : jsstring :=
  match ToString v with
  | Some s => s
  | None => not_primitive_message
  end.

(** [v.length] for a value that is not [null]. *)
Definition length_of (v : JSON) : option JSON :=
  match v with
  | JString s => Some (JNumber (of_N (N.of_nat (List.length s))))
  | JArray l => Some (JNumber (of_N (N.of_nat (List.length l))))
  | JObject ms => lookup (js "length") ms
  | _ => None
  end.

End JsValue.

Import JsValue.

(* ===================================================================== *)
(** * The server: [POST /api/analyze-resume] *)
(* ===================================================================== *)

Module Server.

Local Open Scope string_scope.
Local Open Scope list_scope.

(** ** The chat-completion client *)

Record ChatMessage := { role : jsstring; content : jsstring }.

Record ChatRequest := {
  model : jsstring;
  messages : list ChatMessage;
  temperature : QArith_base.Q
}.

Record CompletionMessage := { message_content : option jsstring }.
Record Choice := { message : option CompletionMessage }.
Record ChatCompletion := { choices : list Choice }.

(** The remote service behind [openai.chat.completions.create]: given the
    requests it has received before (oldest first) and a new one, it
    rejects or answers. *)
Definition OpenAI := list ChatRequest -> ChatRequest -> thrown + ChatCompletion.

(** [resp.choices[0]?.message?.content || ""] *)
Definition first_content (resp : ChatCompletion) : jsstring :=
  match choices resp with
  | [] => []
  | c :: _ =>
      match message c with
      | None => []
      | Some m =>
          match message_content m with
          | None => []
          | Some s => s
          end
      end
  end.

(** ** The result object *)

Record Analysis := {
  strengths : list JSON;
  improvements : list JSON;
  tailoring : list JSON;
  customizedResume : option jsstring;
  specificChanges : option jsstring;
  coverLetter : option jsstring
}.

(** The object the handler starts from. *)
Definition fallback_analysis : Analysis := {|
  strengths := [
    JString (js "Solid technical foundation communicated clearly.");
    JString (js "Highlights relevant experience and impact-driven bullet points.")
  ];
  improvements := [
    JString (js "Quantify achievements (e.g., impact, metrics) wherever possible.");
    JString (js "Add a short summary that aligns with the target role's keywords.")
  ];
  tailoring := [
    JString (js "Mirror key phrases from the job description in the skills section.");
    JString (js "Mention recent projects that demonstrate the required tools or domains.")
  ];
  customizedResume := None;
  specificChanges := None;
  coverLetter := None
|}.

(** The handler's mutable data: the [analysis] object and, as a record of
    what it did, the requests issued so far (oldest first). *)
Record State := { analysis : Analysis; issued : list ChatRequest }.

Definition Task := M State thrown.

(** Assignments to the fields of [analysis]. *)
Definition with_strengths (v : list JSON) (a : Analysis) : Analysis :=
  {| strengths := v;
     improvements := improvements a;
     tailoring := tailoring a;
     customizedResume := customizedResume a;
     specificChanges := specificChanges a;
     coverLetter := coverLetter a |}.

Definition with_improvements (v : list JSON) (a : Analysis) : Analysis :=
  {| strengths := strengths a;
     improvements := v;
     tailoring := tailoring a;
     customizedResume := customizedResume a;
     specificChanges := specificChanges a;
     coverLetter := coverLetter a |}.

Definition with_tailoring (v : list JSON) (a : Analysis) : Analysis :=
  {| strengths := strengths a;
     improvements := improvements a;
     tailoring := v;
     customizedResume := customizedResume a;
     specificChanges := specificChanges a;
     coverLetter := coverLetter a |}.

Definition with_customizedResume (v : jsstring) (a : Analysis) : Analysis :=
  {| strengths := strengths a;
     improvements := improvements a;
     tailoring := tailoring a;
     customizedResume := Some v;
     specificChanges := specificChanges a;
     coverLetter := coverLetter a |}.

Definition with_specificChanges (v : jsstring) (a : Analysis) : Analysis :=
  {| strengths := strengths a;
     improvements := improvements a;
     tailoring := tailoring a;
     customizedResume := customizedResume a;
     specificChanges := Some v;
     coverLetter := coverLetter a |}.

Definition with_coverLetter (v : jsstring) (a : Analysis) : Analysis :=
  {| strengths := strengths a;
     improvements := improvements a;
     tailoring := tailoring a;
     customizedResume := customizedResume a;
     specificChanges := specificChanges a;
     coverLetter := Some v |}.

Definition assign (f : Analysis -> Analysis) : Task unit :=
  modify (fun st => {| analysis := f (analysis st); issued := issued st |}).

Definition set_strengths (v : list JSON) : Task unit := assign (with_strengths v).
Definition set_improvements (v : list JSON) : Task unit := assign (with_improvements v).
Definition set_tailoring (v : list JSON) : Task unit := assign (with_tailoring v).
Definition set_customizedResume (v : jsstring) : Task unit := assign (with_customizedResume v).
Definition set_specificChanges (v : jsstring) : Task unit := assign (with_specificChanges v).
Definition set_coverLetter (v : jsstring) : Task unit := assign (with_coverLetter v).

(** The argument of each call: the fixed model and one user message. *)
Definition user_request (prompt : jsstring) (t : QArith_base.Q) : ChatRequest :=
  {| model := js "gpt-4o-mini";
     messages := [ {| role := js "user"; content := prompt |} ];
     temperature := t |}.

(** [await openai.chat.completions.create(req)], whose [.catch] logs the
    error and throws it again. *)
Definition create (openai : OpenAI) (req : ChatRequest) : Task ChatCompletion :=
  fun st =>
    (openai (issued st) req,
     {| analysis := analysis st; issued := issued st ++ [req] |}).

Definition t07 : QArith_base.Q := QArith_base.Qmake 7 10.
Definition t08 : QArith_base.Q := QArith_base.Qmake 8 10.

(** ** The prompts *)

Definition analysisPrompt_text (resumeText jobDescription : jsstring) : jsstring :=
  tpl "
You are a resume coach. Given the resume text and optional job description,
return STRICT JSON with keys: strengths, improvements, tailoring (arrays of strings).
No prose. Example:
{
  `strengths`: [`...`],
  `improvements`: [`...`],
  `tailoring`: [`...`]
}

Resume:
"
  ++ resumeText
  ++ tpl "

Job description (optional):
"
  ++ jobDescription
  ++ tpl "
".

Definition customizePrompt_text (resumeText jobDescription : jsstring) : jsstring :=
  tpl "
You are a professional resume writer. Customize the following resume to match the job description provided.
Rewrite the resume to highlight relevant skills, experiences, and achievements that align with the job requirements.

IMPORTANT STYLE GUIDELINES:
- Write in natural, human language that flows smoothly when read aloud
- Use conversational yet professional tone - avoid robotic or overly formal language
- Make descriptions sound authentic and engaging, as if a person is speaking about their experience
- Use active voice and clear, concise sentences
- Ensure the text reads naturally when spoken out loud
- Keep the same format and structure, but tailor the content, keywords, and emphasis to match the job description

Original Resume:
"
  ++ resumeText
  ++ tpl "

Job Description:
"
  ++ jobDescription
  ++ tpl "

Return ONLY the customized resume text. Do not include any explanations or additional text.
".

Definition specificChangesPrompt_text (resumeText jobDescription : jsstring) : jsstring :=
  tpl "
You are a resume editor. Analyze the resume and job description, then provide a clear, formatted list of specific places in the resume that need to be changed.

IMPORTANT GUIDELINES:
- DO NOT suggest changes to Education sections. Education information (degrees, institutions, dates) should remain as-is unless there are critical factual errors.
- Only suggest changes that are directly relevant to matching the job description requirements.
- Focus on: Professional Summary, Work Experience descriptions, Skills sections, and relevant achievements.
- Do not suggest adding dates or years to education entries if they are not already present.

For each change, specify:
1. The section/section name (e.g., `Professional Summary`, `Work Experience - Software Engineer at Company X`, `Skills Section`)
2. What currently exists (the current text or description)
3. What it should be changed to (the suggested change)

Format your response as clear, readable text with sections. Use this format:

SECTION: [Section Name]
CURRENT: [What currently exists]
CHANGE TO: [What it should be changed to]

[Repeat for each change]

Original Resume:
"
  ++ resumeText
  ++ tpl "

Job Description:
"
  ++ jobDescription
  ++ tpl "

Return ONLY the list of specific changes in the format above. Be specific about locations and exact text changes. Remember: DO NOT suggest changes to Education sections.
".

Definition coverLetterPrompt_text (resumeText jobDescription : jsstring) : jsstring :=
  tpl "
You are a professional cover letter writer. Write a compelling, personalized cover letter based on the resume and job description provided.

EXACT FORMATTING STRUCTURE (follow this order exactly):

1. HEADER SECTION (centered):
   - Candidate's full name (centered, bold/large)
   - Job title/position (centered, below name, smaller font)
   - Blank line

2. CONTACT INFORMATION (two columns):
   - Left side: Phone number, Email address (each on separate line)
   - Right side: LinkedIn profile URL (if available in resume)
   - Blank line

3. DIVIDER LINE:
   - Horizontal line using dashes or equal signs (at least 30 characters)
   - Blank line

4. TITLE:
   - `COVER LETTER` (centered, uppercase, can be in blue/colored if specified)
   - Blank line

5. DATE:
   - `Date: [Current Date]` (left-aligned, use format: Month Day, Year, e.g., `Date: November 7, 2025`)
   - Blank line

6. SALUTATION:
   - `Dear Hiring Manager,` (left-aligned)
   - Blank line

7. BODY (4-5 paragraphs):
   - Each paragraph should be left-aligned
   - Separate paragraphs with blank lines
   - First paragraph: Express excitement and introduce yourself
   - Middle paragraphs: Highlight relevant experience, skills, and achievements from resume
   - Last paragraph: Show enthusiasm for the role and company
   - Blank line between paragraphs

8. CLOSING:
   - `Sincerely,` (left-aligned)
   - Blank line
   - Candidate's full name (left-aligned, below Sincerely)

CONTENT GUIDELINES:
- Extract candidate's name, job title, phone, email, and LinkedIn from the resume
- Use actual information from the resume - do not use placeholders
- Address how the candidate's skills and experience align with the job requirements
- Highlight specific achievements and experiences from the resume that are relevant to the job
- Show enthusiasm for the position and company
- Use a professional but engaging tone
- Write 4-5 well-structured paragraphs

Resume:
"
  ++ resumeText
  ++ tpl "

Job Description:
"
  ++ jobDescription
  ++ tpl "

Return ONLY the formatted cover letter text following the exact structure above. Use proper line breaks and spacing. Do not include any explanations or additional text.
".

Definition analysisPrompt (resumeText jobDescription : jsstring) : jsstring :=
  trim (analysisPrompt_text resumeText jobDescription).

Definition customizePrompt (resumeText jobDescription : jsstring) : option jsstring :=
  if truthy (trim jobDescription)
  then Some (trim (customizePrompt_text resumeText jobDescription))
  else None.

Definition specificChangesPrompt (resumeText jobDescription : jsstring) : option jsstring :=
  if truthy (trim jobDescription)
  then Some (trim (specificChangesPrompt_text resumeText jobDescription))
  else None.

Definition coverLetterPrompt (resumeText jobDescription : jsstring) : jsstring :=
  trim (coverLetterPrompt_text resumeText jobDescription).

(** [if (prompt)] for a prompt that is a string or [null]. *)
Definition prompt_truthy (p : option jsstring) : bool :=
  match p with Some s => truthy s | None => false end.

Definition prompt_text (p : option jsstring) : jsstring :=
  match p with Some s => s | None => [] end.

(** ** The four tasks *)

(** [parsed.k] for the value [JSON.parse] returned: a member of an object,
    [undefined] on any other value but [null], on which the read throws. *)
Definition read_property (parsed : JSON) (k : jsstring) : option (option JSON) :=
  match parsed with
  | JNull => None
  | JObject ms => Some (lookup k ms)
  | _ => Some None
  end.

(** [Array.isArray(v) ? v : []] *)
Definition array_or_empty (v : option JSON) : list JSON :=
  match v with Some (JArray l) => l | _ => [] end.

(** The body of the [try] around [JSON.parse]: the three assignments in
    order, given up at the first step that throws (the [catch] only logs). *)
Definition read_parsed (json : jsstring) : Task unit :=
  match JSON_parse json with
  | None => ret tt
  | Some parsed =>
      match read_property parsed (js "strengths") with
      | None => ret tt
      | Some s =>
          (set_strengths (array_or_empty s) ;;
           match read_property parsed (js "improvements") with
           | None => ret tt
           | Some i =>
               (set_improvements (array_or_empty i) ;;
                match read_property parsed (js "tailoring") with
                | None => ret tt
                | Some t => set_tailoring (array_or_empty t)
                end)
           end)%eff
      end
  end.

Definition analysis_task (openai : OpenAI) (prompt : jsstring) : Task unit :=
  (analysisResp <- create openai (user_request prompt t07) ;;
   let analysisText := first_content analysisResp in
   let jsonStart := indexOf analysisText (js "{") in
   let jsonEnd := lastIndexOf analysisText (js "}") in
   when (negb (jsonStart =? -1)%Z && negb (jsonEnd =? -1)%Z && (jsonEnd >? jsonStart)%Z)
        (read_parsed (slice analysisText jsonStart (jsonEnd + 1)%Z)))%eff.

(** The test and the slice of the analysis task, by name. *)
Definition brace_test (text : jsstring) : bool :=
  negb (indexOf text (js "{") =? -1)%Z
  && negb (lastIndexOf text (js "}") =? -1)%Z
  && (lastIndexOf text (js "}") >? indexOf text (js "{"))%Z.

Definition brace_slice (text : jsstring) : jsstring :=
  slice text (indexOf text (js "{")) (lastIndexOf text (js "}") + 1)%Z.

Definition customize_task (openai : OpenAI) (prompt : option jsstring) : Task unit :=
  when (prompt_truthy prompt)
    (try_catch
       (customizeResp <- create openai (user_request (prompt_text prompt) t07) ;;
        let customizedResume := first_content customizeResp in
        when (truthy (trim customizedResume))
             (set_customizedResume (trim customizedResume)))%eff
       (fun customizeErr => ret tt)).

Definition changes_task (openai : OpenAI) (prompt : option jsstring) : Task unit :=
  when (prompt_truthy prompt)
    (try_catch
       (changesResp <- create openai (user_request (prompt_text prompt) t07) ;;
        let specificChanges := first_content changesResp in
        when (truthy (trim specificChanges))
             (set_specificChanges (trim specificChanges)))%eff
       (fun changesErr => ret tt)).

Definition empty_response_notice : jsstring :=
  js "Cover letter generation returned an empty response. Please try again.".

Definition failure_notice (coverLetterErr : thrown) : jsstring :=
  js "Cover letter generation failed: "
  ++ message_or coverLetterErr (js "Unknown error")
  ++ js ". Please try again.".

Definition cover_letter_task (openai : OpenAI) (resumeText jobDescription : jsstring)
  : Task unit :=
  when (truthy (trim jobDescription))
    (try_catch
       (coverLetterResp <-
          create openai (user_request (coverLetterPrompt resumeText jobDescription) t08) ;;
        let coverLetter := first_content coverLetterResp in
        if truthy (trim coverLetter)
        then set_coverLetter (trim coverLetter)
        else set_coverLetter empty_response_notice)%eff
       (fun coverLetterErr => set_coverLetter (failure_notice coverLetterErr))).

(** The [try] block that holds the four tasks, and its [catch], which logs
    the error and goes on to send whatever [analysis] holds. *)
Definition run_tasks (openai : OpenAI) (resumeText jobDescription : jsstring) : Task unit :=
  try_catch
    (analysis_task openai (analysisPrompt resumeText jobDescription) ;;
     customize_task openai (customizePrompt resumeText jobDescription) ;;
     changes_task openai (specificChangesPrompt resumeText jobDescription) ;;
     cover_letter_task openai resumeText jobDescription)%eff
    (fun err => ret tt).

(** The requests of the four tasks, as the handler builds them. *)
Definition analysis_request (resumeText jobDescription : jsstring) : ChatRequest :=
  user_request (analysisPrompt resumeText jobDescription) t07.

Definition customize_request (resumeText jobDescription : jsstring) : ChatRequest :=
  user_request (prompt_text (customizePrompt resumeText jobDescription)) t07.

Definition changes_request (resumeText jobDescription : jsstring) : ChatRequest :=
  user_request (prompt_text (specificChangesPrompt resumeText jobDescription)) t07.

Definition cover_letter_request (resumeText jobDescription : jsstring) : ChatRequest :=
  user_request (coverLetterPrompt resumeText jobDescription) t08.

(** ** The handler *)

(** A field the handler destructures from [req.body ?? {}]: a member of
    the body when that is an object; any other body has neither field. *)
Definition body_member (body : option JSON) (k : jsstring) : option JSON :=
  match body with
  | Some (JObject ms) => lookup k ms
  | _ => None
  end.

(** The test [!resumeText || !resumeText.trim()]: [inr None] where it
    holds, the text where it fails, and the error thrown for a truthy
    value that is no string, which has no [trim] to call. *)
Definition accepted_resume (resumeText : option JSON) : thrown + option jsstring :=
  if negb (ToBoolean resumeText) then inr None
  else
    match resumeText with
    | Some (JString s) => if negb (truthy (trim s)) then inr None else inr (Some s)
    | _ => inl (ErrorObj (not_a_function_message (js "resumeText.trim")))
    end.

(** What the handler does with [jobDescription] before its first request:
    [jobDescription.length] goes into the log line, [jobDescription] into
    the first prompt, then [jobDescription.trim()] is called.  Only a
    string gets through. *)
Definition job_description_text (jobDescription : JSON) : thrown + jsstring :=
  match jobDescription with
  | JString s => inr s
  | JNull => inl (ErrorObj (null_read_message (js "length")))
  | j =>
      match template_part (length_of j) with
      | inl e => inl e
      | inr _ =>
          match template_part (Some j) with
          | inl e => inl e
          | inr _ => inl (ErrorObj (not_a_function_message (js "jobDescription.trim")))
          end
      end
  end.

Inductive Payload : Type :=
| ErrorPayload (error : jsstring) (detail : option jsstring)
| AnalysisPayload (a : Analysis).

(** [res.status(code).json(payload)]; [res.json] alone sends status 200. *)
Record Response := { status : N; payload : Payload }.

(** The response of the outermost [catch]. *)
Definition internal_error (err : thrown) : Response :=
  {| status := 500;
     payload := ErrorPayload (js "Internal server error")
                  (Some (message_or err (js "Unknown error occurred"))) |}.

(** The handler: the response it sends and the requests it issued. *)
Definition analyze_resume (openai : option OpenAI) (body : option JSON)
  : Response * list ChatRequest :=
  match openai with
  | None =>
      ({| status := 503;
          payload := ErrorPayload (js "OpenAI API key not configured") None |}, [])
  | Some client =>
      let resumeText := body_member body (js "resumeText") in
      let jobDescription :=
        match body_member body (js "jobDescription") with
        | Some j => j
        | None => JString []
        end in
      match accepted_resume resumeText with
      | inl err => (internal_error err, [])
      | inr None =>
          ({| status := 400; payload := ErrorPayload (js "resumeText is required") None |}, [])
      | inr (Some resumeText) =>
          match job_description_text jobDescription with
          | inl err => (internal_error err, [])
          | inr jobDescription =>
              match run_tasks client resumeText jobDescription
                      {| analysis := fallback_analysis; issued := [] |} with
              | (inr _, st) =>
                  ({| status := 200; payload := AnalysisPayload (analysis st) |}, issued st)
              | (inl err, st) => (internal_error err, issued st)
              end
          end
      end
  end.

(** The shape the result type declares for the three arrays: an array
    whose elements are all strings. *)
Definition is_string (v : JSON) : bool :=
  match v with JString _ => true | _ => false end.

Definition is_string_array (v : option JSON) : bool :=
  match v with
  | Some (JArray l) => forallb is_string l
  | _ => false
  end.

(** The body that holds the two texts. *)
Definition texts_body (resumeText jobDescription : jsstring) : JSON :=
  JObject [ (js "resumeText", JString resumeText);
            (js "jobDescription", JString jobDescription) ].

(** A full-analysis run: the handler with a configured client, on a body
    that holds both fields. *)
Definition full_run (openai : OpenAI) (resumeText jobDescription : jsstring)
  : Response * list ChatRequest :=
  analyze_resume (Some openai) (Some (texts_body resumeText jobDescription)).

(** The result object of a response, when it carries one. *)
Definition result_of (r : Response) : option Analysis :=
  match payload r with
  | AnalysisPayload a => Some a
  | ErrorPayload _ _ => None
  end.

End Server.

(* ===================================================================== *)
(** * The client: the [ResumeAnalyzer] component *)
(* ===================================================================== *)

Module Client.

Local Open Scope string_scope.
Local Open Scope list_scope.

(** ** Values read from a response body *)

(** [v?.k] *)
Definition optional_property (v : JSON) (k : jsstring) : option JSON :=
  match v with
  | JObject ms => lookup k ms
  | _ => None
  end.

(** ** The component's state and what a handler does to the outside *)

Record ResumeAnalysis := {
  strengths : list JSON;
  improvements : list JSON;
  tailoring : list JSON;
  customizedResume : option jsstring;
  specificChanges : option jsstring;
  coverLetter : option jsstring
}.

Inductive TextContentItem : Type :=
| TextItem (str : jsstring)
| TextMarkedContent.

(** A page of a decoded document: what [getPage(i)] followed by
    [getTextContent()] gives, the items of the page or a thrown value. *)
Definition PageOutcome := (thrown + list TextContentItem)%type.

(** An uploaded file, with what decoding it would give: a thrown value from
    [arrayBuffer()] or [getDocument(...).promise], or the pages 1 to
    [numPages] in order. *)
Record File := {
  name : jsstring;
  type : jsstring;
  size : N;
  decoded : thrown + list PageOutcome
}.

Record Toast := {
  title : jsstring;
  description : jsstring;
  variant : option jsstring
}.

(** The body of a request, as the value [JSON.stringify] is given. *)
Record FetchRequest := {
  url : jsstring;
  method : jsstring;
  headers : list (jsstring * jsstring);
  body : JSON
}.

(** A response: its [ok] flag and status, and what [json()] resolves to or
    rejects with. *)
Record HttpResponse := {
  ok : bool;
  status : N;
  json : thrown + JSON
}.

(** The network behind [fetch]. *)
Definition Network := FetchRequest -> thrown + HttpResponse.

Inductive Event : Type :=
| Toasted (t : Toast)
| Fetched (r : FetchRequest)
| Decoded (f : File).

Record Component := {
  resumeText : jsstring;
  jobDescription : jsstring;
  isAnalyzing : bool;
  isGeneratingCoverLetter : bool;
  analysis : option ResumeAnalysis;
  uploadedFile : option File;
  isDragging : bool;
  isProcessingPDF : bool;
  activeTab : jsstring;
  (** what the handlers have done so far, oldest first *)
  events : list Event
}.

Definition Handler := M Component thrown.

Definition emit (e : Event) (c : Component) : Component :=
  {| resumeText := resumeText c; jobDescription := jobDescription c;
     isAnalyzing := isAnalyzing c;
     isGeneratingCoverLetter := isGeneratingCoverLetter c;
     analysis := analysis c; uploadedFile := uploadedFile c;
     isDragging := isDragging c; isProcessingPDF := isProcessingPDF c;
     activeTab := activeTab c; events := events c ++ [e] |}.

Definition with_resumeText (v : jsstring) (c : Component) : Component :=
  {| resumeText := v; jobDescription := jobDescription c;
     isAnalyzing := isAnalyzing c;
     isGeneratingCoverLetter := isGeneratingCoverLetter c;
     analysis := analysis c; uploadedFile := uploadedFile c;
     isDragging := isDragging c; isProcessingPDF := isProcessingPDF c;
     activeTab := activeTab c; events := events c |}.

Definition with_isAnalyzing (v : bool) (c : Component) : Component :=
  {| resumeText := resumeText c; jobDescription := jobDescription c;
     isAnalyzing := v;
     isGeneratingCoverLetter := isGeneratingCoverLetter c;
     analysis := analysis c; uploadedFile := uploadedFile c;
     isDragging := isDragging c; isProcessingPDF := isProcessingPDF c;
     activeTab := activeTab c; events := events c |}.

Definition with_isGeneratingCoverLetter (v : bool) (c : Component) : Component :=
  {| resumeText := resumeText c; jobDescription := jobDescription c;
     isAnalyzing := isAnalyzing c;
     isGeneratingCoverLetter := v;
     analysis := analysis c; uploadedFile := uploadedFile c;
     isDragging := isDragging c; isProcessingPDF := isProcessingPDF c;
     activeTab := activeTab c; events := events c |}.

Definition with_analysis (v : option ResumeAnalysis) (c : Component) : Component :=
  {| resumeText := resumeText c; jobDescription := jobDescription c;
     isAnalyzing := isAnalyzing c;
     isGeneratingCoverLetter := isGeneratingCoverLetter c;
     analysis := v; uploadedFile := uploadedFile c;
     isDragging := isDragging c; isProcessingPDF := isProcessingPDF c;
     activeTab := activeTab c; events := events c |}.

Definition with_uploadedFile (v : option File) (c : Component) : Component :=
  {| resumeText := resumeText c; jobDescription := jobDescription c;
     isAnalyzing := isAnalyzing c;
     isGeneratingCoverLetter := isGeneratingCoverLetter c;
     analysis := analysis c; uploadedFile := v;
     isDragging := isDragging c; isProcessingPDF := isProcessingPDF c;
     activeTab := activeTab c; events := events c |}.

Definition with_isProcessingPDF (v : bool) (c : Component) : Component :=
  {| resumeText := resumeText c; jobDescription := jobDescription c;
     isAnalyzing := isAnalyzing c;
     isGeneratingCoverLetter := isGeneratingCoverLetter c;
     analysis := analysis c; uploadedFile := uploadedFile c;
     isDragging := isDragging c; isProcessingPDF := v;
     activeTab := activeTab c; events := events c |}.

Definition with_activeTab (v : jsstring) (c : Component) : Component :=
  {| resumeText := resumeText c; jobDescription := jobDescription c;
     isAnalyzing := isAnalyzing c;
     isGeneratingCoverLetter := isGeneratingCoverLetter c;
     analysis := analysis c; uploadedFile := uploadedFile c;
     isDragging := isDragging c; isProcessingPDF := isProcessingPDF c;
     activeTab := v; events := events c |}.

Definition setResumeText (v : jsstring) : Handler unit := modify (with_resumeText v).
Definition setIsAnalyzing (v : bool) : Handler unit := modify (with_isAnalyzing v).
Definition setIsGeneratingCoverLetter (v : bool) : Handler unit :=
  modify (with_isGeneratingCoverLetter v).
Definition setUploadedFile (v : option File) : Handler unit := modify (with_uploadedFile v).
Definition setIsProcessingPDF (v : bool) : Handler unit := modify (with_isProcessingPDF v).
Definition setActiveTab (v : jsstring) : Handler unit := modify (with_activeTab v).

(** [setAnalysis(updater)]: the updater is given the stored value. *)
Definition setAnalysis (updater : option ResumeAnalysis -> option ResumeAnalysis)
  : Handler unit :=
  modify (fun c => with_analysis (updater (analysis c)) c).

Definition toast (t : Toast) : Handler unit := modify (emit (Toasted t)).

Definition destructive : option jsstring := Some (js "destructive").

(** [await p] for a promise that resolves or rejects. *)
Definition await {A : Type} (p : thrown + A) : Handler A :=
  match p with
  | inl e => throw e
  | inr a => ret a
  end.

(** [await fetch(url, init)] *)
Definition fetch (net : Network) (r : FetchRequest) : Handler HttpResponse :=
  (modify (emit (Fetched r)) ;; await (net r))%eff.

(** [raw.k] for a value read from a body: it throws on [null]. *)
Definition property (raw : JSON) (k : jsstring) : Handler (option JSON) :=
  match raw with
  | JNull => throw (ErrorObj (null_read_message k))
  | _ => ret (optional_property raw k)
  end.

(** ** [handleFileUpload] *)

Definition newline : jsstring := [10%N].

(** The callback given to [items.map]. *)
Definition item_text (item : TextContentItem) : jsstring :=
  match item with
  | TextItem str => str
  | TextMarkedContent => []
  end.

Definition pageText (items : list TextContentItem) : jsstring :=
  join (js " ") (List.map item_text items).

(** The loop over the pages 1 to [numPages], from the text gathered so far. *)
Fixpoint extract_pages (pages : list PageOutcome) (extractedText : jsstring)
  : thrown + jsstring :=
  match pages with
  | [] => inr extractedText
  | inl e :: _ => inl e
  | inr items :: rest =>
      extract_pages rest (extractedText ++ pageText items ++ newline)
  end.

Definition max_size : N := 5 * 1024 * 1024.

Definition handleFileUpload (file : File) : Handler unit :=
  if negb (str_eqb (type file) (js "application/pdf"))
     && negb (endsWith (toLowerCase (name file)) (js ".pdf"))
  then
    toast {| title := js "Invalid file type";
             description := js "Please upload a PDF file.";
             variant := destructive |}
  else if (max_size <? size file)%N then
    toast {| title := js "File too large";
             description := js "Please upload a file smaller than 5MB.";
             variant := destructive |}
  else
    (setUploadedFile (Some file) ;;
     setIsProcessingPDF true ;;
     try_finally
       (try_catch
          (modify (emit (Decoded file)) ;;
           pdf <- await (decoded file) ;;
           extractedText <- await (extract_pages pdf []) ;;
           setResumeText (trim extractedText) ;;
           toast {| title := js "PDF uploaded successfully";
                    description := name file ++ js " has been uploaded and processed.";
                    variant := None |})
          (fun error =>
             let errorMessage := message_or error (js "Unknown error occurred") in
             toast {| title := js "Error reading PDF";
                      description := js "Failed to extract text from the PDF: "
                                     ++ errorMessage ++ js ". Please try again.";
                      variant := destructive |} ;;
             setUploadedFile None ;;
             setResumeText []))
       (with_isProcessingPDF false))%eff.

(** ** The request both handlers send *)

Definition analyze_request (resumeText jobDescription : jsstring) : FetchRequest :=
  {| url := js "/api/analyze-resume";
     method := js "POST";
     headers := [ (js "Content-Type", js "application/json") ];
     body := JObject [ (js "resumeText", JString resumeText);
                       (js "jobDescription", JString (trim jobDescription)) ] |}.

(** The [if (!resp.ok)] block: [message] is the [error] member of the
    body when there is a truthy one, and is made into the [Error] thrown. *)
Definition reject_unless_ok (resp : HttpResponse) : Handler unit :=
  if negb (ok resp) then
    (let fallback := JString (js "Server error: " ++ of_N (status resp)) in
     message <- try_catch
                  (maybeErr <- await (json resp) ;;
                   let error := optional_property maybeErr (js "error") in
                   ret (match error with
                        | Some v => if ToBoolean error then v else fallback
                        | None => fallback
                        end))
                  (fun _ => ret fallback) ;;
     throw (ErrorObj (Error_message message)))%eff
  else ret tt.

(** [Array.isArray(v) ? v : []] *)
Definition array_or_empty (v : option JSON) : list JSON :=
  match v with Some (JArray l) => l | _ => [] end.

(** [typeof v === "string" ? v : undefined] *)
Definition string_or_undefined (v : option JSON) : option jsstring :=
  match v with Some (JString s) => Some s | _ => None end.

(** ** [handleGenerateCoverLetter] *)

(** The sparkles of the two success titles, as the source file spells them. *)
Definition sparkles : jsstring := [8218%N; 250%N; 174%N].

(** The updater given to [setAnalysis]: the stored result, or one made of
    the arrays of the response when none is stored, with [coverLetter]
    replaced. *)
Definition merge_cover_letter (rawAnalysis : JSON) (coverLetterText : jsstring)
  (prev : option ResumeAnalysis) : option ResumeAnalysis :=
  let base :=
    match prev with
    | Some p => p
    | None =>
        {| strengths := array_or_empty (optional_property rawAnalysis (js "strengths"));
           improvements := array_or_empty (optional_property rawAnalysis (js "improvements"));
           tailoring := array_or_empty (optional_property rawAnalysis (js "tailoring"));
           customizedResume := None;
           specificChanges := None;
           coverLetter := None |}
    end in
  Some {| strengths := strengths base;
          improvements := improvements base;
          tailoring := tailoring base;
          customizedResume := customizedResume base;
          specificChanges := specificChanges base;
          coverLetter := Some coverLetterText |}.

Definition not_generated_message : jsstring :=
  js "Cover letter was not generated. The server response did not include a cover letter. Please check the server logs or try again.".

Definition handleGenerateCoverLetter (net : Network) : Handler unit :=
  (c <- get ;;
   if negb (truthy (trim (resumeText c))) then
     toast {| title := js "Error";
              description := js "Please upload your resume PDF first.";
              variant := destructive |}
   else if negb (truthy (trim (jobDescription c))) then
     toast {| title := js "Error";
              description := js "Please provide a job description to generate a cover letter.";
              variant := destructive |}
   else
     try_finally
       (try_catch
          (setIsGeneratingCoverLetter true ;;
           resp <- fetch net (analyze_request (resumeText c) (jobDescription c)) ;;
           reject_unless_ok resp ;;
           rawAnalysis <- await (json resp) ;;
           coverLetter <- property rawAnalysis (js "coverLetter") ;;
           match coverLetter with
           | Some (JString coverLetterText) =>
               if truthy coverLetterText then
                 if includes coverLetterText (js "generation failed")
                    || includes coverLetterText (js "empty response")
                 then throw (ErrorObj coverLetterText)
                 else
                   (setAnalysis (merge_cover_letter rawAnalysis coverLetterText) ;;
                    setActiveTab (js "coverLetter") ;;
                    toast {| title := js "Cover Letter Generated! " ++ sparkles;
                             description := js "Your personalized cover letter is ready.";
                             variant := None |})
               else throw (ErrorObj not_generated_message)
           | _ => throw (ErrorObj not_generated_message)
           end)
          (fun err =>
             toast {| title := js "Cover letter generation failed";
                      description := message_or err (js "Please try again.");
                      variant := destructive |}))
       (with_isGeneratingCoverLetter false))%eff.

(** ** [handleAnalyze] *)

Definition sane_analysis (rawAnalysis : JSON) : Handler ResumeAnalysis :=
  (s <- property rawAnalysis (js "strengths") ;;
   i <- property rawAnalysis (js "improvements") ;;
   t <- property rawAnalysis (js "tailoring") ;;
   r <- property rawAnalysis (js "customizedResume") ;;
   ch <- property rawAnalysis (js "specificChanges") ;;
   cl <- property rawAnalysis (js "coverLetter") ;;
   ret {| strengths := array_or_empty s;
          improvements := array_or_empty i;
          tailoring := array_or_empty t;
          customizedResume := string_or_undefined r;
          specificChanges := string_or_undefined ch;
          coverLetter := string_or_undefined cl |})%eff.

Definition handleAnalyze (net : Network) : Handler unit :=
  (c <- get ;;
   if match uploadedFile c with None => true | Some _ => false end
      || negb (truthy (trim (resumeText c))) then
     toast {| title := js "Error";
              description := js "Please upload your resume PDF.";
              variant := destructive |}
   else if negb (truthy (trim (jobDescription c))) then
     toast {| title := js "Error";
              description := js "Please provide a job description to customize your resume.";
              variant := destructive |}
   else
     try_finally
       (try_catch
          (setIsAnalyzing true ;;
           resp <- fetch net (analyze_request (resumeText c) (jobDescription c)) ;;
           reject_unless_ok resp ;;
           raw <- await (json resp) ;;
           sane <- sane_analysis raw ;;
           setAnalysis (fun _ => Some sane) ;;
           toast {| title := js "Analysis Complete! " ++ sparkles;
                    description := js "Your resume has been analyzed with AI.";
                    variant := None |})
          (fun err =>
             toast {| title := js "Analysis failed";
                      description := message_or err (js "Please try again.");
                      variant := destructive |}))
       (with_isAnalyzing false))%eff.

(** The component as [useState] creates it. *)
Definition initial : Component :=
  {| resumeText := []; jobDescription := [];
     isAnalyzing := false; isGeneratingCoverLetter := false;
     analysis := None; uploadedFile := None;
     isDragging := false; isProcessingPDF := false;
     activeTab := js "coverLetter"; events := [] |}.

(** The document whose pages all decode, given by the text runs of each
    page in order. *)
Definition document (pages : list (list jsstring)) : list PageOutcome :=
  List.map (fun runs => inr (List.map TextItem runs)) pages.

(** The two checks [handleFileUpload] makes before it reads the file. *)
Definition declared_pdf (file : File) : bool :=
  str_eqb (type file) (js "application/pdf")
  || endsWith (toLowerCase (name file)) (js ".pdf").

Definition invalid_type_toast : Toast :=
  {| title := js "Invalid file type";
     description := js "Please upload a PDF file.";
     variant := destructive |}.

Definition too_large_toast : Toast :=
  {| title := js "File too large";
     description := js "Please upload a file smaller than 5MB.";
     variant := destructive |}.

(** The value of [message] in the [catch] of the two handlers. *)
Definition failure_toast (title : jsstring) (err : thrown) : Toast :=
  {| title := title;
     description := message_or err (js "Please try again.");
     variant := destructive |}.

End Client.

(* ===================================================================== *)
(** * Sample inputs *)
(* ===================================================================== *)

Module Samples.

Import Server.
Local Open Scope string_scope.
Local Open Scope list_scope.

(** A completion with one choice that carries [s]. *)
Definition answer (s : jsstring) : thrown + ChatCompletion :=
  inr {| choices := [ {| message := Some {| message_content := Some s |} |} ] |}.

Definition rejection (m : string) : thrown + ChatCompletion := inl (ErrorObj (js m)).

(** A service that gives its n-th request the n-th outcome of a script, and
    rejects every request beyond the script. *)
Definition scripted (script : list (thrown + ChatCompletion)) : OpenAI :=
  fun earlier _ => nth (List.length earlier) script (rejection "script exhausted").

Definition resume : jsstring := js "Jane Poe. Systems engineer, five years of Rust.".
Definition posting : jsstring := js "Backend developer for a payments team.".

(** A file named as a PDF whose declared type is plain text. *)
Definition renamed_pdf : Client.File :=
  {| Client.name := js "resume.PDF";
     Client.type := js "text/plain";
     Client.size := 2048;
     Client.decoded := inr (Client.document [[js "Jane"; js "Poe"]; [js "Rust"]]) |}.

(** A text file of 5 MiB and one byte. *)
Definition large_text_file : Client.File :=
  {| Client.name := js "notes.txt";
     Client.type := js "text/plain";
     Client.size := 5 * 1024 * 1024 + 1;
     Client.decoded := inl (ErrorObj (js "Invalid PDF structure.")) |}.

(** A PDF of 5 MiB and one byte. *)
Definition large_pdf : Client.File :=
  {| Client.name := js "portfolio.pdf";
     Client.type := js "application/pdf";
     Client.size := 5 * 1024 * 1024 + 1;
     Client.decoded := inr (Client.document [[js "Jane"]]) |}.

(** A component that holds an extracted text, a job description and a
    result of an earlier run. *)
Definition earlier_result : Client.ResumeAnalysis :=
  {| Client.strengths := [JString (js "Clear impact statements")];
     Client.improvements := [JString (js "Add metrics")];
     Client.tailoring := [];
     Client.customizedResume := Some (js "Jane Poe, backend engineer");
     Client.specificChanges := Some (js "SECTION: Skills");
     Client.coverLetter := Some (js "Dear Hiring Manager, (first draft)") |}.

Definition ready : Client.Component :=
  {| Client.resumeText := resume; Client.jobDescription := posting;
     Client.isAnalyzing := false; Client.isGeneratingCoverLetter := false;
     Client.analysis := Some earlier_result; Client.uploadedFile := None;
     Client.isDragging := false; Client.isProcessingPDF := false;
     Client.activeTab := js "changes"; Client.events := [] |}.

(** A network that answers every request with status 200 and a body. *)
Definition replying (body : JSON) : Client.Network :=
  fun _ => inr {| Client.ok := true; Client.status := 200; Client.json := inr body |}.

(** A network that answers every request with a status and a body. *)
Definition failing (code : N) (body : thrown + JSON) : Client.Network :=
  fun _ => inr {| Client.ok := false; Client.status := code; Client.json := body |}.

(** A component with a file, its text, a job description and an earlier
    result. *)
Definition loaded : Client.Component :=
  {| Client.resumeText := resume; Client.jobDescription := posting;
     Client.isAnalyzing := false; Client.isGeneratingCoverLetter := false;
     Client.analysis := Some earlier_result; Client.uploadedFile := Some renamed_pdf;
     Client.isDragging := false; Client.isProcessingPDF := false;
     Client.activeTab := js "changes"; Client.events := [] |}.

End Samples.

(* ===================================================================== *)
(** * The server: configuration, health check and the earlier build *)
(* ===================================================================== *)

Module ServerConfig.

Import Server.
Local Open Scope string_scope.
Local Open Scope list_scope.

(** [Boolean(apiKey)] for the environment variable, which may be unset. *)
Definition Boolean (apiKey : option jsstring) : bool :=
  match apiKey with
  | Some k => truthy k
  | None => false
  end.

(** [const openai = apiKey ? new OpenAI({ apiKey }) : null], for the
    service the key gives access to. *)
Definition openai_client (apiKey : option jsstring) (service : OpenAI) : option OpenAI :=
  if Boolean apiKey then Some service else None.

(** The body of [GET /health]. *)
Record Health := { ok : bool; openaiConfigured : bool }.

Definition health (apiKey : option jsstring) : Health :=
  {| ok := true; openaiConfigured := Boolean apiKey |}.

(** The text an answered call leaves in [customizedResume] or in
    [specificChanges]: the trimmed content, unless it is blank. *)
Definition kept_text (o : thrown + ChatCompletion) : option jsstring :=
  match o with
  | inl _ => None
  | inr r => if truthy (trim (first_content r)) then Some (trim (first_content r)) else None
  end.

End ServerConfig.

(** The handler of the compiled build kept beside the source: one request,
    three arrays.  Its prompt is the text of [analysisPrompt]. *)
Module OldBuild.

Import Server.
Local Open Scope string_scope.
Local Open Scope list_scope.

(** [analysis = { strengths: ..., improvements: ..., tailoring: ... }] *)
Definition replace_analysis (s i t : option JSON) : Task unit :=
  assign (fun _ =>
    {| strengths := array_or_empty s;
       improvements := array_or_empty i;
       tailoring := array_or_empty t;
       customizedResume := None;
       specificChanges := None;
       coverLetter := None |}).

(** The body of the [try] around [JSON.parse]: the object literal reads the
    three members, then the assignment replaces [analysis] whole. *)
Definition read_parsed (json : jsstring) : Task unit :=
  match JSON_parse json with
  | None => ret tt
  | Some parsed =>
      match read_property parsed (js "strengths"),
            read_property parsed (js "improvements"),
            read_property parsed (js "tailoring") with
      | Some s, Some i, Some t => replace_analysis s i t
      | _, _, _ => ret tt
      end
  end.

Definition run (openai : OpenAI) (prompt : jsstring) : Task unit :=
  try_catch
    (resp <- create openai (user_request prompt t07) ;;
     let text := first_content resp in
     let jsonStart := indexOf text (js "{") in
     let jsonEnd := lastIndexOf text (js "}") in
     when (negb (jsonStart =? -1)%Z && negb (jsonEnd =? -1)%Z && (jsonEnd >? jsonStart)%Z)
          (read_parsed (slice text jsonStart (jsonEnd + 1)%Z)))%eff
    (fun err => ret tt).

(** The handler: the response it sends, or the value its promise rejects
    with, and the requests it issued.  Nothing here is inside a [try] but
    the request and the reading of its answer, so an error thrown by the
    test of [resumeText] or by the template of the prompt, which holds
    [jobDescription] whatever it is, leaves the handler. *)
Definition analyze_resume (openai : option OpenAI) (body : option JSON)
  : (thrown + Response) * list ChatRequest :=
  match openai with
  | None =>
      (inr {| status := 503;
              payload := ErrorPayload (js "OpenAI API key not configured") None |}, [])
  | Some client =>
      let resumeText := body_member body (js "resumeText") in
      let jobDescription :=
        match body_member body (js "jobDescription") with
        | Some j => j
        | None => JString []
        end in
      match accepted_resume resumeText with
      | inl err => (inl err, [])
      | inr None =>
          (inr {| status := 400;
                  payload := ErrorPayload (js "resumeText is required") None |}, [])
      | inr (Some resumeText) =>
          match template_part (Some jobDescription) with
          | inl err => (inl err, [])
          | inr jobDescription =>
              let (_, st) := run client (analysisPrompt resumeText jobDescription)
                               {| analysis := fallback_analysis; issued := [] |} in
              (inr {| status := 200; payload := AnalysisPayload (analysis st) |}, issued st)
          end
      end
  end.

End OldBuild.

(* ===================================================================== *)
(** * The client: the other handlers of the component *)
(* ===================================================================== *)

Module Page.

Import Client.
Local Open Scope string_scope.
Local Open Scope list_scope.

Definition with_jobDescription (v : jsstring) (c : Component) : Component :=
  {| resumeText := resumeText c; jobDescription := v;
     isAnalyzing := isAnalyzing c;
     isGeneratingCoverLetter := isGeneratingCoverLetter c;
     analysis := analysis c; uploadedFile := uploadedFile c;
     isDragging := isDragging c; isProcessingPDF := isProcessingPDF c;
     activeTab := activeTab c; events := events c |}.

Definition with_isDragging (v : bool) (c : Component) : Component :=
  {| resumeText := resumeText c; jobDescription := jobDescription c;
     isAnalyzing := isAnalyzing c;
     isGeneratingCoverLetter := isGeneratingCoverLetter c;
     analysis := analysis c; uploadedFile := uploadedFile c;
     isDragging := v; isProcessingPDF := isProcessingPDF c;
     activeTab := activeTab c; events := events c |}.

Definition setJobDescription (v : jsstring) : Handler unit := modify (with_jobDescription v).
Definition setIsDragging (v : bool) : Handler unit := modify (with_isDragging v).

Definition handleDragOver : Handler unit := setIsDragging true.

Definition handleDragLeave : Handler unit := setIsDragging false.

(** [handleDrop], given [e.dataTransfer?.files]: the first file, if any, is
    handed to [handleFileUpload]. *)
Definition handleDrop (files : option (list File)) : Handler unit :=
  (setIsDragging false ;;
   match files with
   | Some (first :: _) => handleFileUpload first
   | _ => ret tt
   end)%eff.

(** [handleFileInputChange], given [e.target.files]. *)
Definition handleFileInputChange (files : option (list File)) : Handler unit :=
  match files with
  | Some (first :: _) => handleFileUpload first
  | _ => ret tt
  end.

(** The [onClick] of the button that removes the uploaded file. *)
Definition removePdf : Handler unit :=
  (setUploadedFile None ;; setResumeText [])%eff.

Definition has_file (c : Component) : bool :=
  match uploadedFile c with Some _ => true | None => false end.

Definition has_analysis (c : Component) : bool :=
  match analysis c with Some _ => true | None => false end.

Definition getCurrentStep (c : Component) : Z :=
  if has_analysis c then 3
  else if has_file c && truthy (trim (jobDescription c)) then 2
  else if has_file c then 1
  else 1.

Definition isStepCompleted (c : Component) (step : Z) : bool :=
  if (step =? 1)%Z then has_file c
  else if (step =? 2)%Z then has_analysis c
  else false.

(** The [disabled] attribute of the two buttons. *)
Definition cover_letter_button_disabled (c : Component) : bool :=
  isGeneratingCoverLetter c || negb (has_file c) || negb (truthy (resumeText c))
  || negb (truthy (trim (jobDescription c))).

Definition analyze_button_disabled (c : Component) : bool :=
  isAnalyzing c || negb (has_file c) || negb (truthy (resumeText c))
  || negb (truthy (trim (jobDescription c))).

(** Truthiness of an optional text field. *)
Definition shown (field : option jsstring) : bool :=
  match field with Some s => truthy s | None => false end.

(** The effect that follows a change of [analysis]: it selects the first
    tab, in the order changes, customized, cover letter, that has text. *)
Definition sync_active_tab (c : Component) : Component :=
  match analysis c with
  | None => c
  | Some a =>
      if shown (specificChanges a) then with_activeTab (js "changes") c
      else if shown (customizedResume a) then with_activeTab (js "customized") c
      else if shown (coverLetter a) then with_activeTab (js "coverLetter") c
      else c
  end.

(** The tab triggers that are rendered, in the order of the list. *)
Definition tab_triggers (a : ResumeAnalysis) : list jsstring :=
  (if shown (coverLetter a) then [js "coverLetter"] else [])
  ++ (if shown (specificChanges a) then [js "changes"] else [])
  ++ (if shown (customizedResume a) then [js "customized"] else []).

(** The column class of the tab list. *)
Definition tabs_grid (a : ResumeAnalysis) : jsstring :=
  let n := List.length
             (List.filter shown [coverLetter a; customizedResume a; specificChanges a]) in
  if Nat.eqb n 3 then js "grid-cols-3"
  else if Nat.eqb n 2 then js "grid-cols-2"
  else js "grid-cols-1".

(** The object literal [sane] of [handleAnalyze], for a body that is not
    [null]: each member coerced to the type the result declares. *)
Definition coerce (rawAnalysis : JSON) : ResumeAnalysis :=
  {| strengths := array_or_empty (optional_property rawAnalysis (js "strengths"));
     improvements := array_or_empty (optional_property rawAnalysis (js "improvements"));
     tailoring := array_or_empty (optional_property rawAnalysis (js "tailoring"));
     customizedResume :=
       string_or_undefined (optional_property rawAnalysis (js "customizedResume"));
     specificChanges :=
       string_or_undefined (optional_property rawAnalysis (js "specificChanges"));
     coverLetter := string_or_undefined (optional_property rawAnalysis (js "coverLetter")) |}.

(** The notice of an upload that failed while decoding. *)
Definition reading_failed_toast (error : thrown) : Toast :=
  {| title := js "Error reading PDF";
     description := js "Failed to extract text from the PDF: "
                    ++ message_or error (js "Unknown error occurred")
                    ++ js ". Please try again.";
     variant := destructive |}.

(** The component after an accepted upload that could not be decoded. *)
Definition upload_failed (file : File) (c : Component) (error : thrown) : Component :=
  with_isProcessingPDF false
    (with_resumeText []
       (with_uploadedFile None
          (emit (Toasted (reading_failed_toast error))
             (emit (Decoded file)
                (with_isProcessingPDF true (with_uploadedFile (Some file) c)))))).

(** The request both handlers send, and the component once it is sent. *)
Definition request_of (c : Component) : FetchRequest :=
  analyze_request (resumeText c) (jobDescription c).

Definition analysis_started (c : Component) : Component :=
  emit (Fetched (request_of c)) (with_isAnalyzing true c).

(** The component after an analysis that ended in the [catch]. *)
Definition analysis_failed (c : Component) (err : thrown) : Component :=
  with_isAnalyzing false
    (emit (Toasted (failure_toast (js "Analysis failed") err)) (analysis_started c)).

(** The component after an analysis that stored [sane]. *)
Definition analysis_stored (c : Component) (sane : ResumeAnalysis) : Component :=
  with_isAnalyzing false
    (emit (Toasted {| title := js "Analysis Complete! " ++ sparkles;
                      description := js "Your resume has been analyzed with AI.";
                      variant := None |})
       (with_analysis (Some sane) (analysis_started c))).

(** The same for the cover-letter-only run. *)
Definition cover_letter_started (c : Component) : Component :=
  emit (Fetched (request_of c)) (with_isGeneratingCoverLetter true c).

Definition cover_letter_failed (c : Component) (err : thrown) : Component :=
  with_isGeneratingCoverLetter false
    (emit (Toasted (failure_toast (js "Cover letter generation failed") err))
       (cover_letter_started c)).

Definition cover_letter_stored (c : Component) (rawAnalysis : JSON)
  (coverLetterText : jsstring) : Component :=
  with_isGeneratingCoverLetter false
    (emit (Toasted {| title := js "Cover Letter Generated! " ++ sparkles;
                      description := js "Your personalized cover letter is ready.";
                      variant := None |})
       (with_activeTab (js "coverLetter")
          (with_analysis (merge_cover_letter rawAnalysis coverLetterText (analysis c))
             (cover_letter_started c)))).

(** The message of the error thrown for a response that is not OK. *)
Definition server_error_message (resp : HttpResponse) : jsstring :=
  match json resp with
  | inl _ => js "Server error: " ++ of_N (status resp)
  | inr maybeErr =>
      match optional_property maybeErr (js "error") with
      | Some v =>
          if ToBoolean (Some v) then Error_message v
          else js "Server error: " ++ of_N (status resp)
      | None => js "Server error: " ++ of_N (status resp)
      end
  end.

(** What either handler reads from a response: its body, or the error
    thrown for a response that is not OK or cannot be read. *)
Definition read_body (resp : HttpResponse) : thrown + JSON :=
  if ok resp then json resp else inl (ErrorObj (server_error_message resp)).

(** The component after an accepted upload that stored [text]. *)
Definition upload_done (file : File) (c : Component) (text : jsstring) : Component :=
  with_isProcessingPDF false
    (emit (Toasted {| title := js "PDF uploaded successfully";
                      description := name file ++ js " has been uploaded and processed.";
                      variant := None |})
       (with_resumeText (trim text)
          (emit (Decoded file)
             (with_isProcessingPDF true (with_uploadedFile (Some file) c))))).

(** A component at rest: the stored text is trimmed, there is no text
    without a file, and no handler is marked as running. *)
Definition at_rest (c : Component) : Prop :=
  resumeText c = trim (resumeText c) /\
  (truthy (resumeText c) = true -> has_file c = true) /\
  isAnalyzing c = false /\
  isGeneratingCoverLetter c = false /\
  isProcessingPDF c = false.

(** What a user can do to the component, each action run to its end. *)
Inductive Action : Type :=
| Upload (file : File)
| Drop (files : option (list File))
| Choose (files : option (list File))
| RemovePdf
| TypeJobDescription (v : jsstring)
| DragOver
| DragLeave
| Analyze (net : Network)
| GenerateCoverLetter (net : Network)
| SelectTab (v : jsstring)
| SyncTab.

Definition step (a : Action) (c : Component) : Component :=
  match a with
  | Upload file => snd (handleFileUpload file c)
  | Drop files => snd (handleDrop files c)
  | Choose files => snd (handleFileInputChange files c)
  | RemovePdf => snd (removePdf c)
  | TypeJobDescription v => snd (setJobDescription v c)
  | DragOver => snd (handleDragOver c)
  | DragLeave => snd (handleDragLeave c)
  | Analyze net => snd (handleAnalyze net c)
  | GenerateCoverLetter net => snd (handleGenerateCoverLetter net c)
  | SelectTab v => snd (setActiveTab v c)
  | SyncTab => sync_active_tab c
  end.

(** The components a sequence of actions leads to from the first render. *)
Inductive reachable : Component -> Prop :=
| reach_initial : reachable initial
| reach_step (a : Action) (c : Component) : reachable c -> reachable (step a c).

End Page.

(* ===================================================================== *)
(** * The client: the list of specific changes *)
(* ===================================================================== *)

Module ChangesView.

Local Open Scope string_scope.
Local Open Scope list_scope.

(** [s.split('\n')], with the line feed written as its code unit. *)
Fixpoint split_lines (s : jsstring) : list jsstring :=
  match s with
  | [] => [[]]
  | c :: r =>
      if (c =? 10)%N then [] :: split_lines r
      else
        match split_lines r with
        | line :: rest => (c :: line) :: rest
        | [] => [[c]]
        end
  end.

(** [s.replace(pattern, '')] for a string pattern: the first occurrence,
    if any, is taken out. *)
Definition remove_first (s pattern : jsstring) : jsstring :=
  let i := indexOf s pattern in
  if (i =? -1)%Z then s
  else firstn (Z.to_nat i) s ++ skipn (Z.to_nat i + List.length pattern) s.

(** What one line is rendered as, with the text it shows. *)
Inductive Row : Type :=
| SectionRow (sectionName : jsstring)
| CurrentRow (currentText : jsstring)
| ChangeRow (changeText : jsstring)
| BlankRow
| TextRow (trimmedLine : jsstring).

(** The callback given to [map]. *)
Definition render_line (line : jsstring) : Row :=
  let trimmedLine := trim line in
  if startsWith trimmedLine (js "SECTION:") then
    SectionRow (trim (remove_first trimmedLine (js "SECTION:")))
  else if startsWith trimmedLine (js "CURRENT:") then
    CurrentRow (trim (remove_first trimmedLine (js "CURRENT:")))
  else if startsWith trimmedLine (js "CHANGE TO:") then
    ChangeRow (trim (remove_first trimmedLine (js "CHANGE TO:")))
  else if Nat.eqb (List.length trimmedLine) 0 then BlankRow
  else TextRow trimmedLine.

Definition render (specificChanges : jsstring) : list Row :=
  List.map render_line (split_lines specificChanges).

(** One record of the format the prompt asks for. *)
Definition record (sectionName currentText changeText : jsstring) : jsstring :=
  js "SECTION: " ++ sectionName ++ [10%N]
  ++ js "CURRENT: " ++ currentText ++ [10%N]
  ++ js "CHANGE TO: " ++ changeText.

End ChangesView.

(* ===================================================================== *)
(** * From the server's response to the client's *)
(* ===================================================================== *)

Module Wire.

Local Open Scope string_scope.
Local Open Scope list_scope.

(** A property that [JSON.stringify] leaves out when it is [undefined]. *)
Definition optional_member (k : jsstring) (v : option jsstring)
  : list (jsstring * JSON) :=
  match v with
  | Some s => [(k, JString s)]
  | None => []
  end.

(** An array index among the keys of an object: the decimal text, without
    a leading zero, of an integer below [2^32 - 1]. *)
Definition array_index (k : jsstring) : option N :=
  match k with
  | [] => None
  | c :: r =>
      if forallb Json.is_digit k
         && (negb (c =? 48)%N || match r with [] => true | _ :: _ => false end)
         && (List.length k <=? 10)%nat
      then
        let n := Z.to_N (JsNumber.digits_value k 0) in
        if (n <? 2 ^ 32 - 1)%N then Some n else None
      else None
  end.

(** The keys of the members, each once, where it first occurs. *)
Fixpoint distinct_keys (ms : list (jsstring * JSON)) (seen : list jsstring)
  : list jsstring :=
  match ms with
  | [] => []
  | (k, _) :: rest =>
      if existsb (str_eqb k) seen then distinct_keys rest seen
      else k :: distinct_keys rest (k :: seen)
  end.

Fixpoint insert_index (k : jsstring) (n : N) (sorted : list (jsstring * N))
  : list (jsstring * N) :=
  match sorted with
  | [] => [(k, n)]
  | (k', n') :: rest =>
      if (n <? n')%N then (k, n) :: sorted else (k', n') :: insert_index k n rest
  end.

(** The keys in the order an object enumerates them: array indices first,
    ascending, then the other keys in the order they were created. *)
Definition own_keys (ms : list (jsstring * JSON)) : list jsstring :=
  let keys := distinct_keys ms [] in
  let indices :=
    fold_right (fun k acc => match array_index k with
                             | Some n => insert_index k n acc
                             | None => acc
                             end) [] keys in
  List.map fst indices
  ++ List.filter (fun k => match array_index k with Some _ => false | None => true end) keys.

(** The members of the object that [JSON.parse] makes of a member list:
    one per key, with the value given last. *)
Definition own_properties (ms : list (jsstring * JSON)) : list (jsstring * JSON) :=
  flat_map (fun k => match lookup k ms with
                     | Some v => [(k, v)]
                     | None => []
                     end) (own_keys ms).

(** [JSON.parse(JSON.stringify(v))]: what arrives of a value that is sent
    as JSON.  A number arrives as the literal [JSON.stringify] prints for
    it, an infinity as [null]; an object arrives with its own properties;
    strings, booleans and [null] arrive as they are. *)
Fixpoint received (v : JSON) : JSON :=
  match v with
  | JNumber lit =>
      match JsNumber.of_literal lit with
      | JsNumber.Infinite _ => JNull
      | x => JNumber (JsNumber.toString x)
      end
  | JArray l => JArray (List.map received l)
  | JObject ms => JObject (own_properties (List.map (fun '(k, x) => (k, received x)) ms))
  | _ => v
  end.

(** The value [res.json(analysis)] sends, as [resp.json()] reads it back:
    the properties in the order the handler created them, those that are
    [undefined] left out. *)
Definition analysis_json (a : Server.Analysis) : JSON :=
  JObject ([ (js "strengths", JArray (List.map received (Server.strengths a)));
             (js "improvements", JArray (List.map received (Server.improvements a)));
             (js "tailoring", JArray (List.map received (Server.tailoring a))) ]
           ++ optional_member (js "coverLetter") (Server.coverLetter a)
           ++ optional_member (js "customizedResume") (Server.customizedResume a)
           ++ optional_member (js "specificChanges") (Server.specificChanges a)).

Definition payload_json (p : Server.Payload) : JSON :=
  match p with
  | Server.ErrorPayload error detail =>
      JObject ((js "error", JString error) :: optional_member (js "message") detail)
  | Server.AnalysisPayload a => analysis_json a
  end.

(** The response [fetch] resolves to when the handler has sent [r]:
    [ok] for a status from 200 to 299. *)
Definition http_of (r : Server.Response) : Client.HttpResponse :=
  {| Client.ok := (200 <=? Server.status r)%N && (Server.status r <=? 299)%N;
     Client.status := Server.status r;
     Client.json := inr (payload_json (Server.payload r)) |}.

(** The result the client holds for the object the server sent. *)
Definition client_view (a : Server.Analysis) : Client.ResumeAnalysis :=
  {| Client.strengths := List.map received (Server.strengths a);
     Client.improvements := List.map received (Server.improvements a);
     Client.tailoring := List.map received (Server.tailoring a);
     Client.customizedResume := Server.customizedResume a;
     Client.specificChanges := Server.specificChanges a;
     Client.coverLetter := Server.coverLetter a |}.

(** A network that answers every request with the response of a full run
    of the handler on the given texts. *)
Definition delivering (openai : Server.OpenAI) (resumeText jobDescription : jsstring)
  : Client.Network :=
  fun _ => inr (http_of (fst (Server.full_run openai resumeText jobDescription))).

End Wire.

(* ===================================================================== *)
(** * Facts about strings *)
(* ===================================================================== *)

Unset Implicit Arguments.

Section StringFacts.

Local Open Scope list_scope.

Lemma trimStart_all_ws (s : jsstring) :
  forallb is_whitespace s = true -> trimStart s = [].
Proof.
  induction s as [|c r IH]; simpl; [reflexivity|].
  intros H. apply andb_prop in H. destruct H as [Hc Hr].
  rewrite Hc. now apply IH.
Qed.

Lemma trimStart_nil_all_ws (s : jsstring) :
  trimStart s = [] -> forallb is_whitespace s = true.
Proof.
  induction s as [|c r IH]; simpl; [reflexivity|].
  destruct (is_whitespace c); simpl; [exact IH | discriminate].
Qed.

Lemma trimStart_app_ws (s : jsstring) (c : N) :
  is_whitespace c = true ->
  trimStart (s ++ [c]) =
  if forallb is_whitespace s then [] else trimStart s ++ [c].
Proof.
  intros Hc. induction s as [|a r IH]; simpl.
  - now rewrite Hc.
  - destruct (is_whitespace a); simpl; [exact IH | reflexivity].
Qed.

(** Trailing white space does not survive [trim]. *)
Lemma trim_app_ws (s : jsstring) (c : N) :
  is_whitespace c = true -> trim (s ++ [c]) = trim s.
Proof.
  intros Hc. unfold trim, trimEnd. rewrite (trimStart_app_ws s c Hc).
  destruct (forallb is_whitespace s) eqn:E.
  - now rewrite (trimStart_all_ws s E).
  - rewrite rev_app_distr. simpl. now rewrite Hc.
Qed.

Lemma trim_all_ws (s : jsstring) :
  forallb is_whitespace s = true -> trim s = [].
Proof.
  intros H. unfold trim, trimEnd. now rewrite (trimStart_all_ws s H).
Qed.

Lemma trimStart_keeps_non_ws (s : jsstring) :
  existsb (fun c => negb (is_whitespace c)) s = true ->
  existsb (fun c => negb (is_whitespace c)) (trimStart s) = true.
Proof.
  induction s as [|c r IH]; simpl; [discriminate|].
  destruct (is_whitespace c) eqn:E; simpl.
  - exact IH.
  - intros _. now rewrite E.
Qed.

Lemma existsb_rev (f : N -> bool) (s : jsstring) :
  existsb f (rev s) = existsb f s.
Proof.
  induction s as [|c r IH]; simpl; [reflexivity|].
  rewrite existsb_app, IH. simpl. rewrite orb_false_r. apply orb_comm.
Qed.

(** A string with a character that is not white space does not trim to
    the empty string. *)
Lemma trim_truthy (s : jsstring) :
  existsb (fun c => negb (is_whitespace c)) s = true -> truthy (trim s) = true.
Proof.
  intros H. unfold trim, trimEnd.
  apply trimStart_keeps_non_ws in H.
  rewrite <- existsb_rev in H. apply trimStart_keeps_non_ws in H.
  rewrite <- existsb_rev in H.
  destruct (rev (trimStart (rev (trimStart s)))); [discriminate | reflexivity].
Qed.

Lemma truthy_trim_truthy (s : jsstring) :
  truthy (trim s) = true -> truthy s = true.
Proof.
  destruct s; [discriminate | reflexivity].
Qed.

(** *** Searching for one code unit *)

Lemma startsWith_unit (s : jsstring) (c : N) :
  startsWith s [c] = match s with [] => false | a :: _ => (c =? a)%N end.
Proof.
  destruct s as [|a r]; simpl; [reflexivity|].
  destruct r; now rewrite andb_true_r.
Qed.

Lemma indexOf_from_absent (s : jsstring) (c : N) (i : Z) :
  ~ In c s -> indexOf_from s [c] i = (-1)%Z.
Proof.
  revert i. induction s as [|a r IH]; intros i Hn.
  - reflexivity.
  - cbn [indexOf_from]. rewrite startsWith_unit.
    destruct (N.eqb_spec c a) as [->|Hne].
    + exfalso. apply Hn. now left.
    + apply IH. intros Hin. apply Hn. now right.
Qed.

Lemma indexOf_from_first (pre post : jsstring) (c : N) (i : Z) :
  ~ In c pre ->
  indexOf_from (pre ++ c :: post) [c] i = (i + Z.of_nat (List.length pre))%Z.
Proof.
  revert i. induction pre as [|a r IH]; intros i Hn.
  - cbn [app indexOf_from]. rewrite startsWith_unit, N.eqb_refl. simpl. lia.
  - cbn [app indexOf_from]. rewrite startsWith_unit.
    destruct (N.eqb_spec c a) as [->|Hne].
    + exfalso. apply Hn. now left.
    + rewrite IH by (intros Hin; apply Hn; now right).
      cbn [List.length]. lia.
Qed.

Lemma lastIndexOf_from_absent (s : jsstring) (c : N) (i last : Z) :
  ~ In c s -> lastIndexOf_from s [c] i last = last.
Proof.
  revert i last. induction s as [|a r IH]; intros i last Hn.
  - reflexivity.
  - cbn [lastIndexOf_from]. rewrite startsWith_unit.
    destruct (N.eqb_spec c a) as [->|Hne].
    + exfalso. apply Hn. now left.
    + apply IH. intros Hin. apply Hn. now right.
Qed.

Lemma lastIndexOf_from_last (pre post : jsstring) (c : N) (i last : Z) :
  ~ In c post ->
  lastIndexOf_from (pre ++ c :: post) [c] i last = (i + Z.of_nat (List.length pre))%Z.
Proof.
  revert i last. induction pre as [|a r IH]; intros i last Hn.
  - cbn [app lastIndexOf_from]. rewrite startsWith_unit, N.eqb_refl.
    rewrite (lastIndexOf_from_absent post c (i + 1) i Hn). simpl. lia.
  - cbn [app lastIndexOf_from]. rewrite IH by exact Hn.
    cbn [List.length]. lia.
Qed.

Lemma indexOf_from_bounds (pre post : jsstring) (c : N) (i : Z) :
  (i <= indexOf_from (pre ++ c :: post) [c] i <= i + Z.of_nat (List.length pre))%Z.
Proof.
  revert i. induction pre as [|a r IH]; intros i.
  - cbn [app indexOf_from]. rewrite startsWith_unit, N.eqb_refl. simpl. lia.
  - cbn [app indexOf_from]. rewrite startsWith_unit.
    destruct (c =? a)%N.
    + cbn [List.length]. lia.
    + specialize (IH (i + 1)%Z). cbn [List.length]. lia.
Qed.

Lemma lastIndexOf_from_range (s : jsstring) (c : N) (i last : Z) :
  lastIndexOf_from s [c] i last = last \/ (i <= lastIndexOf_from s [c] i last)%Z.
Proof.
  revert i last. induction s as [|a r IH]; intros i last.
  - now left.
  - cbn [lastIndexOf_from]. rewrite startsWith_unit.
    destruct (c =? a)%N.
    + right. destruct (IH (i + 1)%Z i) as [->|H]; lia.
    + destruct (IH (i + 1)%Z last) as [->|H]; [now left | right; lia].
Qed.

Lemma lastIndexOf_from_lower (pre post : jsstring) (c : N) (i last : Z) :
  (i + Z.of_nat (List.length pre) <= lastIndexOf_from (pre ++ c :: post) [c] i last)%Z.
Proof.
  revert i last. induction pre as [|a r IH]; intros i last.
  - cbn [app lastIndexOf_from]. rewrite startsWith_unit, N.eqb_refl.
    destruct (lastIndexOf_from_range post c (i + 1)%Z i) as [->|H]; simpl; lia.
  - cbn [app lastIndexOf_from].
    match goal with |- (_ <= lastIndexOf_from _ _ _ ?l)%Z => specialize (IH (i + 1)%Z l) end.
    cbn [List.length]. lia.
Qed.

(** Every string splits at the first occurrence of a code unit it holds. *)
Lemma split_first (c : N) (s : jsstring) :
  In c s -> exists pre post, s = pre ++ c :: post /\ ~ In c pre.
Proof.
  induction s as [|a r IH]; intros Hin; [destruct Hin|].
  destruct (N.eq_dec a c) as [->|Hne].
  - exists [], r. split; [reflexivity | intros []].
  - destruct Hin as [Heq|Hin]; [contradiction|].
    destruct (IH Hin) as (pre & post & -> & Hn).
    exists (a :: pre), post. split; [reflexivity|].
    intros [Heq|H']; [contradiction | now apply Hn].
Qed.

(** ... and at the last one. *)
Lemma split_last (c : N) (s : jsstring) :
  In c s -> exists pre post, s = pre ++ c :: post /\ ~ In c post.
Proof.
  intros Hin. apply in_rev in Hin.
  destruct (split_first c (rev s) Hin) as (pre & post & Heq & Hn).
  exists (rev post), (rev pre). split.
  - rewrite <- (rev_involutive s), Heq, rev_app_distr. simpl.
    now rewrite <- app_assoc.
  - intros H. apply Hn. now apply in_rev.
Qed.

(** Two splittings of one string, the first at a shorter prefix. *)
Lemma app_split_lt (a b : N) (p1 q1 p2 q2 : jsstring) :
  p1 ++ a :: q1 = p2 ++ b :: q2 ->
  (List.length p1 < List.length p2)%nat ->
  exists mid, p2 = p1 ++ a :: mid /\ q1 = mid ++ b :: q2.
Proof.
  revert p2. induction p1 as [|x r IH]; intros p2 Heq Hlt.
  - destruct p2 as [|y p2']; [simpl in Hlt; lia|].
    simpl in Heq. injection Heq as -> ->. now exists p2'.
  - destruct p2 as [|y p2']; [simpl in Hlt; lia|].
    simpl in Heq. injection Heq as -> Heq.
    destruct (IH p2' Heq) as (mid & -> & ->); [simpl in Hlt; lia|].
    now exists mid.
Qed.

(** The slice between two positions of a string given by its parts. *)
Lemma slice_middle (pre mid post : jsstring) :
  slice (pre ++ mid ++ post)
        (Z.of_nat (List.length pre))
        (Z.of_nat (List.length pre + List.length mid)) = mid.
Proof.
  unfold slice, clamp_index.
  rewrite !length_app.
  destruct (Z.ltb_spec (Z.of_nat (List.length pre)) 0); [lia|].
  destruct (Z.ltb_spec (Z.of_nat (List.length pre + List.length mid)) 0); [lia|].
  rewrite !Z.min_l by lia.
  replace (Z.to_nat (Z.of_nat (List.length pre + List.length mid)
                     - Z.of_nat (List.length pre))) with (List.length mid) by lia.
  rewrite Nat2Z.id.
  rewrite skipn_app, skipn_all, Nat.sub_diag. simpl.
  rewrite firstn_app, firstn_all, Nat.sub_diag. simpl.
  apply app_nil_r.
Qed.

End StringFacts.

(* ===================================================================== *)
(** * The JSON parser never runs out of its recursion budget *)
(* ===================================================================== *)

Section ParserFuel.

Local Open Scope nat_scope.

Lemma skip_ws_length (s : jsstring) : List.length (skip_ws s) <= List.length s.
Proof.
  induction s as [|c r IH]; simpl; [lia|].
  destruct (is_json_ws c); simpl; lia.
Qed.

Lemma skip_ws_idem (c : N) (r : jsstring) :
  is_json_ws c = false -> skip_ws (c :: r) = c :: r.
Proof. intros H. simpl. now rewrite H. Qed.

Lemma parse_chars_length (s str rest : jsstring) :
  parse_chars s = Some (str, rest) -> List.length rest < List.length s.
Proof.
  remember (List.length s) as n eqn:Hn.
  revert s str rest Hn.
  induction n as [n IH] using lt_wf_ind.
  intros s str rest Hn H. destruct s as [|c r]; [discriminate|].
  cbn [parse_chars] in H. cbn [List.length] in Hn.
  destruct (c =? 34)%N.
  { injection H as _ <-. lia. }
  destruct (c =? 92)%N.
  { destruct r as [|e r1]; [discriminate|].
    destruct (e =? 117)%N.
    - destruct r1 as [|a [|b [|c1 [|d r2]]]]; try discriminate.
      destruct (hex4 a b c1 d); [|discriminate].
      destruct (parse_chars r2) as [[str' rest']|] eqn:E; [|discriminate].
      injection H as _ <-.
      assert (List.length rest' < List.length r2)
        by (eapply (IH (List.length r2)); [simpl in Hn; lia | reflexivity | exact E]).
      simpl in Hn. lia.
    - destruct (unescape e); [|discriminate].
      destruct (parse_chars r1) as [[str' rest']|] eqn:E; [|discriminate].
      injection H as _ <-.
      assert (List.length rest' < List.length r1)
        by (eapply (IH (List.length r1)); [simpl in Hn; lia | reflexivity | exact E]).
      simpl in Hn. lia. }
  destruct (c <? 32)%N; [discriminate|].
  destruct (parse_chars r) as [[str' rest']|] eqn:E; [|discriminate].
  injection H as _ <-.
  assert (List.length rest' < List.length r)
    by (eapply (IH (List.length r)); [lia | reflexivity | exact E]).
  lia.
Qed.

Lemma span_digits_length (s ds rest : jsstring) :
  span_digits s = (ds, rest) -> List.length rest <= List.length s.
Proof.
  revert ds rest. induction s as [|c r IH]; intros ds rest H; simpl in H.
  - injection H as _ <-. simpl. lia.
  - destruct (is_digit c).
    + destruct (span_digits r) as [ds' rest'] eqn:E.
      injection H as _ <-. specialize (IH _ _ eq_refl). simpl. lia.
    + injection H as _ <-. lia.
Qed.

Lemma parse_int_length (s i rest : jsstring) :
  parse_int s = Some (i, rest) -> List.length rest < List.length s.
Proof.
  destruct s as [|c r]; simpl; [discriminate|].
  destruct (c =? 48)%N.
  - intros H. injection H as _ <-. lia.
  - destruct (is_digit c); [|discriminate].
    destruct (span_digits r) as [ds rest'] eqn:E.
    intros H. injection H as _ <-.
    apply span_digits_length in E. lia.
Qed.

Lemma parse_frac_length (s f rest : jsstring) :
  parse_frac s = Some (f, rest) -> List.length rest <= List.length s.
Proof.
  destruct s as [|c r]; simpl.
  - intros H. injection H as _ <-. simpl. lia.
  - destruct (c =? 46)%N.
    + destruct (span_digits r) as [ds rest'] eqn:E.
      apply span_digits_length in E.
      destruct ds; [discriminate|].
      intros H. injection H as _ <-. lia.
    + intros H. injection H as _ <-. simpl. lia.
Qed.

Lemma parse_exp_length (s e rest : jsstring) :
  parse_exp s = Some (e, rest) -> List.length rest <= List.length s.
Proof.
  destruct s as [|c r]; simpl.
  - intros H. injection H as _ <-. simpl. lia.
  - destruct ((c =? 101)%N || (c =? 69)%N).
    + destruct r as [|g r'].
      * simpl. discriminate.
      * destruct ((g =? 43)%N || (g =? 45)%N).
        -- destruct (span_digits r') as [ds rest'] eqn:E.
           apply span_digits_length in E.
           destruct ds; [discriminate|].
           intros H. injection H as _ <-. simpl. lia.
        -- destruct (span_digits (g :: r')) as [ds rest'] eqn:E.
           apply span_digits_length in E.
           destruct ds; [discriminate|].
           intros H. injection H as _ <-. simpl in *. lia.
    + intros H. injection H as _ <-. simpl. lia.
Qed.

Lemma parse_number_length (s lit rest : jsstring) :
  parse_number s = Some (lit, rest) -> List.length rest < List.length s.
Proof.
  unfold parse_number.
  set (p := match s with
            | [] => ([], s)
            | c :: r => if (c =? 45)%N then ([c], r) else ([], s)
            end).
  assert (Hp : List.length (snd p) <= List.length s).
  { subst p. destruct s as [|c r]; simpl; [lia|].
    destruct (c =? 45)%N; simpl; lia. }
  destruct p as [sign r0]. simpl in Hp.
  destruct (parse_int r0) as [[i r1]|] eqn:E1; [|discriminate].
  destruct (parse_frac r1) as [[f r2]|] eqn:E2; [|discriminate].
  destruct (parse_exp r2) as [[e r3]|] eqn:E3; [|discriminate].
  intros H. injection H as _ <-.
  apply parse_int_length in E1. apply parse_frac_length in E2.
  apply parse_exp_length in E3. lia.
Qed.

Lemma parse_word_length (w : jsstring) (v v' : JSON) (s rest : jsstring) :
  w <> [] -> parse_word w v s = POk v' rest -> List.length rest < List.length s.
Proof.
  intros Hw. unfold parse_word.
  destruct (startsWith s w) eqn:E; [|discriminate].
  intros H. injection H as _ <-.
  destruct w as [|a w']; [contradiction|].
  destruct s as [|b s']; [discriminate|].
  rewrite length_skipn. simpl. lia.
Qed.

(** What a budget of [fuel] guarantees for each of the three functions. *)
Definition value_ok (fuel : nat) : Prop :=
  forall s, 2 * List.length s + 1 <= fuel ->
    parse_value fuel s <> POutOfFuel /\
    forall v rest, parse_value fuel s = POk v rest ->
                   List.length rest < List.length s.

Definition elements_ok (fuel : nat) : Prop :=
  forall s acc, 2 * List.length s + 2 <= fuel ->
    parse_elements fuel s acc <> POutOfFuel /\
    forall es rest, parse_elements fuel s acc = POk es rest ->
                    List.length rest < List.length s.

Definition members_ok (fuel : nat) : Prop :=
  forall s acc, 2 * List.length s + 2 <= fuel ->
    parse_members fuel s acc <> POutOfFuel /\
    forall ms rest, parse_members fuel s acc = POk ms rest ->
                    List.length rest < List.length s.

Lemma value_step (f : nat) :
  elements_ok f -> members_ok f -> value_ok (S f).
Proof.
  intros HE HM s Hf. cbn [parse_value].
  destruct s as [|c r]; [split; [discriminate | discriminate]|].
  cbn [List.length] in Hf.
  destruct (c =? 123)%N.
  { pose proof (skip_ws_length r) as Hw.
    destruct (skip_ws r) as [|c' r'] eqn:Er; [split; discriminate|].
    destruct (c' =? 125)%N.
    - split; [discriminate|]. intros v rest H. injection H as _ <-.
      simpl in *. lia.
    - destruct (HM (c' :: r') []) as [Hne Hlen]; [simpl in *; lia|].
      destruct (parse_members f (c' :: r') []) as [ms rest| |];
        [|split; discriminate | contradiction].
      split; [discriminate|]. intros v rest0 H. injection H as _ <-.
      specialize (Hlen _ _ eq_refl). simpl in *. lia. }
  destruct (c =? 91)%N.
  { pose proof (skip_ws_length r) as Hw.
    destruct (skip_ws r) as [|c' r'] eqn:Er; [split; discriminate|].
    destruct (c' =? 93)%N.
    - split; [discriminate|]. intros v rest H. injection H as _ <-.
      simpl in *. lia.
    - destruct (HE (c' :: r') []) as [Hne Hlen]; [simpl in *; lia|].
      destruct (parse_elements f (c' :: r') []) as [es rest| |];
        [|split; discriminate | contradiction].
      split; [discriminate|]. intros v rest0 H. injection H as _ <-.
      specialize (Hlen _ _ eq_refl). simpl in *. lia. }
  destruct (c =? 34)%N.
  { destruct (parse_chars r) as [[str rest]|] eqn:E; [|split; discriminate].
    split; [discriminate|]. intros v rest0 H. injection H as _ <-.
    apply parse_chars_length in E. simpl. lia. }
  destruct (c =? 116)%N.
  { split.
    - unfold parse_word. destruct (startsWith _ _); discriminate.
    - intros v rest H. eapply parse_word_length; [|exact H]. discriminate. }
  destruct (c =? 102)%N.
  { split.
    - unfold parse_word. destruct (startsWith _ _); discriminate.
    - intros v rest H. eapply parse_word_length; [|exact H]. discriminate. }
  destruct (c =? 110)%N.
  { split.
    - unfold parse_word. destruct (startsWith _ _); discriminate.
    - intros v rest H. eapply parse_word_length; [|exact H]. discriminate. }
  destruct (parse_number (c :: r)) as [[lit rest]|] eqn:E; [|split; discriminate].
  split; [discriminate|]. intros v rest0 H. injection H as _ <-.
  apply parse_number_length in E. exact E.
Qed.

Lemma elements_step (f : nat) :
  value_ok f -> elements_ok f -> elements_ok (S f).
Proof.
  intros HV HE s acc Hf. cbn [parse_elements].
  destruct (HV s) as [Hne Hlen]; [lia|].
  destruct (parse_value f s) as [v rest| |]; [|split; discriminate | contradiction].
  specialize (Hlen _ _ eq_refl).
  pose proof (skip_ws_length rest) as Hw.
  destruct (skip_ws rest) as [|c r] eqn:Er; [split; discriminate|].
  destruct (c =? 44)%N.
  - pose proof (skip_ws_length r) as Hw'.
    destruct (HE (skip_ws r) (v :: acc)) as [Hne' Hlen']; [simpl in *; lia|].
    split; [exact Hne'|]. intros es rest0 H.
    specialize (Hlen' _ _ H). simpl in *. lia.
  - destruct (c =? 93)%N; [|split; discriminate].
    split; [discriminate|]. intros es rest0 H. injection H as _ <-.
    simpl in *. lia.
Qed.

Lemma members_step (f : nat) :
  value_ok f -> members_ok f -> members_ok (S f).
Proof.
  intros HV HM s acc Hf. cbn [parse_members].
  destruct s as [|c r]; [split; discriminate|].
  cbn [List.length] in Hf.
  destruct (c =? 34)%N; [|split; discriminate].
  destruct (parse_chars r) as [[key rest]|] eqn:E; [|split; discriminate].
  apply parse_chars_length in E.
  pose proof (skip_ws_length rest) as Hw.
  destruct (skip_ws rest) as [|c1 r1] eqn:Er; [split; discriminate|].
  destruct (c1 =? 58)%N; [|split; discriminate].
  pose proof (skip_ws_length r1) as Hw1.
  destruct (HV (skip_ws r1)) as [Hne Hlen]; [simpl in *; lia|].
  destruct (parse_value f (skip_ws r1)) as [v rest2| |];
    [|split; discriminate | contradiction].
  specialize (Hlen _ _ eq_refl).
  pose proof (skip_ws_length rest2) as Hw2.
  destruct (skip_ws rest2) as [|c2 r2] eqn:Er2; [split; discriminate|].
  destruct (c2 =? 44)%N.
  - pose proof (skip_ws_length r2) as Hw3.
    destruct (HM (skip_ws r2) ((key, v) :: acc)) as [Hne' Hlen']; [simpl in *; lia|].
    split; [exact Hne'|]. intros ms rest0 H.
    specialize (Hlen' _ _ H). simpl in *. lia.
  - destruct (c2 =? 125)%N; [|split; discriminate].
    split; [discriminate|]. intros ms rest0 H. injection H as _ <-.
    simpl in *. lia.
Qed.

Lemma parser_fuel (fuel : nat) :
  value_ok fuel /\ elements_ok fuel /\ members_ok fuel.
Proof.
  induction fuel as [|f (HV & HE & HM)].
  - split; [|split]; intros s; intros; simpl in *; lia.
  - split; [|split].
    + exact (value_step f HE HM).
    + exact (elements_step f HV HE).
    + exact (members_step f HV HM).
Qed.

(** [JSON.parse] is decided by the grammar alone: the recursion budget
    [fuel_for] is never the reason for a failure. *)
Lemma parse_text_fuel (s : jsstring) : parse_text s <> POutOfFuel.
Proof.
  unfold parse_text, fuel_for.
  destruct (parser_fuel (2 * List.length s + 2)) as (HV & _ & _).
  pose proof (skip_ws_length s) as Hw.
  destruct (HV (skip_ws s)) as [Hne _]; [lia|].
  destruct (parse_value _ (skip_ws s)) as [v rest| |];
    [|discriminate | contradiction].
  destruct (skip_ws rest); discriminate.
Qed.

Lemma JSON_parse_None (s : jsstring) :
  JSON_parse s = None <-> parse_text s = PSyntaxError.
Proof.
  unfold JSON_parse. pose proof (parse_text_fuel s) as Hf.
  destruct (parse_text s); split; intros H; try discriminate; try reflexivity.
  contradiction.
Qed.

(** A text whose first code unit is an opening brace parses, if at all, to
    an object. *)
Lemma JSON_parse_brace (r : jsstring) (v : JSON) :
  JSON_parse (123%N :: r) = Some v -> exists ms, v = JObject ms.
Proof.
  unfold JSON_parse, parse_text, fuel_for.
  rewrite skip_ws_idem by reflexivity.
  cbn [List.length Nat.mul Nat.add parse_value].
  replace (123 =? 123)%N with true by reflexivity.
  destruct (skip_ws r) as [|c' r']; [discriminate|].
  destruct (c' =? 125)%N.
  - destruct (skip_ws r'); [|discriminate].
    intros H. injection H as <-. now exists [].
  - destruct (parse_members _ (c' :: r') []) as [ms rest| |]; try discriminate.
    destruct (skip_ws rest); [|discriminate].
    intros H. injection H as <-. now exists ms.
Qed.

End ParserFuel.

(* ===================================================================== *)
(** * The server's tasks, one by one *)
(* ===================================================================== *)

Section ServerFacts.

Import Server.
Local Open Scope list_scope.

Variable openai : OpenAI.

(** *** The brace search of the analysis task *)

(** With the first opening brace before the last closing brace, the test
    passes and the slice runs from the one to the other. *)
Lemma brace_search_found (pre mid post : jsstring) :
  ~ In 123%N pre -> ~ In 125%N post ->
  let text := pre ++ js "{" ++ mid ++ js "}" ++ post in
  brace_test text = true /\ brace_slice text = js "{" ++ mid ++ js "}".
Proof.
  intros Hpre Hpost text.
  assert (Hi : indexOf text (js "{") = Z.of_nat (List.length pre)).
  { unfold indexOf, text. change (js "{") with [123%N]. cbn [app].
    now rewrite indexOf_from_first. }
  assert (Hl : lastIndexOf text (js "}")
               = Z.of_nat (List.length pre + 1 + List.length mid)).
  { unfold lastIndexOf, text. change (js "{") with [123%N].
    change (js "}") with [125%N]. cbn [app].
    replace (pre ++ 123%N :: mid ++ 125%N :: post)
      with ((pre ++ 123%N :: mid) ++ 125%N :: post)
      by (rewrite <- app_assoc; reflexivity).
    rewrite lastIndexOf_from_last by exact Hpost.
    rewrite length_app. cbn [List.length]. lia. }
  unfold brace_test, brace_slice. rewrite Hi, Hl. split.
  - destruct (Z.eqb_spec (Z.of_nat (List.length pre)) (-1)); [lia|].
    destruct (Z.eqb_spec (Z.of_nat (List.length pre + 1 + List.length mid)) (-1)); [lia|].
    cbn [negb andb]. apply Z.gtb_lt. lia.
  - unfold text. change (js "{") with [123%N]. change (js "}") with [125%N].
    replace (pre ++ [123%N] ++ mid ++ [125%N] ++ post)
      with (pre ++ ([123%N] ++ mid ++ [125%N]) ++ post)
      by (rewrite <- !app_assoc; reflexivity).
    replace (Z.of_nat (List.length pre + 1 + List.length mid) + 1)%Z
      with (Z.of_nat (List.length pre + List.length ([123%N] ++ mid ++ [125%N])))
      by (rewrite !length_app; cbn [List.length]; lia).
    apply slice_middle.
Qed.

(** When the test passes, the text does hold such a pair. *)
Lemma brace_test_pair (text : jsstring) :
  brace_test text = true ->
  exists pre mid post, text = pre ++ js "{" ++ mid ++ js "}" ++ post.
Proof.
  unfold brace_test, indexOf, lastIndexOf.
  change (js "{") with [123%N]. change (js "}") with [125%N].
  intros H. apply andb_prop in H. destruct H as [H Hgt].
  apply andb_prop in H. destruct H as [H1 H2].
  destruct (in_dec N.eq_dec 123%N text) as [Hin1|Hn1];
    [|rewrite indexOf_from_absent in H1 by exact Hn1; discriminate].
  destruct (in_dec N.eq_dec 125%N text) as [Hin2|Hn2];
    [|rewrite lastIndexOf_from_absent in H2 by exact Hn2; discriminate].
  destruct (split_first _ _ Hin1) as (p1 & q1 & E1 & Hp1).
  destruct (split_last _ _ Hin2) as (p2 & q2 & E2 & Hq2).
  rewrite E1 in Hgt at 2. rewrite indexOf_from_first in Hgt by exact Hp1.
  rewrite E2 in Hgt. rewrite lastIndexOf_from_last in Hgt by exact Hq2.
  apply Z.gtb_lt in Hgt.
  destruct (app_split_lt 123%N 125%N p1 q1 p2 q2) as (mid & -> & ->);
    [congruence | lia |].
  exists p1, mid, q2. rewrite E1. reflexivity.
Qed.

(** ... and a text that holds such a pair passes the test. *)
Lemma brace_pair_test (pre mid post : jsstring) :
  brace_test (pre ++ js "{" ++ mid ++ js "}" ++ post) = true.
Proof.
  unfold brace_test, indexOf, lastIndexOf.
  change (js "{") with [123%N]. change (js "}") with [125%N]. cbn [app].
  pose proof (indexOf_from_bounds pre (mid ++ 125%N :: post) 123%N 0) as Hi.
  replace (pre ++ 123%N :: mid ++ 125%N :: post)
    with ((pre ++ 123%N :: mid) ++ 125%N :: post) in *
    by (rewrite <- app_assoc; reflexivity).
  pose proof (lastIndexOf_from_lower (pre ++ 123%N :: mid) post 125%N 0 (-1)) as Hl.
  rewrite length_app in Hl. cbn [List.length] in Hl.
  set (x := indexOf_from _ _ _) in *. set (y := lastIndexOf_from _ _ _ _) in *.
  destruct (Z.eqb_spec x (-1)); [lia|]. destruct (Z.eqb_spec y (-1)); [lia|].
  cbn [negb andb]. apply Z.gtb_lt. lia.
Qed.

Lemma brace_test_false_no_pair (text : jsstring) :
  brace_test text = false ->
  forall pre mid post, text <> pre ++ js "{" ++ mid ++ js "}" ++ post.
Proof.
  intros Hf pre mid post ->. rewrite brace_pair_test in Hf. discriminate.
Qed.

Lemma brace_test_no_pair (text : jsstring) :
  (forall pre mid post, text <> pre ++ js "{" ++ mid ++ js "}" ++ post) ->
  brace_test text = false.
Proof.
  intros Hno. destruct (brace_test text) eqn:E; [|reflexivity].
  destruct (brace_test_pair text E) as (pre & mid & post & Heq).
  exfalso. exact (Hno _ _ _ Heq).
Qed.

(** *** The prompts are never empty *)

Lemma customizePrompt_some (rt jd : jsstring) :
  truthy (trim jd) = true ->
  prompt_truthy (customizePrompt rt jd) = true.
Proof.
  intros H. unfold customizePrompt. rewrite H. cbn [prompt_truthy].
  apply trim_truthy. unfold customizePrompt_text.
  rewrite existsb_app. apply orb_true_intro. left. vm_compute. reflexivity.
Qed.

Lemma specificChangesPrompt_some (rt jd : jsstring) :
  truthy (trim jd) = true ->
  prompt_truthy (specificChangesPrompt rt jd) = true.
Proof.
  intros H. unfold specificChangesPrompt. rewrite H. cbn [prompt_truthy].
  apply trim_truthy. unfold specificChangesPrompt_text.
  rewrite existsb_app. apply orb_true_intro. left. vm_compute. reflexivity.
Qed.

Lemma customizePrompt_none (rt jd : jsstring) :
  truthy (trim jd) = false -> customizePrompt rt jd = None.
Proof. intros H. unfold customizePrompt. now rewrite H. Qed.

Lemma specificChangesPrompt_none (rt jd : jsstring) :
  truthy (trim jd) = false -> specificChangesPrompt rt jd = None.
Proof. intros H. unfold specificChangesPrompt. now rewrite H. Qed.

(** *** What each task does to the state *)

(** The analysis task whose call is rejected throws, with the request
    recorded and [analysis] as it was. *)
Lemma analysis_task_rejected (p : jsstring) (st : State) (e : thrown) :
  openai (issued st) (user_request p t07) = inl e ->
  analysis_task openai p st =
  (inl e, {| analysis := analysis st; issued := issued st ++ [user_request p t07] |}).
Proof.
  intros H. unfold analysis_task, bind, create. now rewrite H.
Qed.

Lemma analysis_task_answered (p : jsstring) (st : State) (resp : ChatCompletion) :
  openai (issued st) (user_request p t07) = inr resp ->
  analysis_task openai p st =
  when (brace_test (first_content resp)) (read_parsed (brace_slice (first_content resp)))
       {| analysis := analysis st; issued := issued st ++ [user_request p t07] |}.
Proof.
  intros H. unfold analysis_task, bind, create. now rewrite H.
Qed.

(** Reading the parsed text never throws, touches the three arrays only
    and issues nothing. *)
Lemma read_parsed_run (json : jsstring) (st : State) :
  exists a,
    read_parsed json st = (inr tt, {| analysis := a; issued := issued st |}) /\
    customizedResume a = customizedResume (analysis st) /\
    specificChanges a = specificChanges (analysis st) /\
    coverLetter a = coverLetter (analysis st) /\
    (JSON_parse json = None ->
       strengths a = strengths (analysis st) /\
       improvements a = improvements (analysis st) /\
       tailoring a = tailoring (analysis st)) /\
    (forall ms, JSON_parse json = Some (JObject ms) ->
       strengths a = array_or_empty (lookup (js "strengths") ms) /\
       improvements a = array_or_empty (lookup (js "improvements") ms) /\
       tailoring a = array_or_empty (lookup (js "tailoring") ms)).
Proof.
  unfold read_parsed. destruct st as [a0 tr]. cbn [analysis issued].
  destruct (JSON_parse json) as [parsed|].
  - destruct parsed;
      cbn [read_property bind set_strengths set_improvements set_tailoring
           assign modify ret analysis issued];
      (eexists; split; [reflexivity|]);
      cbn [strengths improvements tailoring customizedResume specificChanges
           coverLetter with_strengths with_improvements with_tailoring];
      (split; [reflexivity|]); (split; [reflexivity|]); (split; [reflexivity|]);
      (split; [discriminate|]);
      intros ms Hms; try discriminate Hms;
      injection Hms as <-; repeat split; reflexivity.
  - eexists. split; [reflexivity|].
    repeat split; try reflexivity; intros; discriminate.
Qed.

Lemma customize_task_run (p : option jsstring) (st : State) :
  prompt_truthy p = true ->
  customize_task openai p st =
  (inr tt,
   {| analysis :=
        match openai (issued st) (user_request (prompt_text p) t07) with
        | inl _ => analysis st
        | inr r =>
            if truthy (trim (first_content r))
            then with_customizedResume (trim (first_content r)) (analysis st)
            else analysis st
        end;
      issued := issued st ++ [user_request (prompt_text p) t07] |}).
Proof.
  intros Hp. unfold customize_task, when. rewrite Hp.
  unfold try_catch, bind, create.
  destruct (openai (issued st) (user_request (prompt_text p) t07)); [reflexivity|].
  destruct (truthy (trim (first_content c))); reflexivity.
Qed.

Lemma changes_task_run (p : option jsstring) (st : State) :
  prompt_truthy p = true ->
  changes_task openai p st =
  (inr tt,
   {| analysis :=
        match openai (issued st) (user_request (prompt_text p) t07) with
        | inl _ => analysis st
        | inr r =>
            if truthy (trim (first_content r))
            then with_specificChanges (trim (first_content r)) (analysis st)
            else analysis st
        end;
      issued := issued st ++ [user_request (prompt_text p) t07] |}).
Proof.
  intros Hp. unfold changes_task, when. rewrite Hp.
  unfold try_catch, bind, create.
  destruct (openai (issued st) (user_request (prompt_text p) t07)); [reflexivity|].
  destruct (truthy (trim (first_content c))); reflexivity.
Qed.

Lemma cover_letter_task_run (rt jd : jsstring) (st : State) :
  truthy (trim jd) = true ->
  cover_letter_task openai rt jd st =
  (inr tt,
   {| analysis :=
        match openai (issued st) (cover_letter_request rt jd) with
        | inl e => with_coverLetter (failure_notice e) (analysis st)
        | inr r =>
            if truthy (trim (first_content r))
            then with_coverLetter (trim (first_content r)) (analysis st)
            else with_coverLetter empty_response_notice (analysis st)
        end;
      issued := issued st ++ [cover_letter_request rt jd] |}).
Proof.
  intros Hjd. unfold cover_letter_task, when, cover_letter_request. rewrite Hjd.
  unfold try_catch, bind, create.
  destruct (openai (issued st) (user_request (coverLetterPrompt rt jd) t08));
    [reflexivity|].
  destruct (truthy (trim (first_content c))); reflexivity.
Qed.

(** Without a job description the three later tasks do nothing. *)
Lemma later_tasks_skipped (rt jd : jsstring) (st : State) :
  truthy (trim jd) = false ->
  bind (customize_task openai (customizePrompt rt jd))
       (fun _ => bind (changes_task openai (specificChangesPrompt rt jd))
                      (fun _ => cover_letter_task openai rt jd)) st
  = (inr tt, st).
Proof.
  intros H. unfold bind, customize_task, changes_task, cover_letter_task.
  rewrite (customizePrompt_none rt jd H), (specificChangesPrompt_none rt jd H), H.
  reflexivity.
Qed.

End ServerFacts.

(* ===================================================================== *)
(** * A full-analysis run, task after task *)
(* ===================================================================== *)

Section FullRun.

Import Server.
Local Open Scope list_scope.

Variable openai : OpenAI.
Variables rt jd : jsstring.

(** The three later tasks of a run with a job description: none throws,
    each issues its request, and each writes its own field only. *)
Lemma later_tasks_run (st : State) :
  truthy (trim jd) = true ->
  let o1 := openai (issued st) (customize_request rt jd) in
  let a1 := match o1 with
            | inl _ => analysis st
            | inr r => if truthy (trim (first_content r))
                       then with_customizedResume (trim (first_content r)) (analysis st)
                       else analysis st
            end in
  let o2 := openai (issued st ++ [customize_request rt jd]) (changes_request rt jd) in
  let a2 := match o2 with
            | inl _ => a1
            | inr r => if truthy (trim (first_content r))
                       then with_specificChanges (trim (first_content r)) a1
                       else a1
            end in
  let o3 := openai (issued st ++ [customize_request rt jd; changes_request rt jd])
                   (cover_letter_request rt jd) in
  let a3 := match o3 with
            | inl e => with_coverLetter (failure_notice e) a2
            | inr r => if truthy (trim (first_content r))
                       then with_coverLetter (trim (first_content r)) a2
                       else with_coverLetter empty_response_notice a2
            end in
  bind (customize_task openai (customizePrompt rt jd))
       (fun _ => bind (changes_task openai (specificChangesPrompt rt jd))
                      (fun _ => cover_letter_task openai rt jd)) st
  = (inr tt,
     {| analysis := a3;
        issued := issued st ++ [customize_request rt jd; changes_request rt jd;
                                cover_letter_request rt jd] |}).
Proof.
  intros Hjd. cbv zeta. unfold bind, customize_request, changes_request.
  rewrite (customize_task_run openai _ st (customizePrompt_some rt jd Hjd)).
  rewrite (changes_task_run openai _ _ (specificChangesPrompt_some rt jd Hjd)).
  rewrite (cover_letter_task_run openai rt jd _ Hjd).
  cbn [analysis issued]. rewrite <- !app_assoc. reflexivity.
Qed.

(** The two fields of the body that holds two texts. *)
Lemma texts_body_resumeText (r j : jsstring) :
  body_member (Some (texts_body r j)) (js "resumeText") = Some (JString r).
Proof. reflexivity. Qed.

Lemma texts_body_jobDescription (r j : jsstring) :
  body_member (Some (texts_body r j)) (js "jobDescription") = Some (JString j).
Proof. reflexivity. Qed.

(** A resume text that is not blank passes the handler's test. *)
Lemma accepted_resume_text (s : jsstring) :
  truthy (trim s) = true -> accepted_resume (Some (JString s)) = inr (Some s).
Proof.
  intros H. unfold accepted_resume. cbn [ToBoolean].
  now rewrite (truthy_trim_truthy s H), H.
Qed.

(** The handler on a body whose resume text is not blank. *)
Lemma full_run_tasks :
  truthy (trim rt) = true ->
  full_run openai rt jd =
  match run_tasks openai rt jd {| analysis := fallback_analysis; issued := [] |} with
  | (inr _, st) => ({| status := 200; payload := AnalysisPayload (analysis st) |}, issued st)
  | (inl err, st) =>
      ({| status := 500;
          payload := ErrorPayload (js "Internal server error")
                       (Some (message_or err (js "Unknown error occurred"))) |},
       issued st)
  end.
Proof.
  intros Hrt. unfold full_run, analyze_resume.
  rewrite texts_body_resumeText, texts_body_jobDescription.
  rewrite (accepted_resume_text rt Hrt). reflexivity.
Qed.

(** A run whose analysis call is rejected. *)
Lemma full_run_rejected (e : thrown) :
  truthy (trim rt) = true ->
  openai [] (analysis_request rt jd) = inl e ->
  full_run openai rt jd =
  ({| status := 200; payload := AnalysisPayload fallback_analysis |},
   [analysis_request rt jd]).
Proof.
  intros Hrt He. rewrite (full_run_tasks Hrt).
  unfold run_tasks, try_catch. unfold bind at 1.
  rewrite (analysis_task_rejected openai _ _ e) by exact He.
  reflexivity.
Qed.

(** A run whose analysis call is answered: the state [a1] after the
    analysis task, and the response in terms of it. *)
Lemma full_run_answered (resp : ChatCompletion) :
  truthy (trim rt) = true ->
  openai [] (analysis_request rt jd) = inr resp ->
  let text := first_content resp in
  exists a1,
    customizedResume a1 = None /\ specificChanges a1 = None /\ coverLetter a1 = None /\
    (brace_test text = false \/ JSON_parse (brace_slice text) = None ->
       strengths a1 = strengths fallback_analysis /\
       improvements a1 = improvements fallback_analysis /\
       tailoring a1 = tailoring fallback_analysis) /\
    (brace_test text = true ->
     forall ms, JSON_parse (brace_slice text) = Some (JObject ms) ->
       strengths a1 = array_or_empty (lookup (js "strengths") ms) /\
       improvements a1 = array_or_empty (lookup (js "improvements") ms) /\
       tailoring a1 = array_or_empty (lookup (js "tailoring") ms)) /\
    (truthy (trim jd) = false ->
       full_run openai rt jd =
       ({| status := 200; payload := AnalysisPayload a1 |}, [analysis_request rt jd])) /\
    (truthy (trim jd) = true ->
       let o1 := openai [analysis_request rt jd] (customize_request rt jd) in
       let a2 := match o1 with
                 | inl _ => a1
                 | inr r => if truthy (trim (first_content r))
                            then with_customizedResume (trim (first_content r)) a1
                            else a1
                 end in
       let o2 := openai [analysis_request rt jd; customize_request rt jd]
                        (changes_request rt jd) in
       let a3 := match o2 with
                 | inl _ => a2
                 | inr r => if truthy (trim (first_content r))
                            then with_specificChanges (trim (first_content r)) a2
                            else a2
                 end in
       let o3 := openai [analysis_request rt jd; customize_request rt jd;
                         changes_request rt jd] (cover_letter_request rt jd) in
       let a4 := match o3 with
                 | inl e => with_coverLetter (failure_notice e) a3
                 | inr r => if truthy (trim (first_content r))
                            then with_coverLetter (trim (first_content r)) a3
                            else with_coverLetter empty_response_notice a3
                 end in
       full_run openai rt jd =
       ({| status := 200; payload := AnalysisPayload a4 |},
        [analysis_request rt jd; customize_request rt jd; changes_request rt jd;
         cover_letter_request rt jd])).
Proof.
  intros Hrt Hresp text.
  set (st0 := {| analysis := fallback_analysis; issued := [] |}).
  set (st1 := {| analysis := fallback_analysis; issued := [analysis_request rt jd] |}).
  assert (Ha : exists a1,
    analysis_task openai (analysisPrompt rt jd) st0
      = (inr tt, {| analysis := a1; issued := [analysis_request rt jd] |}) /\
    customizedResume a1 = None /\ specificChanges a1 = None /\ coverLetter a1 = None /\
    (brace_test text = false \/ JSON_parse (brace_slice text) = None ->
       strengths a1 = strengths fallback_analysis /\
       improvements a1 = improvements fallback_analysis /\
       tailoring a1 = tailoring fallback_analysis) /\
    (brace_test text = true ->
     forall ms, JSON_parse (brace_slice text) = Some (JObject ms) ->
       strengths a1 = array_or_empty (lookup (js "strengths") ms) /\
       improvements a1 = array_or_empty (lookup (js "improvements") ms) /\
       tailoring a1 = array_or_empty (lookup (js "tailoring") ms))).
  { rewrite (analysis_task_answered openai _ st0 resp) by exact Hresp.
    fold text. change (issued st0 ++ [user_request (analysisPrompt rt jd) t07])
      with [analysis_request rt jd].
    cbn [analysis st0]. fold st1. unfold when.
    destruct (brace_test text) eqn:Eb.
    - destruct (read_parsed_run (brace_slice text) st1)
        as (a1 & Hrun & H1 & H2 & H3 & Hnone & Hsome).
      exists a1. split; [exact Hrun|].
      split; [exact H1|]. split; [exact H2|]. split; [exact H3|]. split.
      + intros [Hf|Hp]; [discriminate | now apply Hnone].
      + intros _ ms Hms. now apply Hsome.
    - exists fallback_analysis. split; [reflexivity|].
      split; [reflexivity|]. split; [reflexivity|]. split; [reflexivity|]. split.
      + intros _. repeat split.
      + discriminate. }
  destruct Ha as (a1 & Hrun & H1 & H2 & H3 & Hfb & Hparsed).
  exists a1. repeat (split; [assumption|]).
  split.
  - intros Hjd. rewrite (full_run_tasks Hrt). fold st0.
    unfold run_tasks, try_catch. unfold bind at 1. rewrite Hrun. cbv beta iota.
    rewrite (later_tasks_skipped openai rt jd _ Hjd). reflexivity.
  - intros Hjd. cbv zeta. rewrite (full_run_tasks Hrt). fold st0.
    unfold run_tasks, try_catch. unfold bind at 1. rewrite Hrun. cbv beta iota.
    rewrite (later_tasks_run _ Hjd). reflexivity.
Qed.

End FullRun.

(* ===================================================================== *)
(** * The pipeline result of a full-analysis run *)
(* ===================================================================== *)

Section PipelineResult.

Import Server.
Local Open Scope list_scope.

(** Splits on every outcome and every emptiness test of the later tasks. *)
Ltac split_outcomes :=
  repeat match goal with
         | |- context [match ?o with inl _ => _ | inr _ => _ end] => destruct o
         | |- context [if ?b then _ else _] => destruct b
         end;
  cbn [strengths improvements tailoring customizedResume specificChanges coverLetter
       with_customizedResume with_specificChanges with_coverLetter].

(** C1.  The handler at an input where it departs from the claim: a full
    run with a resume text and a job description that are not blank, whose
    analysis call is rejected.  The three arrays hold the default triple,
    as the claim says.  But the analysis request is the only request
    issued, none of the three later requests is, and [coverLetter] is
    absent from the result, as are the other two optional fields: the
    later tasks are not attempted.  A rejected cover-letter call at the
    same texts, by contrast, leaves a notice in [coverLetter]. *)
Theorem analysis_failure_skips_later_tasks :
  let openai := Samples.scripted [Samples.rejection "quota exceeded"] in
  let rt := Samples.resume in
  let jd := Samples.posting in
  truthy (trim rt) = true /\
  truthy (trim jd) = true /\
  openai [] (analysis_request rt jd) = inl (ErrorObj (js "quota exceeded")) /\
  fst (full_run openai rt jd)
  = {| status := 200; payload := AnalysisPayload fallback_analysis |} /\
  coverLetter fallback_analysis = None /\
  customizedResume fallback_analysis = None /\
  specificChanges fallback_analysis = None /\
  snd (full_run openai rt jd) = [analysis_request rt jd] /\
  ~ In (customize_request rt jd) (snd (full_run openai rt jd)) /\
  ~ In (changes_request rt jd) (snd (full_run openai rt jd)) /\
  ~ In (cover_letter_request rt jd) (snd (full_run openai rt jd)) /\
  (exists a,
     result_of (fst (full_run (Samples.scripted [Samples.answer (js "{}");
                                                 Samples.answer (js "Jane Poe");
                                                 Samples.answer (js "SECTION: Skills");
                                                 Samples.rejection "quota exceeded"])
                       rt jd)) = Some a /\
     coverLetter a
     = Some (js "Cover letter generation failed: quota exceeded. Please try again.")).
Proof.
  cbv zeta. split; [vm_compute; reflexivity|].
  split; [vm_compute; reflexivity|]. split; [reflexivity|].
  rewrite (full_run_rejected _ _ _ (ErrorObj (js "quota exceeded")));
    [|vm_compute; reflexivity | reflexivity].
  cbn [fst snd]. split; [reflexivity|].
  split; [reflexivity|]. split; [reflexivity|]. split; [reflexivity|].
  split; [reflexivity|].
  split; [intros [H|[]]; vm_compute in H; discriminate H|].
  split; [intros [H|[]]; vm_compute in H; discriminate H|].
  split; [intros [H|[]]; vm_compute in H; discriminate H|].
  eexists. split; vm_compute; reflexivity.
Qed.

(** C2.  When the analysis call is answered with a text that holds no
    opening brace followed by a closing brace, or whose slice from the
    first opening brace to the last closing brace is not JSON, the result
    carries the fixed default triple: two strengths, two improvements, two
    tailoring strings. *)
Theorem unparsable_analysis_keeps_defaults
  (openai : OpenAI) (rt jd : jsstring) (resp : ChatCompletion) :
  truthy (trim rt) = true ->
  openai [] (analysis_request rt jd) = inr resp ->
  let text := first_content resp in
  ((forall pre mid post, text <> pre ++ js "{" ++ mid ++ js "}" ++ post) \/
   (exists pre mid post,
      text = pre ++ js "{" ++ mid ++ js "}" ++ post /\
      ~ In 123%N pre /\ ~ In 125%N post /\
      JSON_parse (js "{" ++ mid ++ js "}") = None)) ->
  exists a,
    result_of (fst (full_run openai rt jd)) = Some a /\
    strengths a = strengths fallback_analysis /\
    improvements a = improvements fallback_analysis /\
    tailoring a = tailoring fallback_analysis /\
    List.length (strengths a) = 2%nat /\
    List.length (improvements a) = 2%nat /\
    List.length (tailoring a) = 2%nat.
Proof.
  intros Hrt Hresp text Hbad.
  destruct (full_run_answered openai rt jd resp Hrt Hresp)
    as (a1 & _ & _ & _ & Hfb & _ & Hblank & Hfull).
  fold text in Hfb.
  assert (Hcase : brace_test text = false \/ JSON_parse (brace_slice text) = None).
  { destruct Hbad as [Hno | (pre & mid & post & Heq & Hpre & Hpost & Hparse)].
    - left. now apply brace_test_no_pair.
    - right. destruct (brace_search_found pre mid post Hpre Hpost) as [_ Hs].
      cbv zeta in Hs. rewrite <- Heq in Hs. now rewrite Hs. }
  destruct (Hfb Hcase) as (Hs & Hi & Ht).
  destruct (truthy (trim jd)) eqn:Hjd.
  - specialize (Hfull eq_refl). cbv zeta in Hfull. rewrite Hfull.
    cbn [fst result_of payload]. eexists. split; [reflexivity|].
    rewrite <- Hs, <- Hi, <- Ht.
    assert (L : List.length (strengths a1) = 2%nat /\
                List.length (improvements a1) = 2%nat /\
                List.length (tailoring a1) = 2%nat)
      by (rewrite Hs, Hi, Ht; repeat split).
    revert L. split_outcomes; intros (L1 & L2 & L3); repeat split; assumption.
  - rewrite (Hblank eq_refl). cbn [fst result_of payload].
    exists a1. rewrite Hs, Hi, Ht. repeat split.
Qed.


Lemma unparsable_analysis_keeps_defaults_witness :
  exists a,
    result_of (fst (full_run
      (Samples.scripted [Samples.answer (js "I am sorry, I cannot help with that.")])
      Samples.resume Samples.posting)) = Some a /\
    strengths a = strengths fallback_analysis /\
    improvements a = improvements fallback_analysis /\
    tailoring a = tailoring fallback_analysis /\
    List.length (strengths a) = 2%nat /\
    List.length (improvements a) = 2%nat /\
    List.length (tailoring a) = 2%nat.
Proof.
  eapply (unparsable_analysis_keeps_defaults
            (Samples.scripted [Samples.answer (js "I am sorry, I cannot help with that.")])
            Samples.resume Samples.posting).
  - vm_compute. reflexivity.
  - reflexivity.
  - left. apply brace_test_false_no_pair. vm_compute. reflexivity.
Defined.

(** C3 as stated fails: a parsed value that is an array, but not an array
    of strings, is kept as it is instead of being replaced by the empty
    sequence. *)
Lemma non_string_array_is_kept :
  let text := tpl "{`strengths`:[1,true],`improvements`:`none`,`tailoring`:[`b`]}" in
  let openai := Samples.scripted [Samples.answer text] in
  let ms := [ (js "strengths", JArray [JNumber (js "1"); JBool true]);
              (js "improvements", JString (js "none"));
              (js "tailoring", JArray [JString (js "b")]) ] in
  JSON_parse (brace_slice text) = Some (JObject ms) /\
  is_string_array (lookup (js "strengths") ms) = false /\
  exists a,
    result_of (fst (full_run openai Samples.resume Samples.posting)) = Some a /\
    strengths a = [JNumber (js "1"); JBool true] /\
    strengths a <> [].
Proof.
  cbv zeta. split; [vm_compute; reflexivity|]. split; [vm_compute; reflexivity|].
  eexists. split; [vm_compute; reflexivity|].
  split; [vm_compute; reflexivity | discriminate].
Qed.

(** C3, as amended.  When the slice from the first opening brace to the
    last closing brace of the analysis text parses as JSON, the parsed
    value is an object and each of [strengths], [improvements] and
    [tailoring] equals the member of that name when the member is an
    array, whatever its elements, and the empty sequence otherwise (the
    member is absent or is no array). *)
Theorem parsed_arrays_are_kept
  (openai : OpenAI) (rt jd : jsstring) (resp : ChatCompletion)
  (pre mid post : jsstring) (parsed : JSON) :
  truthy (trim rt) = true ->
  openai [] (analysis_request rt jd) = inr resp ->
  first_content resp = pre ++ js "{" ++ mid ++ js "}" ++ post ->
  ~ In 123%N pre -> ~ In 125%N post ->
  JSON_parse (js "{" ++ mid ++ js "}") = Some parsed ->
  exists ms a,
    parsed = JObject ms /\
    result_of (fst (full_run openai rt jd)) = Some a /\
    strengths a = array_or_empty (lookup (js "strengths") ms) /\
    improvements a = array_or_empty (lookup (js "improvements") ms) /\
    tailoring a = array_or_empty (lookup (js "tailoring") ms).
Proof.
  intros Hrt Hresp Htext Hpre Hpost Hparse.
  destruct (JSON_parse_brace _ _ Hparse) as [ms ->]. exists ms.
  destruct (full_run_answered openai rt jd resp Hrt Hresp)
    as (a1 & _ & _ & _ & _ & Hparsed & Hblank & Hfull).
  destruct (brace_search_found pre mid post Hpre Hpost) as [Hb Hs].
  cbv zeta in Hb, Hs. rewrite <- Htext in Hb, Hs.
  rewrite <- Hs in Hparse.
  destruct (Hparsed Hb ms Hparse) as (H1 & H2 & H3).
  destruct (truthy (trim jd)) eqn:Hjd.
  - specialize (Hfull eq_refl). cbv zeta in Hfull. rewrite Hfull.
    cbn [fst result_of payload]. eexists. split; [reflexivity|].
    split; [reflexivity|].
    rewrite <- H1, <- H2, <- H3. split_outcomes; repeat split.
  - rewrite (Hblank eq_refl). cbn [fst result_of payload].
    exists a1. repeat split; assumption.
Qed.

Lemma parsed_arrays_are_kept_witness :
  exists ms a,
    JObject [ (js "strengths", JArray [JString (js "a")]);
              (js "improvements", JArray []);
              (js "tailoring", JArray [JString (js "b"); JString (js "c")]) ]
      = JObject ms /\
    result_of (fst (full_run
      (Samples.scripted
         [Samples.answer
            (tpl "noise {`strengths`:[`a`],`improvements`:[],`tailoring`:[`b`,`c`]} trailing")])
      Samples.resume Samples.posting)) = Some a /\
    strengths a = array_or_empty (lookup (js "strengths") ms) /\
    improvements a = array_or_empty (lookup (js "improvements") ms) /\
    tailoring a = array_or_empty (lookup (js "tailoring") ms).
Proof.
  eapply (parsed_arrays_are_kept
            (Samples.scripted
               [Samples.answer
                  (tpl "noise {`strengths`:[`a`],`improvements`:[],`tailoring`:[`b`,`c`]} trailing")])
            Samples.resume Samples.posting _
            (js "noise ")
            (tpl "`strengths`:[`a`],`improvements`:[],`tailoring`:[`b`,`c`]")
            (js " trailing")).
  - vm_compute. reflexivity.
  - reflexivity.
  - vm_compute. reflexivity.
  - vm_compute. intuition discriminate.
  - vm_compute. intuition discriminate.
  - vm_compute. reflexivity.
Defined.


(** C4 as stated fails: with every call but the customization call
    answered, [specificChanges] is still absent when the specific-changes
    call is answered with blank text. *)
Lemma blank_changes_leave_field_absent :
  let openai := Samples.scripted
                  [ Samples.answer (js "{}");
                    Samples.rejection "timeout";
                    Samples.answer (js "   ");
                    Samples.answer (js "Dear Hiring Manager, ...") ] in
  let rt := Samples.resume in
  let jd := Samples.posting in
  truthy (trim jd) = true /\
  (exists r, openai [] (analysis_request rt jd) = inr r) /\
  (exists e, openai [analysis_request rt jd] (customize_request rt jd) = inl e) /\
  (exists r, openai [analysis_request rt jd; customize_request rt jd]
                    (changes_request rt jd) = inr r) /\
  (exists r, openai [analysis_request rt jd; customize_request rt jd;
                     changes_request rt jd] (cover_letter_request rt jd) = inr r) /\
  exists a,
    result_of (fst (full_run openai rt jd)) = Some a /\
    specificChanges a = None.
Proof.
  cbv zeta. split; [vm_compute; reflexivity|].
  split; [eexists; reflexivity|]. split; [eexists; reflexivity|].
  split; [eexists; reflexivity|]. split; [eexists; reflexivity|].
  eexists. split; vm_compute; reflexivity.
Qed.

(** C4, as amended.  In a full run with a job description that is not
    blank in which the customization call alone is rejected, all four
    requests are issued in order, [customizedResume] is absent,
    [coverLetter] is present, and [specificChanges] holds the trimmed text
    of the specific-changes call when that text is not blank (and is
    absent when it is). *)
Theorem customization_failure_is_contained
  (openai : OpenAI) (rt jd : jsstring)
  (ra rch rcl : ChatCompletion) (e : thrown) :
  truthy (trim rt) = true ->
  truthy (trim jd) = true ->
  openai [] (analysis_request rt jd) = inr ra ->
  openai [analysis_request rt jd] (customize_request rt jd) = inl e ->
  openai [analysis_request rt jd; customize_request rt jd]
         (changes_request rt jd) = inr rch ->
  openai [analysis_request rt jd; customize_request rt jd; changes_request rt jd]
         (cover_letter_request rt jd) = inr rcl ->
  exists a,
    result_of (fst (full_run openai rt jd)) = Some a /\
    snd (full_run openai rt jd) =
      [analysis_request rt jd; customize_request rt jd; changes_request rt jd;
       cover_letter_request rt jd] /\
    customizedResume a = None /\
    coverLetter a <> None /\
    specificChanges a =
      (if truthy (trim (first_content rch)) then Some (trim (first_content rch))
       else None).
Proof.
  intros Hrt Hjd Ha Hc Hch Hcl.
  destruct (full_run_answered openai rt jd ra Hrt Ha)
    as (a1 & H1 & H2 & H3 & _ & _ & _ & Hfull).
  specialize (Hfull Hjd). cbv zeta in Hfull.
  rewrite Hc, Hch, Hcl in Hfull. rewrite Hfull.
  cbn [fst snd result_of payload]. eexists. split; [reflexivity|].
  split; [reflexivity|].
  destruct (truthy (trim (first_content rch)));
    destruct (truthy (trim (first_content rcl)));
    cbn [customizedResume specificChanges coverLetter
         with_specificChanges with_coverLetter];
    (split; [exact H1|]); (split; [discriminate|]);
    first [reflexivity | exact H2].
Qed.

Lemma customization_failure_is_contained_witness :
  exists a,
    let openai := Samples.scripted
                    [ Samples.answer (js "{}");
                      Samples.rejection "timeout";
                      Samples.answer (js "SECTION: Skills");
                      Samples.answer (js "Dear Hiring Manager, ...") ] in
    result_of (fst (full_run openai Samples.resume Samples.posting)) = Some a /\
    snd (full_run openai Samples.resume Samples.posting) =
      [analysis_request Samples.resume Samples.posting;
       customize_request Samples.resume Samples.posting;
       changes_request Samples.resume Samples.posting;
       cover_letter_request Samples.resume Samples.posting] /\
    customizedResume a = None /\
    coverLetter a <> None /\
    specificChanges a = Some (js "SECTION: Skills").
Proof.
  destruct (customization_failure_is_contained
              (Samples.scripted
                 [ Samples.answer (js "{}");
                   Samples.rejection "timeout";
                   Samples.answer (js "SECTION: Skills");
                   Samples.answer (js "Dear Hiring Manager, ...") ])
              Samples.resume Samples.posting
              {| choices := [ {| message := Some {| message_content := Some (js "{}") |} |} ] |}
              {| choices := [ {| message := Some {| message_content := Some (js "SECTION: Skills") |} |} ] |}
              {| choices := [ {| message := Some {| message_content := Some (js "Dear Hiring Manager, ...") |} |} ] |}
              (ErrorObj (js "timeout")))
    as (a & H1 & H2 & H3 & H4 & H5);
    [vm_compute; reflexivity | vm_compute; reflexivity
     | reflexivity | reflexivity | reflexivity | reflexivity |].
  exists a. cbv zeta. repeat (split; [assumption|]). exact H5.
Defined.

(** C5 as stated fails for the cover letter: blank text from the
    cover-letter call does not leave [coverLetter] out of the result but
    sets it to a fixed notice. *)
Lemma blank_cover_letter_is_reported :
  let openai := Samples.scripted
                  [ Samples.answer (js "{}");
                    Samples.answer (js "Jane Poe, backend engineer");
                    Samples.answer (js "SECTION: Skills");
                    Samples.answer [32%N; 10%N; 9%N] ] in
  let rt := Samples.resume in
  let jd := Samples.posting in
  openai [analysis_request rt jd; customize_request rt jd; changes_request rt jd]
         (cover_letter_request rt jd) = Samples.answer [32%N; 10%N; 9%N] /\
  trim [32%N; 10%N; 9%N] = [] /\
  exists a,
    result_of (fst (full_run openai rt jd)) = Some a /\
    coverLetter a =
      Some (js "Cover letter generation returned an empty response. Please try again.") /\
    coverLetter a <> None.
Proof.
  cbv zeta. split; [reflexivity|]. split; [reflexivity|].
  eexists. split; [vm_compute; reflexivity|].
  split; [vm_compute; reflexivity | discriminate].
Qed.

(** C5, as amended.  In a full run whose later tasks run (the analysis
    call is answered and the job description is not blank), text that
    trims to the empty string leaves [customizedResume] absent when it
    comes from the customization call and [specificChanges] absent when it
    comes from the specific-changes call; from the cover-letter call it
    sets [coverLetter] to the fixed empty-response notice. *)
Theorem blank_text_by_task
  (openai : OpenAI) (rt jd : jsstring) (ra : ChatCompletion) :
  truthy (trim rt) = true ->
  truthy (trim jd) = true ->
  openai [] (analysis_request rt jd) = inr ra ->
  exists a,
    result_of (fst (full_run openai rt jd)) = Some a /\
    (forall r,
       openai [analysis_request rt jd] (customize_request rt jd) = inr r ->
       trim (first_content r) = [] ->
       customizedResume a = None) /\
    (forall r,
       openai [analysis_request rt jd; customize_request rt jd]
              (changes_request rt jd) = inr r ->
       trim (first_content r) = [] ->
       specificChanges a = None) /\
    (forall r,
       openai [analysis_request rt jd; customize_request rt jd; changes_request rt jd]
              (cover_letter_request rt jd) = inr r ->
       trim (first_content r) = [] ->
       coverLetter a = Some empty_response_notice).
Proof.
  intros Hrt Hjd Ha.
  destruct (full_run_answered openai rt jd ra Hrt Ha)
    as (a1 & H1 & H2 & H3 & _ & _ & _ & Hfull).
  specialize (Hfull Hjd). cbv zeta in Hfull. rewrite Hfull.
  cbn [fst result_of payload]. eexists. split; [reflexivity|].
  split; [|split].
  - intros r Hr Hblank. rewrite Hr, Hblank. cbn [truthy].
    split_outcomes; exact H1.
  - intros r Hr Hblank. rewrite Hr, Hblank. cbn [truthy].
    split_outcomes; exact H2.
  - intros r Hr Hblank. rewrite Hr, Hblank. cbn [truthy].
    split_outcomes; reflexivity.
Qed.

Lemma blank_text_by_task_witness :
  exists a,
    let openai := Samples.scripted
                    [ Samples.answer (js "{}");
                      Samples.answer (js "  ");
                      Samples.answer [10%N];
                      Samples.answer [] ] in
    result_of (fst (full_run openai Samples.resume Samples.posting)) = Some a /\
    customizedResume a = None /\
    specificChanges a = None /\
    coverLetter a = Some empty_response_notice.
Proof.
  destruct (blank_text_by_task
              (Samples.scripted
                 [ Samples.answer (js "{}");
                   Samples.answer (js "  ");
                   Samples.answer [10%N];
                   Samples.answer [] ])
              Samples.resume Samples.posting
              {| choices := [ {| message := Some {| message_content := Some (js "{}") |} |} ] |})
    as (a & H0 & H1 & H2 & H3);
    [vm_compute; reflexivity | vm_compute; reflexivity | reflexivity |].
  exists a. cbv zeta. split; [exact H0|].
  split; [eapply H1; reflexivity|].
  split; [eapply H2; reflexivity|].
  eapply H3; reflexivity.
Defined.

(** C6.  When the cover-letter call of a full run is rejected, the handler
    still answers with status 200 and the result object, whose
    [coverLetter] is the sentence that names the failure: the message of
    the error in the middle, or the words "Unknown error" for a rejection
    that is no [Error]. *)
Theorem cover_letter_failure_becomes_text
  (openai : OpenAI) (rt jd : jsstring) (ra : ChatCompletion) (e : thrown) :
  truthy (trim rt) = true ->
  truthy (trim jd) = true ->
  openai [] (analysis_request rt jd) = inr ra ->
  openai [analysis_request rt jd; customize_request rt jd; changes_request rt jd]
         (cover_letter_request rt jd) = inl e ->
  exists a,
    fst (full_run openai rt jd) = {| status := 200; payload := AnalysisPayload a |} /\
    coverLetter a =
      Some (js "Cover letter generation failed: "
            ++ message_or e (js "Unknown error")
            ++ js ". Please try again.").
Proof.
  intros Hrt Hjd Ha Hcl.
  destruct (full_run_answered openai rt jd ra Hrt Ha)
    as (a1 & _ & _ & _ & _ & _ & _ & Hfull).
  specialize (Hfull Hjd). cbv zeta in Hfull. rewrite Hcl in Hfull. rewrite Hfull.
  cbn [fst]. eexists. split; [reflexivity|]. reflexivity.
Qed.

Lemma cover_letter_failure_becomes_text_witness :
  exists a,
    fst (full_run
           (Samples.scripted
              [ Samples.answer (js "{}");
                Samples.answer (js "Jane Poe, backend engineer");
                Samples.answer (js "SECTION: Skills");
                Samples.rejection "429 rate limit" ])
           Samples.resume Samples.posting)
      = {| status := 200; payload := AnalysisPayload a |} /\
    coverLetter a =
      Some (js "Cover letter generation failed: 429 rate limit. Please try again.").
Proof.
  destruct (cover_letter_failure_becomes_text
              (Samples.scripted
                 [ Samples.answer (js "{}");
                   Samples.answer (js "Jane Poe, backend engineer");
                   Samples.answer (js "SECTION: Skills");
                   Samples.rejection "429 rate limit" ])
              Samples.resume Samples.posting
              {| choices := [ {| message := Some {| message_content := Some (js "{}") |} |} ] |}
              (ErrorObj (js "429 rate limit")))
    as (a & H0 & H1);
    [vm_compute; reflexivity | vm_compute; reflexivity | reflexivity | reflexivity |].
  exists a. split; [exact H0 | exact H1].
Defined.

End PipelineResult.

(* ===================================================================== *)
(** * The client: text extraction *)
(* ===================================================================== *)

Section Extraction.

Import Client.
Local Open Scope list_scope.

Lemma str_eqb_eq (a b : jsstring) : str_eqb a b = true <-> a = b.
Proof.
  unfold str_eqb. destruct (list_eq_dec N.eq_dec a b); split; intros H;
    try reflexivity; try assumption; try discriminate; contradiction.
Qed.

(** The handler's first test, by name. *)
Lemma upload_type_test (file : File) :
  negb (str_eqb (type file) (js "application/pdf"))
  && negb (endsWith (toLowerCase (name file)) (js ".pdf"))
  = negb (declared_pdf file).
Proof. unfold declared_pdf. now rewrite negb_orb. Qed.

(** A file that is not declared a PDF is refused at once. *)
Lemma upload_wrong_type (file : File) (c : Component) :
  declared_pdf file = false ->
  handleFileUpload file c = (inr tt, emit (Toasted invalid_type_toast) c).
Proof.
  intros H. unfold handleFileUpload. rewrite upload_type_test, H. reflexivity.
Qed.

(** A file that is declared a PDF and is too large is refused next. *)
Lemma upload_too_large (file : File) (c : Component) :
  declared_pdf file = true ->
  (max_size < size file)%N ->
  handleFileUpload file c = (inr tt, emit (Toasted too_large_toast) c).
Proof.
  intros H Hs. unfold handleFileUpload. rewrite upload_type_test, H.
  apply N.ltb_lt in Hs. cbn [negb]. rewrite Hs. reflexivity.
Qed.

(** A file that passes both tests and decodes to text. *)
Lemma upload_decoded (file : File) (c : Component)
  (pdf : list PageOutcome) (extractedText : jsstring) :
  declared_pdf file = true ->
  (size file <= max_size)%N ->
  decoded file = inr pdf ->
  extract_pages pdf [] = inr extractedText ->
  handleFileUpload file c =
  (inr tt,
   with_isProcessingPDF false
     (emit (Toasted {| title := js "PDF uploaded successfully";
                       description := name file ++ js " has been uploaded and processed.";
                       variant := None |})
        (with_resumeText (trim extractedText)
           (emit (Decoded file)
              (with_isProcessingPDF true (with_uploadedFile (Some file) c)))))).
Proof.
  intros H Hs Hd He. unfold handleFileUpload. rewrite upload_type_test, H.
  apply N.ltb_ge in Hs. cbn [negb]. rewrite Hs.
  unfold bind, try_finally, try_catch, setUploadedFile, setIsProcessingPDF,
    setResumeText, toast, modify, await.
  rewrite Hd. cbv beta iota delta [ret]. rewrite He. reflexivity.
Qed.

Lemma pageText_runs (runs : list jsstring) :
  pageText (List.map TextItem runs) = join (js " ") runs.
Proof.
  unfold pageText. rewrite map_map. cbn [item_text]. now rewrite map_id.
Qed.

(** The loop over pages that all decode appends, page by page, the text of
    the page and a newline. *)
Lemma extract_pages_document (pages : list (list jsstring)) (acc : jsstring) :
  extract_pages (document pages) acc =
  inr (acc ++ List.concat (List.map (fun runs => join (js " ") runs ++ newline) pages)).
Proof.
  revert acc. induction pages as [|runs rest IH]; intros acc.
  - simpl. now rewrite app_nil_r.
  - cbn [document List.map extract_pages List.concat].
    fold (document rest). rewrite IH, pageText_runs.
    now rewrite <- !app_assoc.
Qed.

Lemma concat_newlines (parts : list jsstring) :
  parts <> [] ->
  List.concat (List.map (fun p => p ++ newline) parts) = join newline parts ++ newline.
Proof.
  induction parts as [|p rest IH]; intros Hne; [contradiction|].
  destruct rest as [|q rest'].
  - simpl. now rewrite app_nil_r.
  - specialize (IH ltac:(discriminate)).
    change (List.concat (List.map (fun p0 => p0 ++ newline) (p :: q :: rest')))
      with ((p ++ newline)
            ++ List.concat (List.map (fun p0 => p0 ++ newline) (q :: rest'))).
    rewrite IH.
    change (join newline (p :: q :: rest'))
      with (p ++ newline ++ join newline (q :: rest')).
    now rewrite <- !app_assoc.
Qed.

(** A newline after each page or one between the pages: the trimmed text
    is the same. *)
Lemma trim_pages (parts : list jsstring) :
  trim (List.concat (List.map (fun p => p ++ newline) parts)) = trim (join newline parts).
Proof.
  destruct parts as [|p rest]; [reflexivity|].
  rewrite concat_newlines by discriminate.
  apply trim_app_ws. reflexivity.
Qed.

(** C8.  For a file that passes the type and size tests and decodes, page
    after page, to text runs, the text the handler stores is the runs of
    each page joined by one space (code unit 32), the pages joined by one
    newline (code unit 10) in page order, trimmed at both ends. *)
Theorem extracted_text_layout
  (file : File) (c : Component) (pages : list (list jsstring)) :
  declared_pdf file = true ->
  (size file <= max_size)%N ->
  decoded file = inr (document pages) ->
  exists c',
    handleFileUpload file c = (inr tt, c') /\
    resumeText c' = trim (join [10%N] (List.map (join [32%N]) pages)).
Proof.
  intros H Hs Hd.
  rewrite (upload_decoded file c _ _ H Hs Hd (extract_pages_document pages [])).
  eexists. split; [reflexivity|].
  cbn [resumeText with_isProcessingPDF emit with_resumeText app].
  change [10%N] with newline. change [32%N] with (js " ").
  rewrite <- trim_pages. now rewrite map_map.
Qed.

Lemma extracted_text_layout_witness :
  exists c',
    handleFileUpload Samples.renamed_pdf initial = (inr tt, c') /\
    resumeText c'
    = [74; 97; 110; 101; 32; 80; 111; 101; 10; 82; 117; 115; 116]%N.
Proof.
  destruct (extracted_text_layout Samples.renamed_pdf initial
              [[js "Jane"; js "Poe"]; [js "Rust"]])
    as (c' & Hrun & Htext);
    [vm_compute; reflexivity | vm_compute; discriminate | reflexivity |].
  exists c'. split; [exact Hrun|]. rewrite Htext. vm_compute. reflexivity.
Defined.

(** C9 as stated fails twice.  A file whose declared type is not the PDF
    type but whose name ends in [.pdf], in any case, is not refused: it is
    decoded and its text stored.  And a file of 5 MiB and one byte that is
    not declared a PDF is refused for its type, not for its size. *)
Lemma type_test_reads_the_name :
  type Samples.renamed_pdf <> js "application/pdf" /\
  (exists c',
     handleFileUpload Samples.renamed_pdf initial = (inr tt, c') /\
     In (Decoded Samples.renamed_pdf) (events c') /\
     ~ In (Toasted invalid_type_toast) (events c') /\
     resumeText c' = js "Jane Poe" ++ newline ++ js "Rust") /\
  (size Samples.large_text_file = 5 * 1024 * 1024 + 1)%N /\
  handleFileUpload Samples.large_text_file initial
    = (inr tt, emit (Toasted invalid_type_toast) initial) /\
  invalid_type_toast <> too_large_toast.
Proof.
  split; [discriminate|]. split.
  - eexists. split; [vm_compute; reflexivity|].
    split; [left; reflexivity|]. split; [|vm_compute; reflexivity].
    cbn [events]. intros [H|[H|[]]]; discriminate H.
  - split; [reflexivity|]. split; [vm_compute; reflexivity | discriminate].
Qed.

(** C9, as amended.  A file whose declared type is not [application/pdf]
    and whose name does not end in [.pdf] (in any case of A to Z) is
    refused with the invalid-type notice; a file that passes that test and
    is larger than 5 MiB is refused with the too-large notice.  In both
    cases the notice is all the handler does: nothing is decoded and the
    component is otherwise as before. *)
Theorem upload_is_refused_before_decoding (file : File) (c : Component) :
  (type file <> js "application/pdf" ->
   endsWith (toLowerCase (name file)) (js ".pdf") = false ->
   handleFileUpload file c = (inr tt, emit (Toasted invalid_type_toast) c)) /\
  (type file = js "application/pdf"
     \/ endsWith (toLowerCase (name file)) (js ".pdf") = true ->
   (5 * 1024 * 1024 < size file)%N ->
   handleFileUpload file c = (inr tt, emit (Toasted too_large_toast) c)).
Proof.
  split.
  - intros Ht Hn. apply upload_wrong_type. unfold declared_pdf. rewrite Hn.
    destruct (str_eqb (type file) (js "application/pdf")) eqn:E; [|reflexivity].
    apply str_eqb_eq in E. contradiction.
  - intros Hd Hs. apply upload_too_large; [|exact Hs].
    unfold declared_pdf. destruct Hd as [Ht|Hn].
    + apply str_eqb_eq in Ht. now rewrite Ht.
    + rewrite Hn. apply orb_true_r.
Qed.

Lemma upload_is_refused_before_decoding_witness :
  handleFileUpload Samples.large_text_file initial
    = (inr tt, emit (Toasted invalid_type_toast) initial) /\
  handleFileUpload Samples.large_pdf initial
    = (inr tt, emit (Toasted too_large_toast) initial).
Proof.
  split.
  - apply (proj1 (upload_is_refused_before_decoding Samples.large_text_file initial)).
    + discriminate.
    + vm_compute. reflexivity.
  - apply (proj2 (upload_is_refused_before_decoding Samples.large_pdf initial)).
    + left. reflexivity.
    + vm_compute. reflexivity.
Defined.

End Extraction.

(* ===================================================================== *)
(** * The client: the cover-letter-only run *)
(* ===================================================================== *)

Section CoverLetterOnly.

Import Client.
Local Open Scope list_scope.

Variable net : Network.
Variable c : Component.

(** The request of the run and the component once it is sent. *)
Let req : FetchRequest := analyze_request (resumeText c) (jobDescription c).
Let started : Component := emit (Fetched req) (with_isGeneratingCoverLetter true c).

(** The component after a run that ended in the [catch]. *)
Let failed (err : thrown) : Component :=
  with_isGeneratingCoverLetter false
    (emit (Toasted (failure_toast (js "Cover letter generation failed") err)) started).

(** A response that is not OK always ends in a thrown [Error]. *)
Lemma reject_unless_ok_throws (resp : HttpResponse) :
  ok resp = false ->
  exists m, forall st : Component, reject_unless_ok resp st = (inl (ErrorObj m), st).
Proof.
  intros Hok. unfold reject_unless_ok. rewrite Hok. cbn [negb].
  unfold bind, try_catch, await, throw, ret.
  destruct (json resp) as [e|maybeErr].
  - eexists. intros st. reflexivity.
  - destruct (optional_property maybeErr (js "error")) as [v|].
    + destruct (ToBoolean (Some v)); eexists; intros st; reflexivity.
    + eexists. intros st. reflexivity.
Qed.

Lemma reject_unless_ok_passes (resp : HttpResponse) (st : Component) :
  ok resp = true -> reject_unless_ok resp st = (inr tt, st).
Proof. intros Hok. unfold reject_unless_ok. now rewrite Hok. Qed.

(** Without an extracted text, or without a job description, the handler
    shows a notice and does nothing else. *)
Lemma cover_letter_only_invalid :
  truthy (trim (resumeText c)) = false \/ truthy (trim (jobDescription c)) = false ->
  exists t,
    handleGenerateCoverLetter net c = (inr tt, emit (Toasted t) c) /\
    title t = js "Error" /\ variant t = destructive.
Proof.
  intros H. unfold handleGenerateCoverLetter, bind, get.
  destruct (truthy (trim (resumeText c))) eqn:Hr.
  - destruct H as [H|H]; [discriminate|]. rewrite H. cbn [negb].
    eexists. split; [reflexivity|]. split; reflexivity.
  - cbn [negb]. eexists. split; [reflexivity|]. split; reflexivity.
Qed.

(** With both, the handler runs the [try] block from the component as it
    is, and clears its busy flag whatever happens. *)
Lemma cover_letter_only_valid :
  truthy (trim (resumeText c)) = true ->
  truthy (trim (jobDescription c)) = true ->
  handleGenerateCoverLetter net c =
  match net req with
  | inl e => (inr tt, failed e)
  | inr resp =>
      match reject_unless_ok resp started with
      | (inl e, _) => (inr tt, failed e)
      | (inr _, _) =>
          match json resp with
          | inl e => (inr tt, failed e)
          | inr JNull => (inr tt, failed (ErrorObj (null_read_message (js "coverLetter"))))
          | inr rawAnalysis =>
              match optional_property rawAnalysis (js "coverLetter") with
              | Some (JString coverLetterText) =>
                  if truthy coverLetterText then
                    if includes coverLetterText (js "generation failed")
                       || includes coverLetterText (js "empty response")
                    then (inr tt, failed (ErrorObj coverLetterText))
                    else
                      (inr tt,
                       with_isGeneratingCoverLetter false
                         (emit (Toasted
                                  {| title := js "Cover Letter Generated! " ++ sparkles;
                                     description := js "Your personalized cover letter is ready.";
                                     variant := None |})
                            (with_activeTab (js "coverLetter")
                               (with_analysis
                                  (merge_cover_letter rawAnalysis coverLetterText
                                     (analysis c))
                                  started))))
                  else (inr tt, failed (ErrorObj not_generated_message))
              | _ => (inr tt, failed (ErrorObj not_generated_message))
              end
          end
      end
  end.
Proof.
  intros Hr Hj. unfold handleGenerateCoverLetter. unfold bind at 1. unfold get.
  rewrite Hr, Hj. cbn [negb].
  unfold try_finally, try_catch.
  unfold bind at 1. unfold setIsGeneratingCoverLetter at 1. unfold modify at 1.
  unfold bind at 1. unfold fetch at 1. unfold bind at 1. unfold modify at 1.
  fold req. fold started. unfold await at 1.
  destruct (net req) as [e|resp]; [reflexivity|].
  cbv beta iota delta [ret]. unfold bind at 1.
  destruct (ok resp) eqn:Hok.
  - rewrite (reject_unless_ok_passes resp started Hok).
    unfold bind at 1. unfold await at 1.
    destruct (json resp) as [e|raw]; [reflexivity|].
    cbv beta iota delta [ret].
    destruct raw as [| b | lit | s | l | ms]; try reflexivity.
    unfold bind at 1. unfold property.
    cbv beta iota delta [ret].
    destruct (optional_property (JObject ms) (js "coverLetter")) as [[| b | lit | s | l | ms']|];
      try reflexivity.
    destruct (truthy s); [|reflexivity].
    destruct (includes s (js "generation failed") || includes s (js "empty response"));
      reflexivity.
  - destruct (reject_unless_ok_throws resp Hok) as [m Hm]. rewrite Hm. reflexivity.
Qed.

(** A failed run leaves everything but the notices and the log as it was. *)
Lemma failed_keeps_analysis (err : thrown) : analysis (failed err) = analysis c.
Proof. reflexivity. Qed.


(** C7.  A cover-letter-only run that lacks an extracted text or a job
    description (either is blank once trimmed) ends with an error notice
    before any request is sent: the notice is the only thing added to the
    log and the component is otherwise unchanged.  A run that succeeds on
    a component that holds a result replaces [coverLetter] in that result
    and leaves its five other fields as they were. *)
Theorem cover_letter_only_merges_one_field :
  (truthy (trim (resumeText c)) = false \/ truthy (trim (jobDescription c)) = false ->
   exists t,
     handleGenerateCoverLetter net c = (inr tt, emit (Toasted t) c) /\
     title t = js "Error" /\ variant t = destructive) /\
  (forall (resp : HttpResponse) (raw : JSON) (text : jsstring) (prev : ResumeAnalysis),
     truthy (trim (resumeText c)) = true ->
     truthy (trim (jobDescription c)) = true ->
     net (analyze_request (resumeText c) (jobDescription c)) = inr resp ->
     ok resp = true ->
     json resp = inr raw ->
     optional_property raw (js "coverLetter") = Some (JString text) ->
     truthy text = true ->
     includes text (js "generation failed") = false ->
     includes text (js "empty response") = false ->
     analysis c = Some prev ->
     exists c',
       handleGenerateCoverLetter net c = (inr tt, c') /\
       analysis c' =
         Some {| strengths := strengths prev;
                 improvements := improvements prev;
                 tailoring := tailoring prev;
                 customizedResume := customizedResume prev;
                 specificChanges := specificChanges prev;
                 coverLetter := Some text |}).
Proof.
  split; [exact cover_letter_only_invalid|].
  intros resp raw text prev Hr Hj Hnet Hok Hjson Hcl Ht Hg He Hprev.
  rewrite (cover_letter_only_valid Hr Hj). fold req in Hnet. rewrite Hnet.
  rewrite (reject_unless_ok_passes resp started Hok), Hjson.
  destruct raw as [| b | lit | s | l | ms]; try discriminate Hcl.
  rewrite Hcl, Ht, Hg, He. cbn [orb].
  eexists. split; [reflexivity|].
  cbn [analysis with_isGeneratingCoverLetter emit with_activeTab with_analysis].
  rewrite Hprev. reflexivity.
Qed.

(** C10.  A cover-letter-only run that fails leaves the stored result
    untouched, whether the request is rejected, the response is not OK,
    its body cannot be read, the body has no [coverLetter] that is a
    string, or that string contains the words [generation failed] or
    [empty response]. *)
Theorem failed_cover_letter_run_keeps_result :
  (exists e, net (analyze_request (resumeText c) (jobDescription c)) = inl e)
  \/ (exists resp,
        net (analyze_request (resumeText c) (jobDescription c)) = inr resp /\
        (ok resp = false
         \/ (exists e, json resp = inl e)
         \/ (exists raw,
               json resp = inr raw /\
               string_or_undefined (optional_property raw (js "coverLetter")) = None)
         \/ (exists raw text,
               json resp = inr raw /\
               optional_property raw (js "coverLetter") = Some (JString text) /\
               (includes text (js "generation failed") = true
                \/ includes text (js "empty response") = true)))) ->
  exists c',
    handleGenerateCoverLetter net c = (inr tt, c') /\
    analysis c' = analysis c.
Proof.
  intros Hfail.
  destruct (truthy (trim (resumeText c))) eqn:Hr;
    [|destruct cover_letter_only_invalid as (t & Ht & _);
      [now left | rewrite Ht; eexists; split; reflexivity]].
  destruct (truthy (trim (jobDescription c))) eqn:Hj;
    [|destruct cover_letter_only_invalid as (t & Ht & _);
      [now right | rewrite Ht; eexists; split; reflexivity]].
  rewrite (cover_letter_only_valid Hr Hj). fold req in Hfail.
  destruct Hfail as [[e Hnet] | (resp & Hnet & Hcase)]; rewrite Hnet.
  { eexists. split; reflexivity. }
  destruct (reject_unless_ok resp started) as [[e|[]] st] eqn:Hrej.
  { eexists. split; reflexivity. }
  destruct Hcase as [Hok | [[e Hjson] | [(raw & Hjson & Hnone) | (raw & text & Hjson & Hcl & Hinc)]]].
  - destruct (reject_unless_ok_throws resp Hok) as [m Hm]. rewrite Hm in Hrej.
    discriminate Hrej.
  - rewrite Hjson. eexists. split; reflexivity.
  - rewrite Hjson.
    destruct raw as [| b | lit | s | l | ms]; try (eexists; split; reflexivity).
    destruct (optional_property (JObject ms) (js "coverLetter")) as [[| b | lit | s | l | ms']|];
      try discriminate Hnone; eexists; split; reflexivity.
  - rewrite Hjson.
    destruct raw as [| b | lit | s | l | ms]; try discriminate Hcl.
    rewrite Hcl.
    assert (Hor : includes text (js "generation failed")
                  || includes text (js "empty response") = true)
      by (destruct Hinc as [-> | ->]; [reflexivity | apply orb_true_r]).
    rewrite Hor. destruct (truthy text); eexists; split; reflexivity.
Qed.

End CoverLetterOnly.

Section CoverLetterOnlyRuns.

Import Client.
Local Open Scope list_scope.

Lemma cover_letter_only_merges_one_field_witness :
  (exists t,
     handleGenerateCoverLetter
       (Samples.replying (JObject [(js "coverLetter", JString (js "Dear Hiring Manager,"))]))
       initial = (inr tt, emit (Toasted t) initial) /\
     title t = js "Error" /\ variant t = destructive) /\
  (exists c',
     handleGenerateCoverLetter
       (Samples.replying (JObject [(js "coverLetter", JString (js "Dear Hiring Manager,"))]))
       Samples.ready = (inr tt, c') /\
     analysis c' =
       Some {| strengths := [JString (js "Clear impact statements")];
               improvements := [JString (js "Add metrics")];
               tailoring := [];
               customizedResume := Some (js "Jane Poe, backend engineer");
               specificChanges := Some (js "SECTION: Skills");
               coverLetter := Some (js "Dear Hiring Manager,") |}).
Proof.
  split.
  - apply (proj1 (cover_letter_only_merges_one_field
                    (Samples.replying
                       (JObject [(js "coverLetter", JString (js "Dear Hiring Manager,"))]))
                    initial)).
    left. reflexivity.
  - apply (proj2 (cover_letter_only_merges_one_field
                    (Samples.replying
                       (JObject [(js "coverLetter", JString (js "Dear Hiring Manager,"))]))
                    Samples.ready)
             {| ok := true; status := 200;
                json := inr (JObject [(js "coverLetter", JString (js "Dear Hiring Manager,"))]) |}
             (JObject [(js "coverLetter", JString (js "Dear Hiring Manager,"))])
             (js "Dear Hiring Manager,")
             Samples.earlier_result);
      try reflexivity; vm_compute; reflexivity.
Defined.

Lemma failed_cover_letter_run_keeps_result_witness :
  exists c',
    handleGenerateCoverLetter
      (Samples.replying
         (JObject [(js "coverLetter",
                    JString (js "Cover letter generation failed: 429 rate limit. Please try again."))]))
      Samples.ready = (inr tt, c') /\
    analysis c' = Some Samples.earlier_result.
Proof.
  apply (failed_cover_letter_run_keeps_result
           (Samples.replying
              (JObject [(js "coverLetter",
                         JString (js "Cover letter generation failed: 429 rate limit. Please try again."))]))
           Samples.ready).
  right. eexists. split; [reflexivity|].
  right. right. right. eexists. eexists.
  split; [reflexivity|]. split; [vm_compute; reflexivity|].
  left. vm_compute. reflexivity.
Defined.

End CoverLetterOnlyRuns.

(* ===================================================================== *)
(** * More facts about strings *)
(* ===================================================================== *)

Section MoreStringFacts.

Local Open Scope list_scope.

Lemma trimStart_idem (s : jsstring) : trimStart (trimStart s) = trimStart s.
Proof.
  induction s as [|c r IH]; [reflexivity|].
  cbn [trimStart]. destruct (is_whitespace c) eqn:E; [exact IH|].
  cbn [trimStart]. now rewrite E.
Qed.

Lemma trimStart_app (a b : jsstring) :
  trimStart (a ++ b) =
  if forallb is_whitespace a then trimStart b else trimStart a ++ b.
Proof.
  induction a as [|c r IH]; [reflexivity|].
  cbn [app trimStart forallb]. destruct (is_whitespace c); [exact IH | reflexivity].
Qed.

Lemma forallb_rev (f : N -> bool) (s : jsstring) :
  forallb f (rev s) = forallb f s.
Proof.
  induction s as [|c r IH]; [reflexivity|].
  cbn [rev forallb]. rewrite forallb_app, IH. cbn [forallb].
  rewrite andb_true_r. apply andb_comm.
Qed.

Lemma trimEnd_cons (c : N) (r : jsstring) :
  trimEnd (c :: r) =
  if forallb is_whitespace (c :: r) then [] else c :: trimEnd r.
Proof.
  unfold trimEnd. cbn [rev forallb]. rewrite trimStart_app, forallb_rev.
  destruct (forallb is_whitespace r) eqn:Er.
  - cbn [trimStart]. rewrite andb_true_r.
    assert (Hr : trimStart (rev r) = [])
      by (apply trimStart_all_ws; now rewrite forallb_rev).
    rewrite Hr. destruct (is_whitespace c); reflexivity.
  - rewrite andb_false_r, rev_app_distr. reflexivity.
Qed.

Lemma trimEnd_all_ws (s : jsstring) :
  forallb is_whitespace s = true -> trimEnd s = [].
Proof.
  intros H. unfold trimEnd. rewrite trimStart_all_ws; [reflexivity|].
  now rewrite forallb_rev.
Qed.

Lemma trimEnd_idem (s : jsstring) : trimEnd (trimEnd s) = trimEnd s.
Proof.
  unfold trimEnd. now rewrite rev_involutive, trimStart_idem.
Qed.

(** Trimming the two ends in either order gives the same string. *)
Lemma trimStart_trimEnd (s : jsstring) :
  trimStart (trimEnd s) = trimEnd (trimStart s).
Proof.
  induction s as [|c r IH]; [reflexivity|].
  rewrite trimEnd_cons. cbn [forallb trimStart].
  destruct (is_whitespace c) eqn:Ec; cbn [andb].
  - destruct (forallb is_whitespace r) eqn:Er.
    + rewrite (trimStart_all_ws r Er). reflexivity.
    + cbn [trimStart]. rewrite Ec. exact IH.
  - cbn [trimStart]. rewrite Ec. rewrite trimEnd_cons.
    cbn [forallb]. now rewrite Ec.
Qed.

(** Trimming twice is trimming once. *)
Lemma trim_idem (s : jsstring) : trim (trim s) = trim s.
Proof.
  unfold trim. rewrite trimStart_trimEnd, trimStart_idem. apply trimEnd_idem.
Qed.

Lemma trim_trimEnd (s : jsstring) : trim (trimEnd s) = trim s.
Proof.
  unfold trim. rewrite trimStart_trimEnd. apply trimEnd_idem.
Qed.

(** What follows a prefix that ends in a character that is kept is
    trimmed by itself. *)
Lemma trimEnd_after (p : jsstring) (c : N) (x : jsstring) :
  is_whitespace c = false ->
  trimEnd ((p ++ [c]) ++ x) = (p ++ [c]) ++ trimEnd x.
Proof.
  intros Hc. unfold trimEnd. rewrite !rev_app_distr. cbn [rev app].
  rewrite trimStart_app.
  destruct (forallb is_whitespace (rev x)) eqn:Ex.
  - rewrite (trimStart_all_ws (rev x) Ex). cbn [trimStart]. rewrite Hc.
    cbn [rev app]. rewrite rev_involutive. now rewrite app_nil_r.
  - rewrite rev_app_distr. cbn [rev app]. rewrite rev_involutive. reflexivity.
Qed.

Lemma trimStart_kept (c : N) (x : jsstring) :
  is_whitespace c = false -> trimStart (c :: x) = c :: x.
Proof. intros H. cbn [trimStart]. now rewrite H. Qed.

Lemma startsWith_app (p x : jsstring) : startsWith (p ++ x) p = true.
Proof.
  induction p as [|a r IH]; [destruct x; reflexivity|].
  cbn [app startsWith]. now rewrite N.eqb_refl, IH.
Qed.

Lemma indexOf_from_range (s p : jsstring) (i : Z) :
  indexOf_from s p i = (-1)%Z \/ (i <= indexOf_from s p i)%Z.
Proof.
  revert i. induction s as [|a r IH]; intros i; cbn [indexOf_from].
  - destruct (startsWith [] p); [right; lia | now left].
  - destruct (startsWith (a :: r) p); [right; lia|].
    destruct (IH (i + 1)%Z) as [H|H]; [now left | right; lia].
Qed.

Lemma indexOf_from_found (pre p post : jsstring) (i : Z) :
  (i <= indexOf_from (pre ++ p ++ post) p i)%Z.
Proof.
  revert i. induction pre as [|a r IH]; intros i.
  - cbn [app]. destruct (p ++ post) eqn:E; cbn [indexOf_from];
      rewrite <- E, startsWith_app; lia.
  - cbn [app indexOf_from]. destruct (startsWith _ p); [lia|].
    specialize (IH (i + 1)%Z). lia.
Qed.

(** A string includes each of its parts. *)
Lemma includes_app (pre p post : jsstring) : includes (pre ++ p ++ post) p = true.
Proof.
  unfold includes, indexOf.
  pose proof (indexOf_from_found pre p post 0) as H.
  destruct (Z.eqb_spec (indexOf_from (pre ++ p ++ post) p 0) (-1)); [lia | reflexivity].
Qed.

Lemma indexOf_prefix (p x : jsstring) : indexOf (p ++ x) p = 0%Z.
Proof.
  unfold indexOf. destruct (p ++ x) eqn:E; cbn [indexOf_from];
    rewrite <- E, startsWith_app; reflexivity.
Qed.

End MoreStringFacts.

(* ===================================================================== *)
(** * Facts about values *)
(* ===================================================================== *)

Section ValueFacts.

Local Open Scope list_scope.
Local Open Scope string_scope.

(** The texts [String] gives the Number values of some literals: the
    shortest digits that denote the value, in positional notation from
    [1e-6] up to, but not including, [1e21]. *)
Lemma number_texts :
  List.map (fun lit => JsNumber.toString (JsNumber.of_literal (js lit)))
    [ "1.0"; "-0"; "1.50"; "1E3"; "1e21"; "123456789012345680000"; "0.000001";
      "1e-7"; "0.1"; "1e23"; "9007199254740993"; "5e-324"; "3e-324"; "1e-400";
      "1e400"; "-1e400"; "1.7976931348623157e308"; "1.7976931348623159e308" ]
  = List.map js
      [ "1"; "0"; "1.5"; "1000"; "1e+21"; "123456789012345680000"; "0.000001";
        "1e-7"; "0.1"; "1e+23"; "9007199254740992"; "5e-324"; "5e-324"; "0";
        "Infinity"; "-Infinity"; "1.7976931348623157e+308"; "Infinity" ].
Proof. vm_compute. reflexivity. Qed.

(** A literal is falsy when its Number value is a zero, which a literal
    with digits other than 0 can be. *)
Lemma falsy_numbers :
  List.map (fun lit => ToBoolean (Some (JNumber (js lit))))
    [ "0"; "-0.0"; "0e5"; "1e-400"; "2e-324"; "3e-324"; "1" ]
  = [ false; false; false; false; false; true; true ].
Proof. vm_compute. reflexivity. Qed.

(** An array prints its elements, [null] as nothing; an object prints as
    one fixed text, and does not print at all when it has a member named
    [toString]. *)
Lemma text_of_values :
  ToString (JArray [JNull; JNumber (js "1.50"); JArray [JBool true; JString (js "a")];
                    JObject [(js "a", JNull)]])
  = Some (js ",1.5,true,a,[object Object]") /\
  ToString (JArray [JObject [(js "toString", JNull)]]) = None.
Proof. split; vm_compute; reflexivity. Qed.

End ValueFacts.

(* ===================================================================== *)
(** * The server: status, requests and fields of every run *)
(* ===================================================================== *)

Section ServerRuns.

Import Server.
Import ServerConfig.
Local Open Scope list_scope.

(** What the handler's test of [resumeText] lets through is a string that
    is not blank. *)
Lemma accepted_resume_inv (v : option JSON) (s : jsstring) :
  accepted_resume v = inr (Some s) ->
  v = Some (JString s) /\ truthy (trim s) = true.
Proof.
  unfold accepted_resume. destruct (ToBoolean v); cbn [negb]; [|discriminate].
  destruct v as [[| b | lit | t | l | ms]|]; try discriminate.
  destruct (truthy (trim t)) eqn:Ht; cbn [negb]; [|discriminate].
  intros H. injection H as <-. now split.
Qed.

(** The test holds for a value that is falsy and for a blank string. *)
Lemma accepted_resume_refused (v : option JSON) :
  ToBoolean v = false \/ (exists s, v = Some (JString s) /\ truthy (trim s) = false) ->
  accepted_resume v = inr None.
Proof.
  unfold accepted_resume. intros [H | (s & -> & H)].
  - now rewrite H.
  - cbn [ToBoolean]. destruct (truthy s); cbn [negb]; [|reflexivity]. now rewrite H.
Qed.

(** The test throws for a truthy value that is no string. *)
Lemma accepted_resume_throws (v : option JSON) :
  ToBoolean v = true -> (forall s, v <> Some (JString s)) ->
  accepted_resume v = inl (ErrorObj (not_a_function_message (js "resumeText.trim"))).
Proof.
  unfold accepted_resume. intros H Hn. rewrite H. cbn [negb].
  destruct v as [[| b | lit | t | l | ms]|]; try reflexivity.
  now destruct (Hn t).
Qed.

(** Only a string gets through as a job description. *)
Lemma job_description_text_inv (j : JSON) (t : jsstring) :
  job_description_text j = inr t -> j = JString t.
Proof.
  unfold job_description_text.
  destruct j as [| b | lit | s | l | ms]; try discriminate;
    try (intros H; injection H as <-; reflexivity);
    repeat match goal with
           | |- context [match ?x with inl _ => _ | inr _ => _ end] => destruct x
           end; discriminate.
Qed.

Lemma job_description_text_throws (j : JSON) :
  (forall t, j <> JString t) -> exists e, job_description_text j = inl (ErrorObj e).
Proof.
  intros Hn. unfold job_description_text, template_part.
  destruct j as [| b | lit | s | l | ms];
    try (exfalso; eapply Hn; reflexivity);
    cbn [length_of ToString];
    repeat match goal with
           | |- context [match ?x with Some _ => _ | None => _ end] => destruct x
           | |- context [if ?x then _ else _] => destruct x
           end;
    eexists; reflexivity.
Qed.

(** The handler on a body whose two fields are texts is a full run. *)
Lemma analyze_resume_full_run (openai : OpenAI) (body : option JSON) (rt jd : jsstring) :
  body_member body (js "resumeText") = Some (JString rt) ->
  truthy (trim rt) = true ->
  body_member body (js "jobDescription") = Some (JString jd)
  \/ (body_member body (js "jobDescription") = None /\ jd = []) ->
  analyze_resume (Some openai) body = full_run openai rt jd.
Proof.
  intros Hr Ht Hj. rewrite (full_run_tasks openai rt jd Ht).
  unfold analyze_resume. rewrite Hr, (accepted_resume_text rt Ht).
  destruct Hj as [-> | [-> ->]]; reflexivity.
Qed.

Lemma analyze_resume_refused (openai : OpenAI) (body : option JSON) :
  accepted_resume (body_member body (js "resumeText")) = inr None ->
  analyze_resume (Some openai) body
  = ({| status := 400; payload := ErrorPayload (js "resumeText is required") None |}, []).
Proof. intros H. unfold analyze_resume. now rewrite H. Qed.

(** Every full run ends with status 200 and a result object. *)
Lemma full_run_answers (openai : OpenAI) (rt jd : jsstring) :
  truthy (trim rt) = true ->
  exists a tr,
    full_run openai rt jd = ({| status := 200; payload := AnalysisPayload a |}, tr).
Proof.
  intros Hrt. destruct (openai [] (analysis_request rt jd)) as [e|resp] eqn:Ho.
  - rewrite (full_run_rejected openai rt jd e Hrt Ho). eauto.
  - destruct (full_run_answered openai rt jd resp Hrt Ho)
      as (a1 & _ & _ & _ & _ & _ & Hblank & Hfull).
    destruct (truthy (trim jd)) eqn:Hjd.
    + rewrite (Hfull eq_refl). eauto.
    + rewrite (Hblank eq_refl). eauto.
Qed.

(** With a client configured, the handler answers with one of three
    statuses. *)
Lemma configured_status (openai : OpenAI) (body : option JSON) :
  let st := status (fst (analyze_resume (Some openai) body)) in
  st = 400%N \/ st = 500%N \/ st = 200%N.
Proof.
  cbv zeta. unfold analyze_resume, internal_error.
  destruct (accepted_resume (body_member body (js "resumeText"))) as [e|[rt|]] eqn:Ha.
  - right. left. reflexivity.
  - apply accepted_resume_inv in Ha. destruct Ha as [_ Ht].
    match goal with
    | |- context [job_description_text ?j] => destruct (job_description_text j) as [e|jd]
    end.
    + right. left. reflexivity.
    + right. right. rewrite <- (full_run_tasks openai rt jd Ht).
      destruct (full_run_answers openai rt jd Ht) as (a & tr & ->). reflexivity.
  - left. reflexivity.
Qed.

(** X1.  The health check and the handler agree on the configuration.
    [openaiConfigured] is true exactly for an API key that is set and is
    not the empty string, and it is false exactly when the handler answers
    503, which it then does for every body, whatever JSON value it is. *)
Theorem health_agrees_with_handler
  (apiKey : option jsstring) (service : OpenAI) (body : option JSON) :
  (openaiConfigured (health apiKey) = true <-> exists k, apiKey = Some k /\ k <> []) /\
  (openaiConfigured (health apiKey) = false <->
   status (fst (analyze_resume (openai_client apiKey service) body)) = 503%N).
Proof.
  unfold health, openai_client. cbn [openaiConfigured]. split.
  - destruct apiKey as [[|c k]|]; cbn [Boolean truthy]; split; intros H;
      try discriminate H; try reflexivity.
    + destruct H as (k & E & Hk). injection E as <-. now destruct Hk.
    + exists (c :: k). split; [reflexivity | discriminate].
    + destruct H as (k & E & _). discriminate E.
  - destruct (Boolean apiKey); split; intros H; try reflexivity; try discriminate H.
    exfalso. destruct (configured_status service body) as [E|[E|E]];
      cbv zeta in E; rewrite E in H; discriminate H.
Qed.

(** X2.  With a client configured, the status is decided by the two fields
    of the body before any request is made.  A [resumeText] that is
    missing, falsy or a blank string is answered with 400; one that is
    truthy and no string with 500.  With a resume text, a
    [jobDescription] that is present and no string ([null] included) is
    answered with 500; with a string or none the answer is 200 with a
    result object, and the first request is the analysis request.  So no
    failure of the completion service ever gives 500. *)
Theorem handler_status_by_body (openai : OpenAI) (body : option JSON) :
  let resumeText := body_member body (js "resumeText") in
  let jobDescription := body_member body (js "jobDescription") in
  let run := analyze_resume (Some openai) body in
  (ToBoolean resumeText = false
   \/ (exists s, resumeText = Some (JString s) /\ truthy (trim s) = false) ->
   run = ({| status := 400; payload := ErrorPayload (js "resumeText is required") None |},
          [])) /\
  (ToBoolean resumeText = true -> (forall s, resumeText <> Some (JString s)) ->
   exists m,
     run = ({| status := 500;
               payload := ErrorPayload (js "Internal server error") (Some m) |}, [])) /\
  (forall s, resumeText = Some (JString s) -> truthy (trim s) = true ->
     (forall j, jobDescription = Some j -> (forall t, j <> JString t) ->
        exists m,
          run = ({| status := 500;
                    payload := ErrorPayload (js "Internal server error") (Some m) |}, [])) /\
     (forall t, jobDescription = Some (JString t) \/ (jobDescription = None /\ t = []) ->
        exists a tr,
          run = ({| status := 200; payload := AnalysisPayload a |},
                 analysis_request s t :: tr))).
Proof.
  cbv zeta. split; [|split].
  - intros H. apply analyze_resume_refused. now apply accepted_resume_refused.
  - intros Ht Hn. unfold analyze_resume.
    rewrite (accepted_resume_throws _ Ht Hn). eexists. reflexivity.
  - intros s Hs Ht. split.
    + intros j Hj Hn. unfold analyze_resume.
      rewrite Hs, (accepted_resume_text s Ht), Hj.
      destruct (job_description_text_throws j Hn) as [e ->]. eexists. reflexivity.
    + intros t Hj. rewrite (analyze_resume_full_run openai body s t Hs Ht Hj).
      destruct (openai [] (analysis_request s t)) as [e|resp] eqn:Ho.
      * rewrite (full_run_rejected openai s t e Ht Ho). eauto.
      * destruct (full_run_answered openai s t resp Ht Ho)
          as (a1 & _ & _ & _ & _ & _ & Hblank & Hfull).
        destruct (truthy (trim t)) eqn:Hjd.
        -- rewrite (Hfull eq_refl). eauto.
        -- rewrite (Hblank eq_refl). eauto.
Qed.

Lemma handler_status_by_body_witness :
  status (fst (analyze_resume (Some (Samples.scripted []))
                 (Some (JObject [(js "resumeText", JNumber (js "123"))]))))
  = 500%N /\
  status (fst (analyze_resume (Some (Samples.scripted []))
                 (Some (JObject [(js "resumeText", JString Samples.resume);
                                 (js "jobDescription", JNull)]))))
  = 500%N.
Proof.
  split.
  - destruct (proj1 (proj2 (handler_status_by_body (Samples.scripted [])
                       (Some (JObject [(js "resumeText", JNumber (js "123"))])))))
      as [m ->]; [vm_compute; reflexivity | intros s; discriminate | reflexivity].
  - destruct (proj1 (proj2 (proj2 (handler_status_by_body (Samples.scripted [])
                       (Some (JObject [(js "resumeText", JString Samples.resume);
                                       (js "jobDescription", JNull)]))))
                       Samples.resume eq_refl ltac:(vm_compute; reflexivity))
                JNull eq_refl ltac:(intros t; discriminate))
      as [m ->]. reflexivity.
Defined.

(** X3.  A full run with a job description that is blank issues the
    analysis request only and returns none of the three optional fields,
    whether the analysis call is answered or rejected. *)
Theorem blank_job_description_runs_analysis_only
  (openai : OpenAI) (rt jd : jsstring) :
  truthy (trim rt) = true ->
  truthy (trim jd) = false ->
  snd (full_run openai rt jd) = [analysis_request rt jd] /\
  exists a,
    result_of (fst (full_run openai rt jd)) = Some a /\
    customizedResume a = None /\ specificChanges a = None /\ coverLetter a = None.
Proof.
  intros Hrt Hjd. destruct (openai [] (analysis_request rt jd)) as [e|resp] eqn:Ho.
  - rewrite (full_run_rejected openai rt jd e Hrt Ho). split; [reflexivity|].
    exists fallback_analysis. repeat split.
  - destruct (full_run_answered openai rt jd resp Hrt Ho)
      as (a1 & H1 & H2 & H3 & _ & _ & Hblank & _).
    rewrite (Hblank Hjd). split; [reflexivity|].
    exists a1. repeat split; assumption.
Qed.

Lemma blank_job_description_runs_analysis_only_witness :
  snd (full_run (Samples.scripted [Samples.answer (js "{}")])
                Samples.resume [32%N; 10%N])
  = [analysis_request Samples.resume [32%N; 10%N]].
Proof.
  apply (blank_job_description_runs_analysis_only
           (Samples.scripted [Samples.answer (js "{}")]) Samples.resume [32%N; 10%N]).
  - vm_compute. reflexivity.
  - reflexivity.
Defined.

(** The requests of a full run. *)
Lemma requests_of_a_full_run_aux (openai : OpenAI) (rt jd : jsstring) :
  truthy (trim rt) = true ->
  snd (full_run openai rt jd) =
  match openai [] (analysis_request rt jd) with
  | inr _ =>
      if truthy (trim jd)
      then [analysis_request rt jd; customize_request rt jd; changes_request rt jd;
            cover_letter_request rt jd]
      else [analysis_request rt jd]
  | inl _ => [analysis_request rt jd]
  end.
Proof.
  intros Hrt. destruct (openai [] (analysis_request rt jd)) as [e|resp] eqn:Ho.
  - now rewrite (full_run_rejected openai rt jd e Hrt Ho).
  - destruct (full_run_answered openai rt jd resp Hrt Ho)
      as (a1 & _ & _ & _ & _ & _ & Hblank & Hfull).
    destruct (truthy (trim jd)) eqn:Hjd.
    + now rewrite (Hfull eq_refl).
    + now rewrite (Hblank eq_refl).
Qed.

(** X4.  The requests of a full run are the analysis request alone, or the
    four requests in the order analysis, customization, specific changes,
    cover letter; the latter exactly when the analysis call is answered
    and the job description is not blank, whichever later calls fail. *)
Theorem requests_of_a_full_run (openai : OpenAI) (rt jd : jsstring) :
  truthy (trim rt) = true ->
  snd (full_run openai rt jd) =
  match openai [] (analysis_request rt jd) with
  | inr _ =>
      if truthy (trim jd)
      then [analysis_request rt jd; customize_request rt jd; changes_request rt jd;
            cover_letter_request rt jd]
      else [analysis_request rt jd]
  | inl _ => [analysis_request rt jd]
  end.
Proof. exact (requests_of_a_full_run_aux openai rt jd). Qed.

Lemma requests_of_a_full_run_witness :
  snd (full_run
         (Samples.scripted [Samples.answer (js "{}"); Samples.rejection "timeout";
                            Samples.rejection "timeout"; Samples.rejection "timeout"])
         Samples.resume Samples.posting)
  = [analysis_request Samples.resume Samples.posting;
     customize_request Samples.resume Samples.posting;
     changes_request Samples.resume Samples.posting;
     cover_letter_request Samples.resume Samples.posting].
Proof.
  rewrite (requests_of_a_full_run
             (Samples.scripted [Samples.answer (js "{}"); Samples.rejection "timeout";
                                Samples.rejection "timeout"; Samples.rejection "timeout"])
             Samples.resume Samples.posting);
    [|vm_compute; reflexivity].
  vm_compute. reflexivity.
Defined.


(** Each optional field of a full run, by the outcome of its call. *)
Lemma optional_fields_by_call_aux
  (openai : OpenAI) (rt jd : jsstring) (ra : ChatCompletion) :
  truthy (trim rt) = true ->
  truthy (trim jd) = true ->
  openai [] (analysis_request rt jd) = inr ra ->
  exists a,
    result_of (fst (full_run openai rt jd)) = Some a /\
    customizedResume a
      = kept_text (openai [analysis_request rt jd] (customize_request rt jd)) /\
    specificChanges a
      = kept_text (openai [analysis_request rt jd; customize_request rt jd]
                          (changes_request rt jd)) /\
    coverLetter a
      = Some match openai [analysis_request rt jd; customize_request rt jd;
                           changes_request rt jd] (cover_letter_request rt jd) with
             | inl e => failure_notice e
             | inr r => if truthy (trim (first_content r))
                        then trim (first_content r)
                        else empty_response_notice
             end.
Proof.
  intros Hrt Hjd Ha.
  destruct (full_run_answered openai rt jd ra Hrt Ha)
    as (a1 & H1 & H2 & H3 & _ & _ & _ & Hfull).
  specialize (Hfull Hjd). cbv zeta in Hfull. rewrite Hfull.
  cbn [fst result_of payload]. eexists. split; [reflexivity|].
  unfold kept_text.
  destruct (openai [analysis_request rt jd] (customize_request rt jd)) as [e1|r1];
    destruct (openai [analysis_request rt jd; customize_request rt jd]
                     (changes_request rt jd)) as [e2|r2];
    destruct (openai [analysis_request rt jd; customize_request rt jd;
                      changes_request rt jd] (cover_letter_request rt jd)) as [e3|r3];
    repeat match goal with
           | |- context [if ?b then _ else _] => destruct b
           end;
    cbn [customizedResume specificChanges coverLetter
         with_customizedResume with_specificChanges with_coverLetter];
    rewrite ?H1, ?H2; repeat split.
Qed.

(** X5.  In a full run whose later tasks run, each optional field is
    decided by the outcome of its own call alone: [customizedResume] and
    [specificChanges] hold the trimmed text of their call when it is
    answered with text that is not blank and are absent otherwise, and
    [coverLetter] holds the trimmed letter, the empty-response notice or
    the failure notice.  No call's failure changes another field. *)
Theorem optional_fields_by_call
  (openai : OpenAI) (rt jd : jsstring) (ra : ChatCompletion) :
  truthy (trim rt) = true ->
  truthy (trim jd) = true ->
  openai [] (analysis_request rt jd) = inr ra ->
  exists a,
    result_of (fst (full_run openai rt jd)) = Some a /\
    customizedResume a
      = kept_text (openai [analysis_request rt jd] (customize_request rt jd)) /\
    specificChanges a
      = kept_text (openai [analysis_request rt jd; customize_request rt jd]
                          (changes_request rt jd)) /\
    coverLetter a
      = Some match openai [analysis_request rt jd; customize_request rt jd;
                           changes_request rt jd] (cover_letter_request rt jd) with
             | inl e => failure_notice e
             | inr r => if truthy (trim (first_content r))
                        then trim (first_content r)
                        else empty_response_notice
             end.
Proof. exact (optional_fields_by_call_aux openai rt jd ra). Qed.

Lemma optional_fields_by_call_witness :
  exists a,
    result_of (fst (full_run
      (Samples.scripted [Samples.answer (js "{}"); Samples.answer (js " Jane Poe ");
                         Samples.rejection "timeout"; Samples.answer (js "  ")])
      Samples.resume Samples.posting)) = Some a /\
    customizedResume a = Some (js "Jane Poe") /\
    specificChanges a = None /\
    coverLetter a = Some empty_response_notice.
Proof.
  destruct (optional_fields_by_call
              (Samples.scripted [Samples.answer (js "{}"); Samples.answer (js " Jane Poe ");
                                 Samples.rejection "timeout"; Samples.answer (js "  ")])
              Samples.resume Samples.posting
              {| choices := [ {| message := Some {| message_content := Some (js "{}") |} |} ] |})
    as (a & H0 & H1 & H2 & H3);
    [vm_compute; reflexivity | vm_compute; reflexivity | reflexivity |].
  exists a. split; [exact H0|]. split; [exact H1|]. split; [exact H2 | exact H3].
Defined.

Lemma kept_text_trimmed (o : thrown + ChatCompletion) (s : jsstring) :
  kept_text o = Some s -> truthy s = true /\ trim s = s.
Proof.
  unfold kept_text. destruct o as [e|r]; [discriminate|].
  destruct (truthy (trim (first_content r))) eqn:E; [|discriminate].
  intros H. injection H as <-. split; [exact E | apply trim_idem].
Qed.

(** X6.  No optional field of a result is ever the empty string, and a
    [customizedResume] or [specificChanges] that is present is trimmed:
    it neither starts nor ends with white space. *)
Theorem optional_fields_are_never_empty
  (openai : OpenAI) (rt jd : jsstring) (a : Analysis) :
  truthy (trim rt) = true ->
  result_of (fst (full_run openai rt jd)) = Some a ->
  (forall s, customizedResume a = Some s -> truthy s = true /\ trim s = s) /\
  (forall s, specificChanges a = Some s -> truthy s = true /\ trim s = s) /\
  (forall s, coverLetter a = Some s -> truthy s = true).
Proof.
  intros Hrt Hres.
  destruct (openai [] (analysis_request rt jd)) as [e|ra] eqn:Ho.
  { rewrite (full_run_rejected openai rt jd e Hrt Ho) in Hres.
    injection Hres as <-. repeat split; discriminate. }
  destruct (truthy (trim jd)) eqn:Hjd.
  - destruct (optional_fields_by_call_aux openai rt jd ra Hrt Hjd Ho) as (a' & Ha' & H1 & H2 & H3).
    rewrite Ha' in Hres. injection Hres as <-.
    split; [|split].
    + intros s Hs. rewrite H1 in Hs. exact (kept_text_trimmed _ _ Hs).
    + intros s Hs. rewrite H2 in Hs. exact (kept_text_trimmed _ _ Hs).
    + intros s Hs. rewrite H3 in Hs. injection Hs as <-.
      destruct (openai _ (cover_letter_request rt jd)) as [e|r].
      * reflexivity.
      * destruct (truthy (trim (first_content r))) eqn:E; [exact E | reflexivity].
  - destruct (full_run_answered openai rt jd ra Hrt Ho)
      as (a1 & H1 & H2 & H3 & _ & _ & Hblank & _).
    rewrite (Hblank Hjd) in Hres. injection Hres as <-.
    rewrite H1, H2, H3. repeat split; discriminate.
Qed.

Lemma optional_fields_are_never_empty_witness :
  truthy (js "Jane Poe") = true /\ trim (js "Jane Poe") = js "Jane Poe".
Proof.
  refine (proj1 (optional_fields_are_never_empty
            (Samples.scripted [Samples.answer (js "{}"); Samples.answer (js " Jane Poe ");
                               Samples.rejection "timeout"; Samples.answer (js "  ")])
            Samples.resume Samples.posting
            {| strengths := []; improvements := []; tailoring := [];
               customizedResume := Some (js "Jane Poe");
               specificChanges := None;
               coverLetter := Some empty_response_notice |} _ _) (js "Jane Poe") eq_refl).
  - vm_compute. reflexivity.
  - vm_compute. reflexivity.
Defined.

(** X7.  The analysis task tries to parse the answer exactly when the text
    holds an opening brace that is followed, somewhere, by a closing
    brace. *)
Theorem parsing_is_tried_iff_brace_pair (text : jsstring) :
  brace_test text = true <->
  exists pre mid post, text = pre ++ js "{" ++ mid ++ js "}" ++ post.
Proof.
  split.
  - apply brace_test_pair.
  - intros (pre & mid & post & ->). apply brace_pair_test.
Qed.


(** The two ways of reading the parsed text agree on an object that holds
    none of the optional fields yet. *)
Lemma old_read_parsed_agrees (json : jsstring) (st : State) :
  customizedResume (analysis st) = None ->
  specificChanges (analysis st) = None ->
  coverLetter (analysis st) = None ->
  OldBuild.read_parsed json st = read_parsed json st.
Proof.
  intros H1 H2 H3. unfold OldBuild.read_parsed, read_parsed.
  destruct st as [[s i t cr sc cl] tr]. cbn in H1, H2, H3. subst cr sc cl.
  destruct (JSON_parse json) as [[| b | lit | str | l | ms]|]; reflexivity.
Qed.

Lemma old_run_agrees (openai : OpenAI) (p : jsstring) :
  OldBuild.run openai p {| analysis := fallback_analysis; issued := [] |}
  = (inr tt, snd (analysis_task openai p {| analysis := fallback_analysis; issued := [] |})).
Proof.
  unfold OldBuild.run, analysis_task, try_catch, bind, create. cbn [issued analysis].
  destruct (openai [] (user_request p t07)) as [e|resp]; [reflexivity|].
  cbn [app]. unfold when.
  match goal with |- context [if ?b then _ else _] => destruct b end; [|reflexivity].
  rewrite old_read_parsed_agrees by reflexivity.
  destruct (read_parsed_run
              (slice (first_content resp) (indexOf (first_content resp) (js "{"))
                     (lastIndexOf (first_content resp) (js "}") + 1))
              {| analysis := fallback_analysis; issued := [user_request p t07] |})
    as (a & -> & _).
  reflexivity.
Qed.

(** The current handler in terms of its first task. *)
Lemma full_run_after_analysis (openai : OpenAI) (rt jd : jsstring) :
  truthy (trim rt) = true ->
  let st1 := snd (analysis_task openai (analysisPrompt rt jd)
                    {| analysis := fallback_analysis; issued := [] |}) in
  exists a,
    fst (full_run openai rt jd) = {| status := 200; payload := AnalysisPayload a |} /\
    strengths a = strengths (analysis st1) /\
    improvements a = improvements (analysis st1) /\
    tailoring a = tailoring (analysis st1) /\
    firstn 1 (snd (full_run openai rt jd)) = issued st1 /\
    (truthy (trim jd) = false ->
     full_run openai rt jd
     = ({| status := 200; payload := AnalysisPayload (analysis st1) |}, issued st1)).
Proof.
  intros Hrt st1.
  remember (full_run openai rt jd) as fr eqn:Hfr.
  rewrite (full_run_tasks openai rt jd Hrt) in Hfr.
  unfold run_tasks, try_catch in Hfr. unfold bind at 1 in Hfr.
  destruct (openai [] (analysis_request rt jd)) as [e|resp] eqn:Ho.
  - subst st1.
    rewrite (analysis_task_rejected openai (analysisPrompt rt jd)
               {| analysis := fallback_analysis; issued := [] |} e Ho) in *.
    cbn [snd fst analysis issued app] in *. subst fr.
    cbn [snd fst firstn]. eexists. split; [reflexivity|]. repeat split.
  - assert (Hrun : exists a1, analysis_task openai (analysisPrompt rt jd)
                     {| analysis := fallback_analysis; issued := [] |}
                   = (inr tt, {| analysis := a1; issued := [analysis_request rt jd] |})).
    { rewrite (analysis_task_answered openai _ _ resp) by exact Ho.
      unfold when. destruct (brace_test (first_content resp)).
      - match goal with
        | |- context [read_parsed ?j ?s] =>
            destruct (read_parsed_run j s) as (a1 & -> & _)
        end.
        exists a1. reflexivity.
      - exists fallback_analysis. reflexivity. }
    destruct Hrun as (a1 & Hrun). subst st1. rewrite Hrun in *.
    cbn [snd fst analysis issued] in *. cbv beta iota in Hfr.
    destruct (truthy (trim jd)) eqn:Hjd.
    + rewrite (later_tasks_run openai rt jd _ Hjd) in Hfr.
      cbn [fst snd analysis issued app] in Hfr. subst fr. cbn [fst snd firstn].
      eexists. split; [reflexivity|].
      split; [|split; [|split; [|split; [reflexivity | discriminate]]]];
        repeat match goal with
               | |- context [match ?o with inl _ => _ | inr _ => _ end] => destruct o
               | |- context [if ?b then _ else _] => destruct b
               end; reflexivity.
    + rewrite (later_tasks_skipped openai rt jd _ Hjd) in Hfr.
      cbn [fst snd analysis issued] in Hfr. subst fr. cbn [fst snd firstn].
      eexists. split; [reflexivity|]. repeat split.
Qed.

(** The analysis task issues its request and no other, and does not throw
    once the request is answered. *)
Lemma analysis_task_issued (openai : OpenAI) (p : jsstring) :
  issued (snd (analysis_task openai p {| analysis := fallback_analysis; issued := [] |}))
  = [user_request p t07].
Proof.
  destruct (openai [] (user_request p t07)) as [e|resp] eqn:Ho.
  - now rewrite (analysis_task_rejected openai p
                   {| analysis := fallback_analysis; issued := [] |} e Ho).
  - rewrite (analysis_task_answered openai p
               {| analysis := fallback_analysis; issued := [] |} resp Ho).
    unfold when. destruct (brace_test (first_content resp)); [|reflexivity].
    match goal with
    | |- context [read_parsed ?j ?s] => destruct (read_parsed_run j s) as (a1 & -> & _)
    end.
    reflexivity.
Qed.

(** The earlier build on a resume text and a job description it can print:
    one request, answered with status 200. *)
Lemma old_build_run (openai : OpenAI) (body : option JSON) (rt : jsstring)
  (j : JSON) (jd : jsstring) :
  accepted_resume (body_member body (js "resumeText")) = inr (Some rt) ->
  match body_member body (js "jobDescription") with
  | Some j' => j'
  | None => JString []
  end = j ->
  template_part (Some j) = inr jd ->
  OldBuild.analyze_resume (Some openai) body
  = (let st1 := snd (analysis_task openai (analysisPrompt rt jd)
                       {| analysis := fallback_analysis; issued := [] |}) in
     (inr {| status := 200; payload := AnalysisPayload (analysis st1) |}, issued st1)).
Proof.
  intros Ha Hj Ht. unfold OldBuild.analyze_resume. rewrite Ha, Hj, Ht.
  now rewrite old_run_agrees.
Qed.

(** X8.  The compiled build kept beside the source, against the current
    handler, on every body.  Where the current handler does not answer
    500, the earlier build answers like it as far as it goes: the same
    status, the same first request and no other, the same three arrays and
    no optional field, and the same answer and requests when there is no
    job description or a blank one.  Where the current handler answers
    500 it has issued no request, and the earlier build either rejects,
    having issued none, or answers 200 after one request.  The latter it
    does for a job description that is [null], which it prints into its
    prompt. *)
Theorem old_build_agrees_with_handler (openai : option OpenAI) (body : option JSON) :
  let old := OldBuild.analyze_resume openai body in
  let new := analyze_resume openai body in
  (status (fst new) <> 500%N ->
   exists r,
     fst old = inr r /\
     status r = status (fst new) /\
     snd old = firstn 1 (snd new) /\
     match result_of r, result_of (fst new) with
     | Some ao, Some an =>
         strengths ao = strengths an /\ improvements ao = improvements an /\
         tailoring ao = tailoring an /\
         customizedResume ao = None /\ specificChanges ao = None /\ coverLetter ao = None
     | None, None => r = fst new
     | _, _ => False
     end /\
     (body_member body (js "jobDescription") = None
      \/ (exists t, body_member body (js "jobDescription") = Some (JString t)
                    /\ truthy (trim t) = false) ->
      r = fst new /\ snd old = snd new)) /\
  (status (fst new) = 500%N ->
   snd new = [] /\
   match fst old with
   | inl _ => snd old = []
   | inr r => status r = 200%N /\ List.length (snd old) = 1%nat
   end) /\
  (forall client s,
     openai = Some client ->
     body_member body (js "resumeText") = Some (JString s) ->
     truthy (trim s) = true ->
     body_member body (js "jobDescription") = Some JNull ->
     status (fst new) = 500%N /\
     exists a,
       old = (inr {| status := 200; payload := AnalysisPayload a |},
              [analysis_request s (js "null")])).
Proof.
  cbv zeta. split; [|split].
  - (* the current handler does not answer 500 *)
    destruct openai as [client|];
      [|intros _; eexists; split; [reflexivity|]; repeat split].
    destruct (accepted_resume (body_member body (js "resumeText"))) as [e|[rt|]] eqn:Ha.
    + intros H. exfalso. apply H. unfold analyze_resume. now rewrite Ha.
    + destruct (accepted_resume_inv _ _ Ha) as [Hr Ht].
      destruct (job_description_text
                  match body_member body (js "jobDescription") with
                  | Some j => j
                  | None => JString []
                  end) as [e|jd] eqn:Hjt.
      * intros H. exfalso. apply H. unfold analyze_resume. now rewrite Ha, Hjt.
      * intros _. apply job_description_text_inv in Hjt.
        assert (Hj : body_member body (js "jobDescription") = Some (JString jd)
                     \/ (body_member body (js "jobDescription") = None /\ jd = [])).
        { destruct (body_member body (js "jobDescription")) as [j|].
          - left. now rewrite Hjt.
          - right. split; [reflexivity|]. now injection Hjt as <-. }
        rewrite (analyze_resume_full_run client body rt jd Hr Ht Hj).
        rewrite (old_build_run client body rt (JString jd) jd Ha Hjt eq_refl).
        cbv zeta.
        destruct (full_run_after_analysis client rt jd Ht)
          as (a & Hfst & Hs & Hi & Hta & Htr & Hblank).
        cbv zeta in Hs, Hi, Hta, Htr, Hblank.
        set (st1 := snd (analysis_task client (analysisPrompt rt jd)
                           {| analysis := fallback_analysis; issued := [] |})) in *.
        eexists. split; [reflexivity|].
        rewrite Hfst. cbn [fst snd status result_of payload].
        split; [reflexivity|]. split; [now rewrite Htr|]. split.
        -- rewrite Hs, Hi, Hta. repeat (split; [reflexivity|]).
           subst st1. unfold analysis_task, bind, create. cbn [issued analysis].
           destruct (client [] (user_request (analysisPrompt rt jd) t07)) as [e|resp];
             [repeat split|].
           unfold when. cbn [app].
           match goal with |- context [if ?b then _ else _] => destruct b end;
             [|repeat split].
           match goal with
           | |- context [read_parsed ?j ?s] =>
               destruct (read_parsed_run j s) as (a1 & -> & H1 & H2 & H3 & _)
           end.
           cbn [snd analysis]. cbn [analysis] in H1, H2, H3.
           rewrite H1, H2, H3. repeat split.
        -- intros Hb.
           assert (Hjd : truthy (trim jd) = false).
           { destruct Hb as [Hn | (t & Hsome & Hbl)]; destruct Hj as [Hj | [Hj ->]];
               try reflexivity; rewrite Hj in *; try discriminate.
             injection Hsome as <-. exact Hbl. }
           specialize (Hblank Hjd). rewrite Hblank in Hfst |- *.
           cbn [fst snd] in Hfst |- *. now split.
    + intros _. rewrite (analyze_resume_refused client body Ha).
      unfold OldBuild.analyze_resume. rewrite Ha.
      eexists. split; [reflexivity|]. repeat split.
  - (* the current handler answers 500 *)
    destruct openai as [client|]; [|intros H; discriminate H].
    unfold analyze_resume, OldBuild.analyze_resume.
    destruct (accepted_resume (body_member body (js "resumeText"))) as [e|[rt|]] eqn:Ha.
    + intros _. split; reflexivity.
    + destruct (accepted_resume_inv _ _ Ha) as [Hr Ht].
      destruct (job_description_text
                  match body_member body (js "jobDescription") with
                  | Some j => j
                  | None => JString []
                  end) as [e|jd] eqn:Hjt.
      * intros _. split; [reflexivity|].
        destruct (template_part
                    (Some match body_member body (js "jobDescription") with
                          | Some j => j
                          | None => JString []
                          end)) as [e'|jd'] eqn:Htp; [reflexivity|].
        rewrite old_run_agrees. cbn [fst snd status].
        split; [reflexivity|]. now rewrite analysis_task_issued.
      * intros H. exfalso. unfold internal_error in H.
        rewrite <- (full_run_tasks client rt jd Ht) in H.
        destruct (full_run_answers client rt jd Ht) as (a & tr & E).
        rewrite E in H. discriminate H.
    + intros H. discriminate H.
  - (* a job description that is null *)
    intros client s -> Hr Ht Hj. split.
    + unfold analyze_resume. now rewrite Hr, (accepted_resume_text s Ht), Hj.
    + rewrite (old_build_run client body s JNull (js "null")
                 ltac:(rewrite Hr; now apply accepted_resume_text)
                 ltac:(now rewrite Hj) eq_refl).
      cbv zeta. rewrite analysis_task_issued. eexists. reflexivity.
Qed.

Lemma old_build_agrees_with_handler_witness :
  status (fst (analyze_resume (Some (Samples.scripted []))
                 (Some (JObject [(js "resumeText", JString Samples.resume);
                                 (js "jobDescription", JNull)]))))
  = 500%N /\
  exists a,
    OldBuild.analyze_resume (Some (Samples.scripted []))
      (Some (JObject [(js "resumeText", JString Samples.resume);
                      (js "jobDescription", JNull)]))
    = (inr {| status := 200; payload := AnalysisPayload a |},
       [analysis_request Samples.resume (js "null")]).
Proof.
  apply (proj2 (proj2 (old_build_agrees_with_handler (Some (Samples.scripted []))
                  (Some (JObject [(js "resumeText", JString Samples.resume);
                                  (js "jobDescription", JNull)]))))
           (Samples.scripted []) Samples.resume eq_refl eq_refl).
  - vm_compute. reflexivity.
  - reflexivity.
Defined.

End ServerRuns.

(* ===================================================================== *)
(** * The client: uploads *)
(* ===================================================================== *)

Section Uploads.

Import Client.
Import Page.
Local Open Scope list_scope.

Lemma upload_not_decoded (file : File) (c : Component) (e : thrown) :
  declared_pdf file = true ->
  (size file <= max_size)%N ->
  decoded file = inl e \/
  (exists pdf, decoded file = inr pdf /\ extract_pages pdf [] = inl e) ->
  handleFileUpload file c = (inr tt, upload_failed file c e).
Proof.
  intros H Hs Hd. unfold handleFileUpload. rewrite upload_type_test, H.
  apply N.ltb_ge in Hs. cbn [negb]. rewrite Hs.
  unfold bind, try_finally, try_catch, setUploadedFile, setIsProcessingPDF,
    setResumeText, toast, modify, await.
  destruct Hd as [Hd | (pdf & Hd & He)]; rewrite Hd.
  - reflexivity.
  - cbv beta iota delta [ret]. rewrite He. reflexivity.
Qed.

(** The loop stops at the first page that fails, with that page's error,
    whatever the pages before it held. *)
Lemma extract_pages_fails (good : list (list TextContentItem)) (e : thrown)
  (rest : list PageOutcome) (acc : jsstring) :
  extract_pages (List.map inr good ++ inl e :: rest) acc = inl e.
Proof.
  revert acc. induction good as [|items more IH]; intros acc; [reflexivity|].
  cbn [List.map app extract_pages]. apply IH.
Qed.

Lemma extract_pages_all (good : list (list TextContentItem)) (acc : jsstring) :
  extract_pages (List.map inr good) acc
  = inr (acc ++ List.concat (List.map (fun items => pageText items ++ newline) good)).
Proof.
  revert acc. induction good as [|items more IH]; intros acc.
  - cbn. now rewrite app_nil_r.
  - cbn [List.map extract_pages List.concat]. rewrite IH. now rewrite <- !app_assoc.
Qed.

(** X9.  Extraction is all or nothing.  When an accepted file cannot be
    opened, or any one of its pages fails, no text is kept: the stored
    text is emptied, the file is dropped, the busy flag is cleared and the
    notice names the error of the document or of the first failing page,
    however many pages were read before it. *)
Theorem extraction_is_all_or_nothing
  (file : File) (c : Component) (e : thrown) :
  declared_pdf file = true ->
  (size file <= max_size)%N ->
  decoded file = inl e \/
  (exists good rest, decoded file = inr (List.map inr good ++ inl e :: rest)) ->
  exists c',
    handleFileUpload file c = (inr tt, c') /\
    resumeText c' = [] /\
    uploadedFile c' = None /\
    isProcessingPDF c' = false /\
    analysis c' = analysis c /\
    events c' = events c ++ [Decoded file; Toasted (reading_failed_toast e)].
Proof.
  intros H Hs Hd.
  rewrite (upload_not_decoded file c e H Hs).
  - eexists. split; [reflexivity|].
    cbn [upload_failed resumeText uploadedFile isProcessingPDF analysis events
         with_isProcessingPDF with_resumeText with_uploadedFile emit].
    repeat split. now rewrite <- app_assoc.
  - destruct Hd as [Hd | (good & rest & Hd)]; [now left|].
    right. eexists. split; [exact Hd|]. apply extract_pages_fails.
Qed.

Lemma extraction_is_all_or_nothing_witness :
  exists c',
    handleFileUpload
      {| name := js "cv.pdf"; type := js "application/pdf"; size := 1000;
         decoded := inr [inr [TextItem (js "Jane")]; inl (ErrorObj (js "Invalid page"));
                         inr [TextItem (js "Rust")]] |}
      Samples.ready = (inr tt, c') /\
    resumeText c' = [] /\ uploadedFile c' = None.
Proof.
  destruct (extraction_is_all_or_nothing
              {| name := js "cv.pdf"; type := js "application/pdf"; size := 1000;
                 decoded := inr [inr [TextItem (js "Jane")]; inl (ErrorObj (js "Invalid page"));
                                 inr [TextItem (js "Rust")]] |}
              Samples.ready (ErrorObj (js "Invalid page")))
    as (c' & H0 & H1 & H2 & _);
    [vm_compute; reflexivity | vm_compute; discriminate
     | right; exists [[TextItem (js "Jane")]], [inr [TextItem (js "Rust")]]; reflexivity |].
  exists c'. split; [exact H0|]. split; [exact H1 | exact H2].
Defined.

(** An accepted upload whose pages all decode. *)
Lemma upload_all_pages (file : File) (c : Component)
  (pages : list (list TextContentItem)) :
  declared_pdf file = true ->
  (size file <= max_size)%N ->
  decoded file = inr (List.map inr pages) ->
  handleFileUpload file c =
  (inr tt,
   with_isProcessingPDF false
     (emit (Toasted {| title := js "PDF uploaded successfully";
                       description := name file ++ js " has been uploaded and processed.";
                       variant := None |})
        (with_resumeText (trim (join newline (List.map pageText pages)))
           (emit (Decoded file)
              (with_isProcessingPDF true (with_uploadedFile (Some file) c)))))).
Proof.
  intros H Hs Hd.
  rewrite (upload_decoded file c _ _ H Hs Hd (extract_pages_all pages [])).
  cbn [app]. rewrite <- (map_map pageText (fun p => p ++ newline)), trim_pages.
  reflexivity.
Qed.

(** X10.  After an accepted upload whose pages all decode, the file is
    kept, the busy flag is cleared, the stored result is untouched and the
    stored text is trimmed: it is the runs of each page joined by one
    space (code unit 32), the pages joined by one newline (code unit 10),
    with the white space at both ends removed, where an item that carries
    no string counts as an empty run. *)
Theorem upload_keeps_file_and_trimmed_text
  (file : File) (c : Component) (pages : list (list TextContentItem)) :
  declared_pdf file = true ->
  (size file <= max_size)%N ->
  decoded file = inr (List.map inr pages) ->
  exists c',
    handleFileUpload file c = (inr tt, c') /\
    resumeText c'
    = trim (join [10%N]
              (List.map (fun items =>
                           join [32%N]
                             (List.map (fun item => match item with
                                                    | TextItem str => str
                                                    | TextMarkedContent => []
                                                    end) items))
                        pages)) /\
    trim (resumeText c') = resumeText c' /\
    uploadedFile c' = Some file /\
    isProcessingPDF c' = false /\
    analysis c' = analysis c.
Proof.
  intros H Hs Hd. rewrite (upload_all_pages file c pages H Hs Hd).
  eexists. split; [reflexivity|].
  cbn [resumeText uploadedFile isProcessingPDF analysis
       with_isProcessingPDF with_resumeText with_uploadedFile emit].
  split; [reflexivity|]. split; [apply trim_idem|]. repeat split.
Qed.

Lemma upload_keeps_file_and_trimmed_text_witness :
  exists c',
    handleFileUpload
      {| name := js "cv.pdf"; type := js "application/pdf"; size := 1000;
         decoded := inr [inr [TextItem (js " Jane"); TextMarkedContent; TextItem (js "Poe ")];
                         inr [TextItem (js "Rust")];
                         inr [TextMarkedContent]] |}
      initial = (inr tt, c') /\
    resumeText c'
    = [74; 97; 110; 101; 32; 32; 80; 111; 101; 32; 10; 82; 117; 115; 116]%N.
Proof.
  destruct (upload_keeps_file_and_trimmed_text
              {| name := js "cv.pdf"; type := js "application/pdf"; size := 1000;
                 decoded := inr [inr [TextItem (js " Jane"); TextMarkedContent;
                                      TextItem (js "Poe ")];
                                 inr [TextItem (js "Rust")];
                                 inr [TextMarkedContent]] |}
              initial [[TextItem (js " Jane"); TextMarkedContent; TextItem (js "Poe ")];
                       [TextItem (js "Rust")];
                       [TextMarkedContent]])
    as (c' & H0 & H1 & _);
    [vm_compute; reflexivity | vm_compute; discriminate | reflexivity |].
  exists c'. split; [exact H0|]. rewrite H1. vm_compute. reflexivity.
Defined.

End Uploads.

(* ===================================================================== *)
(** * The client: the two runs, case by case *)
(* ===================================================================== *)

Section Runs.

Import Client.
Import Page.
Local Open Scope list_scope.

Variable net : Network.
Variable c : Component.

Lemma reject_unless_ok_message (resp : HttpResponse) (st : Component) :
  ok resp = false ->
  reject_unless_ok resp st = (inl (ErrorObj (server_error_message resp)), st).
Proof.
  intros Hok. unfold reject_unless_ok, server_error_message. rewrite Hok. cbn [negb].
  unfold bind, try_catch, await, throw, ret.
  destruct (json resp) as [e|maybeErr]; [reflexivity|].
  destruct (optional_property maybeErr (js "error")) as [v|]; [|reflexivity].
  destruct (ToBoolean (Some v)); reflexivity.
Qed.

Lemma sane_analysis_coerce (raw : JSON) (st : Component) :
  raw <> JNull -> sane_analysis raw st = (inr (coerce raw), st).
Proof.
  intros H. destruct raw; try contradiction; reflexivity.
Qed.

Lemma sane_analysis_null (st : Component) :
  sane_analysis JNull st = (inl (ErrorObj (null_read_message (js "strengths"))), st).
Proof. reflexivity. Qed.

Lemma analyze_invalid :
  has_file c = false \/ truthy (trim (resumeText c)) = false ->
  handleAnalyze net c
  = (inr tt, emit (Toasted {| title := js "Error";
                              description := js "Please upload your resume PDF.";
                              variant := destructive |}) c).
Proof.
  intros H. unfold handleAnalyze, bind, get. unfold has_file in H.
  destruct (uploadedFile c); [|reflexivity].
  destruct H as [H|H]; [discriminate|]. rewrite H. reflexivity.
Qed.

Lemma analyze_no_job_description :
  has_file c = true -> truthy (trim (resumeText c)) = true ->
  truthy (trim (jobDescription c)) = false ->
  handleAnalyze net c
  = (inr tt, emit (Toasted {| title := js "Error";
                              description :=
                                js "Please provide a job description to customize your resume.";
                              variant := destructive |}) c).
Proof.
  intros Hf Hr Hj. unfold handleAnalyze, bind, get. unfold has_file in Hf.
  destruct (uploadedFile c); [|discriminate]. rewrite Hr, Hj. reflexivity.
Qed.

(** A valid analysis run, by what the network gives. *)
Lemma analyze_valid :
  has_file c = true -> truthy (trim (resumeText c)) = true ->
  truthy (trim (jobDescription c)) = true ->
  handleAnalyze net c =
  (inr tt,
   match net (request_of c) with
   | inl e => analysis_failed c e
   | inr resp =>
       match read_body resp with
       | inl e => analysis_failed c e
       | inr JNull => analysis_failed c (ErrorObj (null_read_message (js "strengths")))
       | inr raw => analysis_stored c (coerce raw)
       end
   end).
Proof.
  intros Hf Hr Hj. unfold handleAnalyze. unfold bind at 1. unfold get.
  unfold has_file in Hf. destruct (uploadedFile c) eqn:Hu; [|discriminate].
  rewrite Hr, Hj. cbn [negb orb].
  unfold try_finally, try_catch.
  unfold bind at 1. unfold setIsAnalyzing at 1. unfold modify at 1.
  unfold bind at 1. unfold fetch at 1. unfold bind at 1. unfold modify at 1.
  fold (request_of c). fold (analysis_started c). unfold await at 1.
  destruct (net (request_of c)) as [e|resp]; [reflexivity|].
  cbv beta iota delta [ret]. unfold bind at 1. unfold read_body.
  destruct (ok resp) eqn:Hok.
  - rewrite (reject_unless_ok_passes resp (analysis_started c) Hok).
    unfold bind at 1. unfold await at 1.
    destruct (json resp) as [e|raw]; [reflexivity|].
    cbv beta iota delta [ret]. unfold bind at 1.
    destruct raw as [| b | lit | s | l | ms]; reflexivity.
  - rewrite (reject_unless_ok_message resp (analysis_started c) Hok). reflexivity.
Qed.

(** A valid cover-letter-only run, by what the network gives. *)
Lemma cover_letter_valid :
  truthy (trim (resumeText c)) = true ->
  truthy (trim (jobDescription c)) = true ->
  handleGenerateCoverLetter net c =
  (inr tt,
   match net (request_of c) with
   | inl e => cover_letter_failed c e
   | inr resp =>
       match read_body resp with
       | inl e => cover_letter_failed c e
       | inr JNull => cover_letter_failed c (ErrorObj (null_read_message (js "coverLetter")))
       | inr raw =>
           match optional_property raw (js "coverLetter") with
           | Some (JString text) =>
               if truthy text then
                 if includes text (js "generation failed")
                    || includes text (js "empty response")
                 then cover_letter_failed c (ErrorObj text)
                 else cover_letter_stored c raw text
               else cover_letter_failed c (ErrorObj not_generated_message)
           | _ => cover_letter_failed c (ErrorObj not_generated_message)
           end
       end
   end).
Proof.
  intros Hr Hj. rewrite (cover_letter_only_valid net c Hr Hj).
  fold (request_of c). fold (cover_letter_started c).
  destruct (net (request_of c)) as [e|resp]; [reflexivity|].
  unfold read_body. destruct (ok resp) eqn:Hok.
  - rewrite (reject_unless_ok_passes resp _ Hok).
    destruct (json resp) as [e|raw]; [reflexivity|].
    destruct raw as [| b | lit | s | l | ms]; try reflexivity.
    destruct (optional_property (JObject ms) (js "coverLetter"))
      as [[| b | lit | s | l | ms']|]; try reflexivity.
    destruct (truthy s); [|reflexivity].
    destruct (includes s (js "generation failed") || includes s (js "empty response"));
      reflexivity.
  - rewrite (reject_unless_ok_message resp _ Hok). reflexivity.
Qed.

End Runs.

(* ===================================================================== *)
(** * The client: what the handlers keep and what they show *)
(* ===================================================================== *)

Section ClientProperties.

Import Client.
Import Page.
Local Open Scope list_scope.

(** Every upload ends in one of four ways. *)
Lemma upload_cases (file : File) (c : Component) :
  exists c',
    handleFileUpload file c = (inr tt, c') /\
    (c' = emit (Toasted invalid_type_toast) c
     \/ c' = emit (Toasted too_large_toast) c
     \/ (exists text, c' = upload_done file c text)
     \/ (exists e, c' = upload_failed file c e)).
Proof.
  destruct (declared_pdf file) eqn:Hd.
  - destruct (N.ltb_spec max_size (size file)) as [Hs|Hs].
    + rewrite (upload_too_large file c Hd Hs).
      eexists. split; [reflexivity|]. right. left. reflexivity.
    + destruct (decoded file) as [e|pdf] eqn:Hdec.
      * rewrite (upload_not_decoded file c e Hd Hs) by now left.
        eexists. split; [reflexivity|]. right. right. right. eexists. reflexivity.
      * destruct (extract_pages pdf []) as [e|text] eqn:He.
        -- rewrite (upload_not_decoded file c e Hd Hs) by (right; eauto).
           eexists. split; [reflexivity|]. right. right. right. eexists. reflexivity.
        -- rewrite (upload_decoded file c pdf text Hd Hs Hdec He).
           eexists. split; [reflexivity|]. right. right. left. exists text. reflexivity.
  - rewrite (upload_wrong_type file c Hd).
    eexists. split; [reflexivity|]. left. reflexivity.
Qed.

(** Every analysis run ends in one of three ways. *)
Lemma analyze_cases (net : Network) (c : Component) :
  exists c',
    handleAnalyze net c = (inr tt, c') /\
    ((exists t, c' = emit (Toasted t) c /\ title t = js "Error")
     \/ (exists e, c' = analysis_failed c e)
     \/ (exists a, c' = analysis_stored c a)).
Proof.
  destruct (has_file c) eqn:Hf;
    [|rewrite (analyze_invalid net c) by (now left);
      eexists; split; [reflexivity|]; left; eexists; split; reflexivity].
  destruct (truthy (trim (resumeText c))) eqn:Hr;
    [|rewrite (analyze_invalid net c) by (now right);
      eexists; split; [reflexivity|]; left; eexists; split; reflexivity].
  destruct (truthy (trim (jobDescription c))) eqn:Hj;
    [|rewrite (analyze_no_job_description net c Hf Hr Hj);
      eexists; split; [reflexivity|]; left; eexists; split; reflexivity].
  rewrite (analyze_valid net c Hf Hr Hj). eexists. split; [reflexivity|]. right.
  destruct (net (request_of c)) as [e|resp]; [left; eexists; reflexivity|].
  destruct (read_body resp) as [e|raw]; [left; eexists; reflexivity|].
  destruct raw; first [left; eexists; reflexivity | right; eexists; reflexivity].
Qed.

(** Every cover-letter-only run ends in one of three ways. *)
Lemma cover_letter_cases (net : Network) (c : Component) :
  exists c',
    handleGenerateCoverLetter net c = (inr tt, c') /\
    ((exists t, c' = emit (Toasted t) c /\ title t = js "Error")
     \/ (exists e, c' = cover_letter_failed c e)
     \/ (exists raw text, c' = cover_letter_stored c raw text)).
Proof.
  destruct (truthy (trim (resumeText c))) eqn:Hr;
    [|destruct (cover_letter_only_invalid net c) as (t & Ht & Htitle & _);
      [now left | rewrite Ht; eauto 6]].
  destruct (truthy (trim (jobDescription c))) eqn:Hj;
    [|destruct (cover_letter_only_invalid net c) as (t & Ht & Htitle & _);
      [now right | rewrite Ht; eauto 6]].
  rewrite (cover_letter_valid net c Hr Hj). eexists. split; [reflexivity|]. right.
  destruct (net (request_of c)) as [e|resp]; [left; eexists; reflexivity|].
  destruct (read_body resp) as [e|raw]; [left; eexists; reflexivity|].
  destruct raw as [| b | lit | s | l | ms];
    try (left; eexists; reflexivity).
  destruct (optional_property (JObject ms) (js "coverLetter"))
    as [[| b | lit | s | l | ms']|];
    try (left; eexists; reflexivity).
  destruct (truthy s); [|left; eexists; reflexivity].
  destruct (includes s (js "generation failed") || includes s (js "empty response"));
    [left; eexists; reflexivity | right; eexists; eexists; reflexivity].
Qed.

(** X11.  None of the three asynchronous handlers ever rejects: whatever
    the file, the decoder or the network does, each runs to its end. *)
Theorem handlers_never_reject (net : Network) (file : File) (c : Component) :
  fst (handleFileUpload file c) = inr tt /\
  fst (handleAnalyze net c) = inr tt /\
  fst (handleGenerateCoverLetter net c) = inr tt.
Proof.
  destruct (upload_cases file c) as (c1 & -> & _).
  destruct (analyze_cases net c) as (c2 & -> & _).
  destruct (cover_letter_cases net c) as (c3 & -> & _).
  repeat split.
Qed.


(** X12.  A PDF without text is accepted by the upload and refused by the
    analysis: when every page decodes and the text is blank, the upload
    keeps the file and reports success, and the analysis that follows
    sends nothing and asks for a resume. *)
Theorem blank_pdf_is_uploaded_but_not_analyzed
  (net : Network) (file : File) (c : Component)
  (pages : list (list TextContentItem)) :
  declared_pdf file = true ->
  (size file <= max_size)%N ->
  decoded file = inr (List.map inr pages) ->
  trim (join newline (List.map pageText pages)) = [] ->
  let c1 := snd (handleFileUpload file c) in
  uploadedFile c1 = Some file /\
  resumeText c1 = [] /\
  handleAnalyze net c1
  = (inr tt, emit (Toasted {| title := js "Error";
                              description := js "Please upload your resume PDF.";
                              variant := destructive |}) c1).
Proof.
  intros H Hs Hd Hblank c1. subst c1.
  rewrite (upload_all_pages file c pages H Hs Hd). cbn [snd]. rewrite Hblank.
  split; [reflexivity|]. split; [reflexivity|].
  apply analyze_invalid. right. reflexivity.
Qed.

Lemma blank_pdf_is_uploaded_but_not_analyzed_witness :
  let file := {| name := js "scan.pdf"; type := js "application/pdf"; size := 4096;
                 decoded := inr [inr []; inr [TextItem (js " ")]] |} in
  let c1 := snd (handleFileUpload file Samples.ready) in
  uploadedFile c1 = Some file /\
  resumeText c1 = [] /\
  handleAnalyze (Samples.replying JNull) c1
  = (inr tt, emit (Toasted {| title := js "Error";
                              description := js "Please upload your resume PDF.";
                              variant := destructive |}) c1).
Proof.
  apply (blank_pdf_is_uploaded_but_not_analyzed (Samples.replying JNull)
           {| name := js "scan.pdf"; type := js "application/pdf"; size := 4096;
              decoded := inr [inr []; inr [TextItem (js " ")]] |}
           Samples.ready [[]; [TextItem (js " ")]]).
  - vm_compute. reflexivity.
  - vm_compute. discriminate.
  - reflexivity.
  - vm_compute. reflexivity.
Defined.

(** The invariant survives every action. *)
Lemma step_at_rest (a : Action) (c : Component) : at_rest c -> at_rest (step a c).
Proof.
  intros (Ht & Hf & Ha & Hg & Hp).
  assert (Hup : forall file c0, at_rest c0 -> at_rest (snd (handleFileUpload file c0))).
  { intros file c0 (Ht0 & Hf0 & Ha0 & Hg0 & Hp0).
    destruct (upload_cases file c0) as (c' & -> & [-> | [-> | [[text ->] | [e ->]]]]);
      cbn [snd]; unfold at_rest, has_file;
      cbn [resumeText uploadedFile isAnalyzing isGeneratingCoverLetter isProcessingPDF
           emit upload_done upload_failed with_isProcessingPDF with_resumeText
           with_uploadedFile];
      repeat split; try assumption; try reflexivity; try discriminate.
    symmetry. apply trim_idem. }
  destruct a as [file | files | files | | v | | | net | net | v | ]; cbn [step].
  - apply Hup. repeat split; assumption.
  - unfold handleDrop, bind, setIsDragging, modify.
    destruct files as [[|first rest]|]; cbn [snd];
      try (apply Hup); unfold at_rest, has_file;
      cbn [resumeText uploadedFile isAnalyzing isGeneratingCoverLetter isProcessingPDF
           with_isDragging];
      repeat split; assumption.
  - unfold handleFileInputChange.
    destruct files as [[|first rest]|]; cbn [snd ret];
      try (apply Hup); repeat split; assumption.
  - cbn. unfold at_rest, has_file. cbn. repeat split; try assumption; discriminate.
  - cbn. repeat split; assumption.
  - cbn. repeat split; assumption.
  - cbn. repeat split; assumption.
  - destruct (analyze_cases net c)
      as (c' & -> & [(t & -> & _) | [[e ->] | [a ->]]]);
      cbn [snd]; unfold at_rest, has_file;
      cbn [resumeText uploadedFile isAnalyzing isGeneratingCoverLetter isProcessingPDF
           emit analysis_failed analysis_stored analysis_started with_isAnalyzing
           with_analysis];
      repeat split; assumption.
  - destruct (cover_letter_cases net c)
      as (c' & -> & [(t & -> & _) | [[e ->] | (raw & text & ->)]]);
      cbn [snd]; unfold at_rest, has_file;
      cbn [resumeText uploadedFile isAnalyzing isGeneratingCoverLetter isProcessingPDF
           emit cover_letter_failed cover_letter_stored cover_letter_started
           with_isGeneratingCoverLetter with_analysis with_activeTab];
      repeat split; assumption.
  - cbn. repeat split; assumption.
  - unfold sync_active_tab. destruct (analysis c) as [a|]; [|repeat split; assumption].
    destruct (shown (specificChanges a));
      [|destruct (shown (customizedResume a));
        [|destruct (shown (coverLetter a))]];
      unfold at_rest, has_file;
      cbn [resumeText uploadedFile isAnalyzing isGeneratingCoverLetter isProcessingPDF
           with_activeTab];
      repeat split; assumption.
Qed.

Lemma reachable_at_rest (c : Component) : reachable c -> at_rest c.
Proof.
  induction 1 as [|a c Hc IH].
  - unfold at_rest. cbn. repeat split; try reflexivity. discriminate.
  - now apply step_at_rest.
Qed.

(** X13.  Whatever the user does, once each action has run to its end the
    component is at rest: the stored resume text is trimmed, a text is
    never held without an uploaded file, and none of the three busy flags
    is left set. *)
Theorem reachable_components_are_at_rest (c : Component) :
  reachable c ->
  resumeText c = trim (resumeText c) /\
  (truthy (resumeText c) = true -> has_file c = true) /\
  isAnalyzing c = false /\
  isGeneratingCoverLetter c = false /\
  isProcessingPDF c = false.
Proof. exact (reachable_at_rest c). Qed.

Lemma reachable_components_are_at_rest_witness :
  let c := step (Analyze (Samples.replying (JObject [])))
             (step (TypeJobDescription Samples.posting)
                (step (Upload Samples.renamed_pdf) initial)) in
  resumeText c = trim (resumeText c) /\
  (truthy (resumeText c) = true -> has_file c = true) /\
  isAnalyzing c = false /\
  isGeneratingCoverLetter c = false /\
  isProcessingPDF c = false.
Proof.
  apply (reachable_components_are_at_rest
           (step (Analyze (Samples.replying (JObject [])))
              (step (TypeJobDescription Samples.posting)
                 (step (Upload Samples.renamed_pdf) initial)))).
  repeat apply reach_step. apply reach_initial.
Defined.


Lemma events_analysis_failed (c : Component) (e : thrown) :
  events (analysis_failed c e)
  = events c ++ [Fetched (request_of c);
                 Toasted (failure_toast (js "Analysis failed") e)].
Proof. cbn. now rewrite <- app_assoc. Qed.

Lemma events_analysis_stored (c : Component) (a : ResumeAnalysis) :
  events (analysis_stored c a)
  = events c ++ [Fetched (request_of c);
                 Toasted {| title := js "Analysis Complete! " ++ sparkles;
                            description := js "Your resume has been analyzed with AI.";
                            variant := None |}].
Proof. cbn. now rewrite <- app_assoc. Qed.

Lemma events_cover_letter_failed (c : Component) (e : thrown) :
  events (cover_letter_failed c e)
  = events c ++ [Fetched (request_of c);
                 Toasted (failure_toast (js "Cover letter generation failed") e)].
Proof. cbn. now rewrite <- app_assoc. Qed.

Lemma events_cover_letter_stored (c : Component) (raw : JSON) (text : jsstring) :
  events (cover_letter_stored c raw text)
  = events c ++ [Fetched (request_of c);
                 Toasted {| title := js "Cover Letter Generated! " ++ sparkles;
                            description := js "Your personalized cover letter is ready.";
                            variant := None |}].
Proof. cbn. now rewrite <- app_assoc. Qed.

(** X14.  On a component at rest, a button that is enabled always sends
    its request: a click on either of the two buttons adds to the log the
    request and then one notice, which is never the validation notice
    titled [Error]. *)
Theorem enabled_buttons_send_the_request (net : Network) (c : Component) :
  reachable c ->
  (analyze_button_disabled c = false ->
   exists t,
     events (snd (handleAnalyze net c)) = events c ++ [Fetched (request_of c); Toasted t] /\
     title t <> js "Error") /\
  (cover_letter_button_disabled c = false ->
   exists t,
     events (snd (handleGenerateCoverLetter net c))
       = events c ++ [Fetched (request_of c); Toasted t] /\
     title t <> js "Error").
Proof.
  intros Hreach. destruct (reachable_at_rest c Hreach) as (Ht & _).
  split.
  - unfold analyze_button_disabled. intros H.
    apply orb_false_elim in H. destruct H as [H Hj].
    apply orb_false_elim in H. destruct H as [H Hr].
    apply orb_false_elim in H. destruct H as [_ Hf].
    apply negb_false_iff in Hj, Hr, Hf. rewrite Ht in Hr.
    rewrite (analyze_valid net c Hf Hr Hj). cbn [snd].
    destruct (net (request_of c)) as [e|resp];
      [|destruct (read_body resp) as [e|[| b | lit | s | l | ms]]];
      rewrite ?events_analysis_failed, ?events_analysis_stored;
      eexists; (split; [reflexivity|]);
      intros E; vm_compute in E; discriminate E.
  - unfold cover_letter_button_disabled. intros H.
    apply orb_false_elim in H. destruct H as [H Hj].
    apply orb_false_elim in H. destruct H as [H Hr].
    apply negb_false_iff in Hj, Hr. rewrite Ht in Hr.
    rewrite (cover_letter_valid net c Hr Hj). cbn [snd].
    repeat match goal with
           | |- context [match ?x with _ => _ end] => destruct x
           end;
      rewrite ?events_cover_letter_failed, ?events_cover_letter_stored;
      eexists; (split; [reflexivity|]);
      intros E; vm_compute in E; discriminate E.
Qed.

Lemma enabled_buttons_send_the_request_witness :
  let c := step (TypeJobDescription Samples.posting)
             (step (Upload Samples.renamed_pdf) initial) in
  exists t,
    events (snd (handleAnalyze (Samples.replying (JObject [])) c))
      = events c ++ [Fetched (request_of c); Toasted t] /\
    title t <> js "Error".
Proof.
  apply (proj1 (enabled_buttons_send_the_request
                  (Samples.replying (JObject []))
                  (step (TypeJobDescription Samples.posting)
                     (step (Upload Samples.renamed_pdf) initial))
                  ltac:(repeat apply reach_step; apply reach_initial))).
  vm_compute. reflexivity.
Defined.


(** X15.  An analysis that fails leaves the stored result as it was and
    shows the notice titled [Analysis failed]: so it is when the request
    is rejected, when the response is not OK, when its body cannot be read
    and when the body is [null]. *)
Theorem failed_analysis_keeps_result
  (net : Network) (c : Component) :
  has_file c = true ->
  truthy (trim (resumeText c)) = true ->
  truthy (trim (jobDescription c)) = true ->
  (exists e, net (request_of c) = inl e)
  \/ (exists resp,
        net (request_of c) = inr resp /\
        (ok resp = false \/ (exists e, json resp = inl e) \/ json resp = inr JNull)) ->
  exists err,
    handleAnalyze net c = (inr tt, analysis_failed c err) /\
    analysis (analysis_failed c err) = analysis c /\
    isAnalyzing (analysis_failed c err) = false.
Proof.
  intros Hf Hr Hj Hfail. rewrite (analyze_valid net c Hf Hr Hj).
  destruct Hfail as [[e ->] | (resp & -> & Hcase)].
  - exists e. repeat split.
  - unfold read_body.
    destruct Hcase as [Hok | [[e He] | Hnull]].
    + rewrite Hok. eexists. repeat split.
    + rewrite He. destruct (ok resp); eexists; repeat split.
    + rewrite Hnull. destruct (ok resp); eexists; repeat split.
Qed.

Lemma failed_analysis_keeps_result_witness :
  exists err,
    handleAnalyze (Samples.failing 500 (inl (ErrorObj (js "Unexpected end of JSON input"))))
      (step (Upload Samples.renamed_pdf) Samples.ready)
    = (inr tt, analysis_failed (step (Upload Samples.renamed_pdf) Samples.ready) err) /\
    analysis (analysis_failed (step (Upload Samples.renamed_pdf) Samples.ready) err)
    = Some Samples.earlier_result /\
    isAnalyzing (analysis_failed (step (Upload Samples.renamed_pdf) Samples.ready) err) = false.
Proof.
  apply (failed_analysis_keeps_result
           (Samples.failing 500 (inl (ErrorObj (js "Unexpected end of JSON input"))))
           (step (Upload Samples.renamed_pdf) Samples.ready)).
  - vm_compute. reflexivity.
  - vm_compute. reflexivity.
  - vm_compute. reflexivity.
  - right. eexists. split; [reflexivity|]. left. reflexivity.
Defined.

(** X16.  An analysis whose response is OK stores what the body holds and
    nothing of the earlier result: each array member that is an array,
    each text member that is a string, and the empty array or no text for
    a member that is missing or of another type.  Every body but [null]
    is accepted, so a body that is not an object is stored as a result
    without content. *)
Theorem analysis_replaces_the_result
  (net : Network) (c : Component) (resp : HttpResponse) (raw : JSON) :
  has_file c = true ->
  truthy (trim (resumeText c)) = true ->
  truthy (trim (jobDescription c)) = true ->
  net (request_of c) = inr resp ->
  ok resp = true ->
  json resp = inr raw ->
  raw <> JNull ->
  exists c',
    handleAnalyze net c = (inr tt, c') /\
    analysis c' =
      Some {| strengths := array_or_empty (optional_property raw (js "strengths"));
              improvements := array_or_empty (optional_property raw (js "improvements"));
              tailoring := array_or_empty (optional_property raw (js "tailoring"));
              customizedResume :=
                string_or_undefined (optional_property raw (js "customizedResume"));
              specificChanges :=
                string_or_undefined (optional_property raw (js "specificChanges"));
              coverLetter :=
                string_or_undefined (optional_property raw (js "coverLetter")) |} /\
    ((forall ms, raw <> JObject ms) ->
     analysis c' =
       Some {| strengths := []; improvements := []; tailoring := [];
               customizedResume := None; specificChanges := None;
               coverLetter := None |}).
Proof.
  intros Hf Hr Hj Hnet Hok Hjson Hraw.
  rewrite (analyze_valid net c Hf Hr Hj), Hnet. unfold read_body. rewrite Hok, Hjson.
  eexists. split; [reflexivity|].
  destruct raw as [| b | lit | s | l | ms]; try contradiction;
    (split; [reflexivity|]); intros Hno; try reflexivity.
  exfalso. exact (Hno ms eq_refl).
Qed.

Lemma analysis_replaces_the_result_witness :
  exists c',
    handleAnalyze (Samples.replying (JArray [JString (js "not an object")]))
      (step (Upload Samples.renamed_pdf) Samples.ready) = (inr tt, c') /\
    analysis c' =
      Some {| strengths := []; improvements := []; tailoring := [];
              customizedResume := None; specificChanges := None;
              coverLetter := None |}.
Proof.
  destruct (analysis_replaces_the_result
              (Samples.replying (JArray [JString (js "not an object")]))
              (step (Upload Samples.renamed_pdf) Samples.ready)
              {| ok := true; status := 200;
                 json := inr (JArray [JString (js "not an object")]) |}
              (JArray [JString (js "not an object")]))
    as (c' & Hrun & _ & Hempty);
    [vm_compute; reflexivity | vm_compute; reflexivity | vm_compute; reflexivity
     | reflexivity | reflexivity | reflexivity | discriminate |].
  exists c'. split; [exact Hrun|]. apply Hempty. discriminate.
Defined.

(** X17.  The message shown for a response that is not OK is the [error]
    member of its body when that member is a string that is not empty,
    and the words [Server error:] followed by the status when the body
    cannot be read or has no such member; both handlers show it. *)
Theorem not_ok_response_message
  (net : Network) (c : Component) (resp : HttpResponse) :
  has_file c = true ->
  truthy (trim (resumeText c)) = true ->
  truthy (trim (jobDescription c)) = true ->
  net (request_of c) = inr resp ->
  ok resp = false ->
  exists m,
    handleAnalyze net c = (inr tt, analysis_failed c (ErrorObj m)) /\
    handleGenerateCoverLetter net c = (inr tt, cover_letter_failed c (ErrorObj m)) /\
    (forall ms s,
       json resp = inr (JObject ms) ->
       lookup (js "error") ms = Some (JString s) ->
       truthy s = true ->
       m = s) /\
    ((exists e, json resp = inl e)
     \/ (exists v, json resp = inr v /\ optional_property v (js "error") = None) ->
     m = js "Server error: " ++ of_N (status resp)).
Proof.
  intros Hf Hr Hj Hnet Hok.
  exists (server_error_message resp).
  rewrite (analyze_valid net c Hf Hr Hj), (cover_letter_valid net c Hr Hj), Hnet.
  unfold read_body. rewrite Hok.
  split; [reflexivity|]. split; [reflexivity|].
  unfold server_error_message. split.
  - intros ms s Hjson Hl Hs. rewrite Hjson. cbn [optional_property]. rewrite Hl.
    cbn [ToBoolean ToString]. now rewrite Hs.
  - intros [[e He] | (v & Hv & Hnone)].
    + now rewrite He.
    + now rewrite Hv, Hnone.
Qed.

Lemma not_ok_response_message_witness :
  exists m,
    handleAnalyze (Samples.failing 502 (inl (ErrorObj (js "Unexpected token <"))))
      (step (Upload Samples.renamed_pdf) Samples.ready)
    = (inr tt, analysis_failed (step (Upload Samples.renamed_pdf) Samples.ready) (ErrorObj m)) /\
    m = js "Server error: 502".
Proof.
  destruct (not_ok_response_message
              (Samples.failing 502 (inl (ErrorObj (js "Unexpected token <"))))
              (step (Upload Samples.renamed_pdf) Samples.ready)
              {| ok := false; status := 502;
                 json := inl (ErrorObj (js "Unexpected token <")) |})
    as (m & Hrun & _ & _ & Hm);
    [vm_compute; reflexivity | vm_compute; reflexivity | vm_compute; reflexivity
     | reflexivity | reflexivity |].
  exists m. split; [exact Hrun|].
  rewrite Hm by (left; eexists; reflexivity). vm_compute. reflexivity.
Defined.


(** A field is shown when it holds a string that is not empty. *)
Lemma shown_filled (f : option jsstring) :
  shown f = true <-> exists s, f = Some s /\ s <> [].
Proof.
  destruct f as [[|x s]|]; cbn [shown truthy]; split; intros H;
    try discriminate H; try reflexivity.
  - destruct H as (s & E & Hs). injection E as <-. now destruct Hs.
  - exists (x :: s). split; [reflexivity | discriminate].
  - destruct H as (s & E & _). discriminate E.
Qed.

Ltac contradict_shown :=
  match goal with
  | H : exists s, ?f = Some s /\ s <> [], E : shown ?f = false |- _ =>
      apply shown_filled in H; rewrite E in H; discriminate H
  | H : ~ (exists s, ?f = Some s /\ s <> []), E : shown ?f = true |- _ =>
      exfalso; apply H; apply shown_filled; exact E
  end.

(** X18.  The effect that follows a change of the result selects a tab
    that is rendered.  A field counts when it holds a string that is not
    empty.  The effect selects the changes tab if the specific changes
    count; else the customized tab if the customized resume counts; else
    the cover-letter tab if the cover letter counts; else it leaves the
    component as it is.  The triggers rendered are exactly those of the
    fields that count, the tab selected is among them, and the column
    class of the list counts them. *)
Theorem selected_tab_is_rendered (c : Component) (a : ResumeAnalysis) :
  analysis c = Some a ->
  let changes := exists s, specificChanges a = Some s /\ s <> [] in
  let customized := exists s, customizedResume a = Some s /\ s <> [] in
  let letter := exists s, coverLetter a = Some s /\ s <> [] in
  (changes -> activeTab (sync_active_tab c) = js "changes") /\
  (~ changes -> customized -> activeTab (sync_active_tab c) = js "customized") /\
  (~ changes -> ~ customized -> letter ->
   activeTab (sync_active_tab c) = js "coverLetter") /\
  (~ changes -> ~ customized -> ~ letter -> sync_active_tab c = c) /\
  (forall tab,
     In tab (tab_triggers a) <->
     (tab = js "coverLetter" /\ letter) \/ (tab = js "changes" /\ changes)
     \/ (tab = js "customized" /\ customized)) /\
  (tab_triggers a <> [] -> In (activeTab (sync_active_tab c)) (tab_triggers a)) /\
  tabs_grid a
  = js "grid-cols-" ++ of_N (N.max 1 (N.of_nat (List.length (tab_triggers a)))).
Proof.
  intros Ha. cbv zeta. unfold sync_active_tab, tab_triggers, tabs_grid. rewrite Ha.
  cbn [List.filter].
  destruct (shown (specificChanges a)) eqn:E1, (shown (customizedResume a)) eqn:E2,
    (shown (coverLetter a)) eqn:E3;
    cbn [activeTab with_activeTab app List.length];
    (split; [intros; first [reflexivity | contradict_shown]|]);
    (split; [intros; first [reflexivity | contradict_shown]|]);
    (split; [intros; first [reflexivity | contradict_shown]|]);
    (split; [intros; first [reflexivity | contradict_shown]|]);
    (split;
     [intros tab; split;
      [intros Hin; cbn [In] in Hin;
       repeat match goal with
              | H : _ \/ _ |- _ => destruct H as [<-|H]
              | H : False |- _ => destruct H
              end;
       first [ left; split; [reflexivity | apply shown_filled; assumption]
             | right; left; split; [reflexivity | apply shown_filled; assumption]
             | right; right; split; [reflexivity | apply shown_filled; assumption] ]
      | intros [[-> H]|[[-> H]|[-> H]]];
        first [contradict_shown | cbn [In]; auto]]|]);
    (split; [intros H; first [now left | right; now left | right; right; now left
                             | contradiction]|]);
    reflexivity.
Qed.

Lemma selected_tab_is_rendered_witness :
  activeTab (sync_active_tab
               (with_analysis
                  (Some {| strengths := []; improvements := []; tailoring := [];
                           customizedResume := Some (js "Jane Poe");
                           specificChanges := Some [];
                           coverLetter := Some (js "Dear team,") |})
                  initial))
  = js "customized".
Proof.
  apply (proj1 (proj2 (selected_tab_is_rendered
                         (with_analysis
                            (Some {| strengths := []; improvements := []; tailoring := [];
                                     customizedResume := Some (js "Jane Poe");
                                     specificChanges := Some [];
                                     coverLetter := Some (js "Dear team,") |})
                            initial)
                         {| strengths := []; improvements := []; tailoring := [];
                            customizedResume := Some (js "Jane Poe");
                            specificChanges := Some [];
                            coverLetter := Some (js "Dear team,") |}
                         eq_refl))).
  - intros (s & E & Hs). injection E as <-. now apply Hs.
  - exists (js "Jane Poe"). split; [reflexivity | discriminate].
Defined.

(** X19.  A cover letter generated on its own does not stay in front: the
    handler selects the cover-letter tab, and the effect that follows the
    change of the result moves to the changes tab whenever the stored
    result holds specific changes. *)
Theorem cover_letter_tab_yields_to_changes
  (net : Network) (c : Component) (resp : HttpResponse) (raw : JSON)
  (text : jsstring) (prev : ResumeAnalysis) :
  truthy (trim (resumeText c)) = true ->
  truthy (trim (jobDescription c)) = true ->
  net (request_of c) = inr resp ->
  ok resp = true ->
  json resp = inr raw ->
  optional_property raw (js "coverLetter") = Some (JString text) ->
  truthy text = true ->
  includes text (js "generation failed") = false ->
  includes text (js "empty response") = false ->
  analysis c = Some prev ->
  shown (specificChanges prev) = true ->
  let c' := snd (handleGenerateCoverLetter net c) in
  activeTab c' = js "coverLetter" /\
  activeTab (sync_active_tab c') = js "changes".
Proof.
  intros Hr Hj Hnet Hok Hjson Hcl Ht Hg He Hprev Hshown c'. subst c'.
  rewrite (cover_letter_valid net c Hr Hj), Hnet. unfold read_body. rewrite Hok, Hjson.
  destruct raw as [| b | lit | s | l | ms]; try discriminate Hcl.
  rewrite Hcl, Ht, Hg, He. cbn [orb snd]. split; [reflexivity|].
  unfold sync_active_tab.
  cbn [analysis cover_letter_stored with_isGeneratingCoverLetter emit with_activeTab
       with_analysis].
  rewrite Hprev. cbn [merge_cover_letter specificChanges]. rewrite Hshown. reflexivity.
Qed.

Lemma cover_letter_tab_yields_to_changes_witness :
  let c' := snd (handleGenerateCoverLetter
                   (Samples.replying (JObject [(js "coverLetter", JString (js "Dear team,"))]))
                   Samples.ready) in
  activeTab c' = js "coverLetter" /\
  activeTab (sync_active_tab c') = js "changes".
Proof.
  apply (cover_letter_tab_yields_to_changes
           (Samples.replying (JObject [(js "coverLetter", JString (js "Dear team,"))]))
           Samples.ready
           {| ok := true; status := 200;
              json := inr (JObject [(js "coverLetter", JString (js "Dear team,"))]) |}
           (JObject [(js "coverLetter", JString (js "Dear team,"))])
           (js "Dear team,") Samples.earlier_result);
    try reflexivity; vm_compute; reflexivity.
Defined.

(** X20.  The step indicator follows the analysis: once an analysis has
    stored a result the current step is 3 and steps 1 and 2 are shown as
    completed, while an analysis that fails leaves the current step where
    it was; the current step is always 1, 2 or 3, and step 2 is shown as
    completed exactly when the current step is 3. *)
Theorem step_indicator_follows_analysis (net : Network) (c : Component) :
  has_file c = true ->
  truthy (trim (resumeText c)) = true ->
  truthy (trim (jobDescription c)) = true ->
  let c' := snd (handleAnalyze net c) in
  (analysis c' <> analysis c ->
   getCurrentStep c' = 3%Z /\ isStepCompleted c' 1 = true /\ isStepCompleted c' 2 = true) /\
  (analysis c' = analysis c -> getCurrentStep c' = getCurrentStep c) /\
  (1 <= getCurrentStep c' <= 3)%Z /\
  (isStepCompleted c' 2 = true <-> getCurrentStep c' = 3%Z).
Proof.
  intros Hf Hr Hj c'. subst c'. rewrite (analyze_valid net c Hf Hr Hj). cbn [snd].
  assert (Hgen : forall x : Component,
            (1 <= getCurrentStep x <= 3)%Z /\
            (isStepCompleted x 2 = true <-> getCurrentStep x = 3%Z)).
  { intros x. unfold getCurrentStep, isStepCompleted. cbn [Z.eqb].
    destruct (has_analysis x), (has_file x), (truthy (trim (jobDescription x)));
      cbn [andb]; repeat split; try lia; try discriminate; reflexivity. }
  assert (Hfail : forall e, getCurrentStep (analysis_failed c e) = getCurrentStep c)
    by reflexivity.
  assert (Hstored : forall a,
            getCurrentStep (analysis_stored c a) = 3%Z /\
            isStepCompleted (analysis_stored c a) 1 = true /\
            isStepCompleted (analysis_stored c a) 2 = true).
  { intros a. unfold getCurrentStep, isStepCompleted, has_analysis, has_file in *.
    cbn [analysis uploadedFile analysis_stored analysis_started with_isAnalyzing emit
         with_analysis Z.eqb].
    destruct (uploadedFile c); [repeat split | discriminate]. }
  destruct (net (request_of c)) as [e|resp];
    [|destruct (read_body resp) as [e|[| b | lit | s | l | ms]]];
    (split; [|split; [|apply Hgen]]);
    try (intros H; exfalso; apply H; reflexivity);
    try (intros _; apply Hfail);
    try (intros _; apply Hstored).
  all: intros H; unfold getCurrentStep, has_analysis, has_file in *;
    cbn [analysis uploadedFile jobDescription analysis_stored analysis_started
         with_isAnalyzing emit with_analysis] in *;
    destruct (analysis c); [reflexivity | discriminate H].
Qed.

Lemma step_indicator_follows_analysis_witness :
  let c' := snd (handleAnalyze (Samples.replying (JObject []))
                   (step (TypeJobDescription Samples.posting)
                      (step (Upload Samples.renamed_pdf) initial))) in
  getCurrentStep c' = 3%Z /\ isStepCompleted c' 1 = true /\ isStepCompleted c' 2 = true.
Proof.
  apply (proj1 (step_indicator_follows_analysis
                  (Samples.replying (JObject []))
                  (step (TypeJobDescription Samples.posting)
                     (step (Upload Samples.renamed_pdf) initial))
                  ltac:(vm_compute; reflexivity) ltac:(vm_compute; reflexivity)
                  ltac:(vm_compute; reflexivity))).
  vm_compute. discriminate.
Defined.

End ClientProperties.

(* ===================================================================== *)
(** * Client and server together *)
(* ===================================================================== *)

Section EndToEnd.

Import Client.
Import Page.
Local Open Scope list_scope.

(** What the client reads is what the server wrote. *)
Lemma coerce_wire (a : Server.Analysis) :
  coerce (Wire.analysis_json a) = Wire.client_view a.
Proof.
  destruct a as [s i t [cr|] [sc|] [cl|]]; reflexivity.
Qed.

Lemma wire_cover_letter (a : Server.Analysis) :
  optional_property (Wire.analysis_json a) (js "coverLetter")
  = option_map JString (Server.coverLetter a).
Proof.
  destruct a as [s i t [cr|] [sc|] [cl|]]; reflexivity.
Qed.

Lemma read_body_analysis (a : Server.Analysis) :
  read_body (Wire.http_of {| Server.status := 200; Server.payload := Server.AnalysisPayload a |})
  = inr (Wire.analysis_json a).
Proof. reflexivity. Qed.

Lemma failure_notice_marked (e : thrown) :
  includes (Server.failure_notice e) (js "generation failed") = true.
Proof.
  change (Server.failure_notice e)
    with (js "Cover letter " ++ js "generation failed"
          ++ (js ": " ++ message_or e (js "Unknown error") ++ js ". Please try again.")).
  apply includes_app.
Qed.

(** The body of the client's request is the body of a full run, and it
    arrives at the server as it was sent. *)
Lemma request_body_arrives (resumeText jobDescription : jsstring) :
  body (analyze_request resumeText jobDescription)
  = Server.texts_body resumeText (trim jobDescription) /\
  Wire.received (Server.texts_body resumeText (trim jobDescription))
  = Server.texts_body resumeText (trim jobDescription).
Proof. split; reflexivity. Qed.

Variable openai : Server.OpenAI.
Variable net : Network.
Variable c : Component.

(** The network hands the client the response of a full run on the text
    and the trimmed job description the client sent. *)
Let delivered : Prop :=
  net (request_of c)
  = inr (Wire.http_of
           (fst (Server.full_run openai (resumeText c) (trim (jobDescription c))))).

(** Strings arrive as they were sent. *)
Lemma received_strings (l : list JSON) :
  forallb Server.is_string l = true -> List.map Wire.received l = l.
Proof.
  induction l as [|x l IH]; [reflexivity|].
  cbn [forallb List.map]. intros H. apply andb_prop in H. destruct H as [Hx Hl].
  rewrite (IH Hl). destruct x; try discriminate Hx. reflexivity.
Qed.

(** The object the handler starts from holds strings only, so the client
    reads it as it is. *)
Lemma fallback_arrives_unchanged :
  Wire.client_view Server.fallback_analysis
  = {| strengths := Server.strengths Server.fallback_analysis;
       improvements := Server.improvements Server.fallback_analysis;
       tailoring := Server.tailoring Server.fallback_analysis;
       customizedResume := None;
       specificChanges := None;
       coverLetter := None |}.
Proof. reflexivity. Qed.

(** A number too large for a Number value arrives as [null], a negative
    zero as zero, and of two members with one key the last arrives alone. *)
Lemma received_changes_values :
  Wire.received (JArray [ JNumber (js "1e400"); JNumber (js "-0");
                          JNumber (js "1.50"); JString (js "1e400");
                          JObject [ (js "a", JNull); (js "1", JNull);
                                    (js "a", JBool true) ] ])
  = JArray [ JNull; JNumber (js "0"); JNumber (js "1.5"); JString (js "1e400");
             JObject [ (js "1", JNull); (js "a", JBool true) ] ].
Proof. vm_compute. reflexivity. Qed.

(** X21.  What an analysis stores is what arrives of the result the
    server's handler returned.  Each optional text is stored as it is when
    present and nothing is stored when it is absent; the elements of the
    three arrays are stored as JSON carries them, which for an array of
    strings is the array itself. *)
Theorem analysis_stores_what_arrives :
  has_file c = true ->
  truthy (trim (resumeText c)) = true ->
  truthy (trim (jobDescription c)) = true ->
  delivered ->
  exists a stored,
    Server.result_of
      (fst (Server.full_run openai (resumeText c) (trim (jobDescription c)))) = Some a /\
    handleAnalyze net c = (inr tt, analysis_stored c stored) /\
    analysis (analysis_stored c stored) = Some stored /\
    strengths stored = List.map Wire.received (Server.strengths a) /\
    improvements stored = List.map Wire.received (Server.improvements a) /\
    tailoring stored = List.map Wire.received (Server.tailoring a) /\
    customizedResume stored = Server.customizedResume a /\
    specificChanges stored = Server.specificChanges a /\
    coverLetter stored = Server.coverLetter a /\
    (forallb Server.is_string (Server.strengths a) = true ->
     strengths stored = Server.strengths a) /\
    (forallb Server.is_string (Server.improvements a) = true ->
     improvements stored = Server.improvements a) /\
    (forallb Server.is_string (Server.tailoring a) = true ->
     tailoring stored = Server.tailoring a).
Proof.
  intros Hf Hr Hj Hnet. unfold delivered in Hnet.
  destruct (full_run_answers openai (resumeText c) (trim (jobDescription c)) Hr)
    as (a & tr & E).
  rewrite E in Hnet |- *. cbn [fst] in Hnet |- *.
  exists a, (Wire.client_view a). split; [reflexivity|]. split.
  - rewrite (analyze_valid net c Hf Hr Hj), Hnet, read_body_analysis.
    rewrite <- coerce_wire.
    destruct a as [s i t cr sc cl]. reflexivity.
  - split; [reflexivity|].
    unfold Wire.client_view.
    cbn [strengths improvements tailoring customizedResume specificChanges coverLetter].
    repeat (split; [reflexivity|]).
    split; [|split]; apply received_strings.
Qed.

(** X22.  An outage of the completion service looks like a success in the
    client: when the analysis call is rejected, the analysis stores the
    fixed fallback advice and shows the notice of a completed analysis. *)
Theorem outage_is_shown_as_success (e : thrown) :
  has_file c = true ->
  truthy (trim (resumeText c)) = true ->
  truthy (trim (jobDescription c)) = true ->
  delivered ->
  openai [] (Server.analysis_request (resumeText c) (trim (jobDescription c))) = inl e ->
  exists c',
    handleAnalyze net c = (inr tt, c') /\
    analysis c' = Some (Wire.client_view Server.fallback_analysis) /\
    events c' = events c ++ [Fetched (request_of c);
                             Toasted {| title := js "Analysis Complete! " ++ sparkles;
                                        description := js "Your resume has been analyzed with AI.";
                                        variant := None |}].
Proof.
  intros Hf Hr Hj Hnet He. unfold delivered in Hnet.
  rewrite (full_run_rejected openai _ _ e Hr He) in Hnet. cbn [fst] in Hnet.
  rewrite (analyze_valid net c Hf Hr Hj), Hnet.
  eexists. split; [reflexivity|]. split; [reflexivity|].
  apply events_analysis_stored.
Qed.


(** The result of a run whose later tasks ran, as the client reads it. *)
Lemma delivered_answered (ra : Server.ChatCompletion) :
  truthy (trim (resumeText c)) = true ->
  truthy (trim (jobDescription c)) = true ->
  delivered ->
  openai [] (Server.analysis_request (resumeText c) (trim (jobDescription c))) = inr ra ->
  exists a,
    net (request_of c)
    = inr (Wire.http_of {| Server.status := 200; Server.payload := Server.AnalysisPayload a |}) /\
    Server.coverLetter a
    = Some match openai [Server.analysis_request (resumeText c) (trim (jobDescription c));
                         Server.customize_request (resumeText c) (trim (jobDescription c));
                         Server.changes_request (resumeText c) (trim (jobDescription c))]
                        (Server.cover_letter_request (resumeText c) (trim (jobDescription c)))
           with
           | inl e => Server.failure_notice e
           | inr r => if truthy (trim (Server.first_content r))
                      then trim (Server.first_content r)
                      else Server.empty_response_notice
           end /\
    snd (Server.full_run openai (resumeText c) (trim (jobDescription c)))
    = [Server.analysis_request (resumeText c) (trim (jobDescription c));
       Server.customize_request (resumeText c) (trim (jobDescription c));
       Server.changes_request (resumeText c) (trim (jobDescription c));
       Server.cover_letter_request (resumeText c) (trim (jobDescription c))].
Proof.
  intros Hr Hj Hnet Ha. unfold delivered in Hnet.
  assert (Hj' : truthy (trim (trim (jobDescription c))) = true)
    by now rewrite trim_idem.
  destruct (optional_fields_by_call_aux openai _ _ ra Hr Hj' Ha) as (a & Hres & _ & _ & Hcl).
  pose proof (requests_of_a_full_run_aux openai (resumeText c) (trim (jobDescription c)) Hr) as Htr.
  rewrite Ha, Hj' in Htr.
  destruct (full_run_answers openai (resumeText c) (trim (jobDescription c)) Hr)
    as (a' & tr & E).
  rewrite E in Hres, Hnet, Htr |- *. cbn [fst snd] in *.
  cbn [Server.result_of Server.payload] in Hres. injection Hres as ->.
  exists a. split; [exact Hnet|]. split; [exact Hcl | exact Htr].
Qed.

(** X23.  A notice the server stores in place of a letter never reaches
    the stored result of a cover-letter-only run.  When the cover-letter
    call is rejected, or answered with blank text, the cover-letter-only
    run ends in its failure notice, whose text is the server's notice,
    and keeps the stored result; the very same response is stored by an
    analysis, notice included. *)
Theorem server_notice_is_shown_not_stored (ra : Server.ChatCompletion) :
  has_file c = true ->
  truthy (trim (resumeText c)) = true ->
  truthy (trim (jobDescription c)) = true ->
  delivered ->
  openai [] (Server.analysis_request (resumeText c) (trim (jobDescription c))) = inr ra ->
  forall notice,
    ((exists e,
        openai [Server.analysis_request (resumeText c) (trim (jobDescription c));
                Server.customize_request (resumeText c) (trim (jobDescription c));
                Server.changes_request (resumeText c) (trim (jobDescription c))]
               (Server.cover_letter_request (resumeText c) (trim (jobDescription c)))
        = inl e /\ notice = Server.failure_notice e)
     \/ (exists r,
           openai [Server.analysis_request (resumeText c) (trim (jobDescription c));
                   Server.customize_request (resumeText c) (trim (jobDescription c));
                   Server.changes_request (resumeText c) (trim (jobDescription c))]
                  (Server.cover_letter_request (resumeText c) (trim (jobDescription c)))
           = inr r /\ trim (Server.first_content r) = []
           /\ notice = Server.empty_response_notice)) ->
    handleGenerateCoverLetter net c = (inr tt, cover_letter_failed c (ErrorObj notice)) /\
    analysis (cover_letter_failed c (ErrorObj notice)) = analysis c /\
    exists c',
      handleAnalyze net c = (inr tt, c') /\
      exists stored, analysis c' = Some stored /\ coverLetter stored = Some notice.
Proof.
  intros Hf Hr Hj Hnet Ha notice Hcase.
  destruct (delivered_answered ra Hr Hj Hnet Ha) as (a & Hresp & Hcl & _).
  assert (Hnotice : Server.coverLetter a = Some notice /\
                    truthy notice = true /\
                    includes notice (js "generation failed")
                    || includes notice (js "empty response") = true).
  { destruct Hcase as [(e & He & ->) | (r & Hr' & Hblank & ->)].
    - rewrite He in Hcl. split; [exact Hcl|]. split; [reflexivity|].
      now rewrite failure_notice_marked.
    - rewrite Hr', Hblank in Hcl. split; [exact Hcl|]. split; [reflexivity|].
      vm_compute. reflexivity. }
  destruct Hnotice as (Hsome & Htruthy & Hmarked).
  split; [|split; [reflexivity|]].
  - rewrite (cover_letter_valid net c Hr Hj), Hresp, read_body_analysis.
    pose proof (wire_cover_letter a) as Hw. rewrite Hsome in Hw. cbn [option_map] in Hw.
    destruct a as [s i t cr sc cl].
    cbn [Wire.analysis_json] in *. rewrite Hw, Htruthy, Hmarked. reflexivity.
  - rewrite (analyze_valid net c Hf Hr Hj), Hresp, read_body_analysis.
    eexists. split; [destruct a; reflexivity|].
    eexists. split; [reflexivity|].
    rewrite coerce_wire. exact Hsome.
Qed.

(** X24.  A cover-letter-only run is not a smaller run for the server: it
    posts to the same handler, which issues all four requests, and of the
    result that comes back the client keeps the letter alone.  When the
    letter holds neither of the two marker phrases, the stored result is
    the earlier one with its cover letter replaced by the trimmed text of
    the cover-letter call. *)
Theorem cover_letter_only_costs_four_requests
  (ra r : Server.ChatCompletion) (prev : ResumeAnalysis) :
  truthy (trim (resumeText c)) = true ->
  truthy (trim (jobDescription c)) = true ->
  delivered ->
  openai [] (Server.analysis_request (resumeText c) (trim (jobDescription c))) = inr ra ->
  openai [Server.analysis_request (resumeText c) (trim (jobDescription c));
          Server.customize_request (resumeText c) (trim (jobDescription c));
          Server.changes_request (resumeText c) (trim (jobDescription c))]
         (Server.cover_letter_request (resumeText c) (trim (jobDescription c))) = inr r ->
  truthy (trim (Server.first_content r)) = true ->
  includes (trim (Server.first_content r)) (js "generation failed") = false ->
  includes (trim (Server.first_content r)) (js "empty response") = false ->
  analysis c = Some prev ->
  List.length (snd (Server.full_run openai (resumeText c) (trim (jobDescription c)))) = 4%nat /\
  exists c',
    handleGenerateCoverLetter net c = (inr tt, c') /\
    analysis c' =
      Some {| strengths := strengths prev;
              improvements := improvements prev;
              tailoring := tailoring prev;
              customizedResume := customizedResume prev;
              specificChanges := specificChanges prev;
              coverLetter := Some (trim (Server.first_content r)) |}.
Proof.
  intros Hr Hj Hnet Ha Hcall Ht Hg He Hprev.
  destruct (delivered_answered ra Hr Hj Hnet Ha) as (a & Hresp & Hcl & Htr).
  rewrite Htr. split; [reflexivity|].
  rewrite Hcall, Ht in Hcl.
  rewrite (cover_letter_valid net c Hr Hj), Hresp, read_body_analysis.
  pose proof (wire_cover_letter a) as Hw. rewrite Hcl in Hw. cbn [option_map] in Hw.
  destruct a as [s i t cr sc cl].
  cbn [Wire.analysis_json] in *. rewrite Hw, Ht, Hg, He. cbn [orb].
  eexists. split; [reflexivity|].
  cbn [analysis cover_letter_stored with_isGeneratingCoverLetter emit with_activeTab
       with_analysis].
  rewrite Hprev. reflexivity.
Qed.

(** X25.  Without an API key on the server both runs end with the notice
    the server wrote, [OpenAI API key not configured], and keep the stored
    result. *)
Theorem missing_api_key_reaches_the_user (body : option JSON) :
  has_file c = true ->
  truthy (trim (resumeText c)) = true ->
  truthy (trim (jobDescription c)) = true ->
  net (request_of c) = inr (Wire.http_of (fst (Server.analyze_resume None body))) ->
  handleAnalyze net c
  = (inr tt, analysis_failed c (ErrorObj (js "OpenAI API key not configured"))) /\
  handleGenerateCoverLetter net c
  = (inr tt, cover_letter_failed c (ErrorObj (js "OpenAI API key not configured"))) /\
  analysis (analysis_failed c (ErrorObj (js "OpenAI API key not configured"))) = analysis c /\
  analysis (cover_letter_failed c (ErrorObj (js "OpenAI API key not configured")))
  = analysis c.
Proof.
  intros Hf Hr Hj Hnet.
  rewrite (analyze_valid net c Hf Hr Hj), (cover_letter_valid net c Hr Hj), Hnet.
  repeat split.
Qed.

End EndToEnd.

Section EndToEndRuns.

Import Client.
Import Page.
Local Open Scope list_scope.

Lemma analysis_stores_what_arrives_witness :
  exists a stored,
    Server.result_of
      (fst (Server.full_run
              (Samples.scripted [Samples.answer (tpl "{`strengths`:[1e400,`Rust`]}");
                                 Samples.answer (js "Jane Poe");
                                 Samples.answer (js "SECTION: Skills");
                                 Samples.answer (js "Dear team,")])
              Samples.resume (trim Samples.posting))) = Some a /\
    handleAnalyze
      (Wire.delivering
         (Samples.scripted [Samples.answer (tpl "{`strengths`:[1e400,`Rust`]}");
                            Samples.answer (js "Jane Poe");
                            Samples.answer (js "SECTION: Skills");
                            Samples.answer (js "Dear team,")])
         Samples.resume (trim Samples.posting))
      Samples.loaded
    = (inr tt, analysis_stored Samples.loaded stored) /\
    Server.strengths a = [JNumber (js "1e400"); JString (js "Rust")] /\
    strengths stored = [JNull; JString (js "Rust")] /\
    coverLetter stored = Some (js "Dear team,").
Proof.
  destruct (analysis_stores_what_arrives
              (Samples.scripted [Samples.answer (tpl "{`strengths`:[1e400,`Rust`]}");
                                 Samples.answer (js "Jane Poe");
                                 Samples.answer (js "SECTION: Skills");
                                 Samples.answer (js "Dear team,")])
              (Wire.delivering
                 (Samples.scripted [Samples.answer (tpl "{`strengths`:[1e400,`Rust`]}");
                                    Samples.answer (js "Jane Poe");
                                    Samples.answer (js "SECTION: Skills");
                                    Samples.answer (js "Dear team,")])
                 Samples.resume (trim Samples.posting))
              Samples.loaded)
    as (a & stored & Ha & Hrun & _ & Hs & _ & _ & _ & _ & Hcl & _);
    [reflexivity | vm_compute; reflexivity | vm_compute; reflexivity | reflexivity |].
  exists a, stored. split; [exact Ha|]. split; [exact Hrun|].
  vm_compute in Ha. injection Ha as <-.
  rewrite Hs, Hcl. repeat split; vm_compute; reflexivity.
Defined.

Lemma outage_is_shown_as_success_witness :
  exists c',
    handleAnalyze
      (Wire.delivering (Samples.scripted [Samples.rejection "quota exceeded"])
         Samples.resume (trim Samples.posting))
      Samples.loaded = (inr tt, c') /\
    analysis c' = Some (Wire.client_view Server.fallback_analysis) /\
    events c' = events Samples.loaded
                ++ [Fetched (request_of Samples.loaded);
                    Toasted {| title := js "Analysis Complete! " ++ sparkles;
                               description := js "Your resume has been analyzed with AI.";
                               variant := None |}].
Proof.
  apply (outage_is_shown_as_success
           (Samples.scripted [Samples.rejection "quota exceeded"])
           (Wire.delivering (Samples.scripted [Samples.rejection "quota exceeded"])
              Samples.resume (trim Samples.posting))
           Samples.loaded (ErrorObj (js "quota exceeded")));
    first [reflexivity | vm_compute; reflexivity].
Defined.

Lemma server_notice_is_shown_not_stored_witness :
  let openai := Samples.scripted [Samples.answer (js "{}"); Samples.answer (js "Jane Poe");
                                  Samples.answer (js "SECTION: Skills");
                                  Samples.rejection "429 rate limit"] in
  let net := Wire.delivering openai Samples.resume (trim Samples.posting) in
  let notice := js "Cover letter generation failed: 429 rate limit. Please try again." in
  handleGenerateCoverLetter net Samples.loaded
  = (inr tt, cover_letter_failed Samples.loaded (ErrorObj notice)) /\
  analysis (cover_letter_failed Samples.loaded (ErrorObj notice)) = analysis Samples.loaded /\
  exists c',
    handleAnalyze net Samples.loaded = (inr tt, c') /\
    exists stored, analysis c' = Some stored /\ coverLetter stored = Some notice.
Proof.
  cbv zeta.
  apply (server_notice_is_shown_not_stored
           (Samples.scripted [Samples.answer (js "{}"); Samples.answer (js "Jane Poe");
                              Samples.answer (js "SECTION: Skills");
                              Samples.rejection "429 rate limit"])
           (Wire.delivering
              (Samples.scripted [Samples.answer (js "{}"); Samples.answer (js "Jane Poe");
                                 Samples.answer (js "SECTION: Skills");
                                 Samples.rejection "429 rate limit"])
              Samples.resume (trim Samples.posting))
           Samples.loaded
           {| Server.choices :=
                [ {| Server.message :=
                       Some {| Server.message_content := Some (js "{}") |} |} ] |}).
  - reflexivity.
  - vm_compute. reflexivity.
  - vm_compute. reflexivity.
  - reflexivity.
  - reflexivity.
  - left. exists (ErrorObj (js "429 rate limit")). split; reflexivity.
Defined.

Lemma cover_letter_only_costs_four_requests_witness :
  let openai := Samples.scripted [Samples.answer (js "{}"); Samples.answer (js "Jane Poe");
                                  Samples.answer (js "SECTION: Skills");
                                  Samples.answer (js " Dear team, ")] in
  List.length (snd (Server.full_run openai Samples.resume (trim Samples.posting))) = 4%nat /\
  exists c',
    handleGenerateCoverLetter (Wire.delivering openai Samples.resume (trim Samples.posting))
      Samples.loaded = (inr tt, c') /\
    analysis c' =
      Some {| strengths := [JString (js "Clear impact statements")];
              improvements := [JString (js "Add metrics")];
              tailoring := [];
              customizedResume := Some (js "Jane Poe, backend engineer");
              specificChanges := Some (js "SECTION: Skills");
              coverLetter := Some (js "Dear team,") |}.
Proof.
  cbv zeta.
  apply (cover_letter_only_costs_four_requests
           (Samples.scripted [Samples.answer (js "{}"); Samples.answer (js "Jane Poe");
                              Samples.answer (js "SECTION: Skills");
                              Samples.answer (js " Dear team, ")])
           (Wire.delivering
              (Samples.scripted [Samples.answer (js "{}"); Samples.answer (js "Jane Poe");
                                 Samples.answer (js "SECTION: Skills");
                                 Samples.answer (js " Dear team, ")])
              Samples.resume (trim Samples.posting))
           Samples.loaded
           {| Server.choices :=
                [ {| Server.message :=
                       Some {| Server.message_content := Some (js "{}") |} |} ] |}
           {| Server.choices :=
                [ {| Server.message :=
                       Some {| Server.message_content := Some (js " Dear team, ") |} |} ] |}
           Samples.earlier_result);
    first [reflexivity | vm_compute; reflexivity].
Defined.

Lemma missing_api_key_reaches_the_user_witness :
  handleAnalyze
    (fun _ => inr (Wire.http_of (fst (Server.analyze_resume None None))))
    Samples.loaded
  = (inr tt, analysis_failed Samples.loaded (ErrorObj (js "OpenAI API key not configured"))).
Proof.
  apply (missing_api_key_reaches_the_user
           (fun _ => inr (Wire.http_of (fst (Server.analyze_resume None None))))
           Samples.loaded None);
    first [reflexivity | vm_compute; reflexivity].
Defined.

End EndToEndRuns.

(* ===================================================================== *)
(** * The client: rendering the list of specific changes *)
(* ===================================================================== *)

Section ChangesRendering.

Import ChangesView.
Local Open Scope list_scope.

Lemma split_lines_not_nil (s : jsstring) : split_lines s <> [].
Proof.
  induction s as [|c r IH]; cbn [split_lines]; [discriminate|].
  destruct (c =? 10)%N; [discriminate|].
  destruct (split_lines r); [contradiction | discriminate].
Qed.

Lemma split_lines_length (s : jsstring) :
  List.length (split_lines s) = S (count_occ N.eq_dec s 10%N).
Proof.
  induction s as [|c r IH]; [reflexivity|].
  cbn [split_lines count_occ].
  destruct (N.eqb_spec c 10) as [->|Hne].
  - destruct (N.eq_dec 10 10) as [_|H]; [|contradiction]. cbn [List.length]. now rewrite IH.
  - destruct (N.eq_dec c 10) as [H|_]; [contradiction|].
    pose proof (split_lines_not_nil r) as Hnn.
    destruct (split_lines r) as [|line rest]; [contradiction|]. exact IH.
Qed.

Lemma split_lines_plain (s : jsstring) : ~ In 10%N s -> split_lines s = [s].
Proof.
  induction s as [|c r IH]; intros Hn; [reflexivity|].
  cbn [split_lines]. destruct (N.eqb_spec c 10) as [->|Hne].
  - exfalso. apply Hn. now left.
  - rewrite IH by (intros H; apply Hn; now right). reflexivity.
Qed.

Lemma split_lines_app (a b : jsstring) :
  ~ In 10%N a -> split_lines (a ++ 10%N :: b) = a :: split_lines b.
Proof.
  induction a as [|c r IH]; intros Hn; [reflexivity|].
  cbn [app split_lines]. destruct (N.eqb_spec c 10) as [->|Hne].
  - exfalso. apply Hn. now left.
  - rewrite IH by (intros H; apply Hn; now right). reflexivity.
Qed.

(** X26.  The list shows one row for every line of the text: as many rows
    as the text has line feeds, plus one, so no line is dropped and the
    list is never empty. *)
Theorem one_row_per_line (specificChanges : jsstring) :
  List.length (render specificChanges)
  = S (count_occ N.eq_dec specificChanges 10%N).
Proof.
  unfold render. rewrite length_map. apply split_lines_length.
Qed.

(** A line made of a label and a text is trimmed to the label and the
    text without its trailing white space. *)
Lemma trim_labelled (label : jsstring) (colon : N) (x : jsstring) :
  is_whitespace colon = false ->
  (exists h t, label = h :: t /\ is_whitespace h = false) ->
  trim ((label ++ [colon]) ++ x) = (label ++ [colon]) ++ trimEnd x.
Proof.
  intros Hc (h & t & -> & Hh). unfold trim.
  cbn [app]. rewrite (trimStart_kept h _ Hh).
  change (h :: (t ++ [colon]) ++ x) with (((h :: t) ++ [colon]) ++ x).
  now rewrite trimEnd_after.
Qed.

Lemma remove_first_prefix (p x : jsstring) : remove_first (p ++ x) p = x.
Proof.
  unfold remove_first. rewrite indexOf_prefix. cbn [Z.eqb Z.to_nat firstn Nat.add app].
  rewrite skipn_app, skipn_all, Nat.sub_diag. reflexivity.
Qed.

Lemma trim_after_space (x : jsstring) : trim (trimEnd (32%N :: x)) = trim x.
Proof. now rewrite trim_trimEnd. Qed.

Lemma render_section_line (x : jsstring) :
  render_line (js "SECTION: " ++ x) = SectionRow (trim x).
Proof.
  unfold render_line.
  change (js "SECTION: " ++ x) with ((js "SECTION" ++ [58%N]) ++ 32%N :: x).
  rewrite trim_labelled; [|reflexivity | eexists; eexists; split; reflexivity].
  change (js "SECTION" ++ [58%N]) with (js "SECTION:").
  rewrite startsWith_app, remove_first_prefix. now rewrite trim_after_space.
Qed.

Lemma render_current_line (x : jsstring) :
  render_line (js "CURRENT: " ++ x) = CurrentRow (trim x).
Proof.
  unfold render_line.
  change (js "CURRENT: " ++ x) with ((js "CURRENT" ++ [58%N]) ++ 32%N :: x).
  rewrite trim_labelled; [|reflexivity | eexists; eexists; split; reflexivity].
  change (js "CURRENT" ++ [58%N]) with (js "CURRENT:").
  replace (startsWith (js "CURRENT:" ++ trimEnd (32%N :: x)) (js "SECTION:"))
    with false by reflexivity.
  rewrite startsWith_app, remove_first_prefix. now rewrite trim_after_space.
Qed.

Lemma render_change_line (x : jsstring) :
  render_line (js "CHANGE TO: " ++ x) = ChangeRow (trim x).
Proof.
  unfold render_line.
  change (js "CHANGE TO: " ++ x) with ((js "CHANGE TO" ++ [58%N]) ++ 32%N :: x).
  rewrite trim_labelled; [|reflexivity | eexists; eexists; split; reflexivity].
  change (js "CHANGE TO" ++ [58%N]) with (js "CHANGE TO:").
  replace (startsWith (js "CHANGE TO:" ++ trimEnd (32%N :: x)) (js "SECTION:"))
    with false by reflexivity.
  replace (startsWith (js "CHANGE TO:" ++ trimEnd (32%N :: x)) (js "CURRENT:"))
    with false by reflexivity.
  rewrite startsWith_app, remove_first_prefix. now rewrite trim_after_space.
Qed.

Lemma no_newline_app (a b : jsstring) :
  ~ In 10%N a -> ~ In 10%N b -> ~ In 10%N (a ++ b).
Proof.
  intros Ha Hb H. apply in_app_or in H. tauto.
Qed.

(** X27.  A record written in the format the prompt asks for is shown as
    what it says: its three lines become a section heading, a current
    text and a replacement text, each without its label and without the
    white space around it. *)
Theorem record_is_rendered_by_its_labels (sectionName currentText changeText : jsstring) :
  ~ In 10%N sectionName -> ~ In 10%N currentText -> ~ In 10%N changeText ->
  render (record sectionName currentText changeText)
  = [SectionRow (trim sectionName); CurrentRow (trim currentText);
     ChangeRow (trim changeText)].
Proof.
  intros Hs Hc Ht. unfold render, record.
  replace (js "SECTION: " ++ sectionName ++ [10%N]
           ++ js "CURRENT: " ++ currentText ++ [10%N] ++ js "CHANGE TO: " ++ changeText)
    with ((js "SECTION: " ++ sectionName)
          ++ 10%N :: ((js "CURRENT: " ++ currentText)
                      ++ 10%N :: (js "CHANGE TO: " ++ changeText)))
    by (rewrite <- !app_assoc; reflexivity).
  assert (Hlit : forall l : string, ~ In 10%N (js l) -> forall x, ~ In 10%N x ->
                                    ~ In 10%N (js l ++ x))
    by (intros l Hl x Hx; now apply no_newline_app).
  rewrite split_lines_app
    by (apply Hlit; [vm_compute; intuition discriminate | exact Hs]).
  rewrite split_lines_app
    by (apply Hlit; [vm_compute; intuition discriminate | exact Hc]).
  rewrite split_lines_plain
    by (apply Hlit; [vm_compute; intuition discriminate | exact Ht]).
  cbn [List.map].
  now rewrite render_section_line, render_current_line, render_change_line.
Qed.

Lemma record_is_rendered_by_its_labels_witness :
  render (record (js "Skills ") (js " Java") (js "Rust and Go"))
  = [SectionRow (js "Skills"); CurrentRow (js "Java"); ChangeRow (js "Rust and Go")].
Proof.
  rewrite (record_is_rendered_by_its_labels (js "Skills ") (js " Java") (js "Rust and Go"));
    [reflexivity | | | ]; vm_compute; intuition discriminate.
Defined.

End ChangesRendering.
